(** * vcon-utils: the Dialog fragment (src/dialog.py)

    A shallow embedding of the [Dialog] class: its attribute dictionary, the
    dictionaries it shares with its caller, construction, the
    content-attachment and conversion methods, the video metadata helpers,
    the classifiers, the dictionary form and the integrity predicate,
    together with the properties of the specification that concern them
    and further properties read off the code.

    Python values are modelled as the code has them.  A [str] is a sequence of
    code points, a [bytes] object a sequence of bytes; the instance is its
    [__dict__] (attribute name to value); a [dict] lives in a store and is
    referred to by address, so that two attributes can name one dictionary.
    The library calls the class makes ([str.encode], [bytes.decode],
    [hashlib.sha256], [base64.urlsafe_b64encode], [base64.urlsafe_b64decode])
    are written out; the network, the date parser and the Unicode tables are
    an environment the methods are run in. *)

From stdpp Require Import gmap strings list fin_maps.
From Stdlib Require Import ZArith NArith.
From Stdlib.Strings Require Import Byte Ascii.
From Stdlib Require DecimalString.

Open Scope N_scope.

(** ** Strings and bytes *)

(** A Python [str]: its code points, each below [0x110000]. *)
Abbreviation pystr := (list N).
(** A Python [bytes] object. *)
Abbreviation pybytes := (list byte).

Definition byte_of_N (n : N) : byte :=
  match Byte.of_N (n mod 256) with Some b => b | None => x00 end.

(** A literal of the source, written as a Rocq string of ASCII characters. *)
Definition py (s : string) : list N :=
  map N_of_ascii (String.list_ascii_of_string s).

Module Utf8.

(** [str.encode()] with the default codec and error handler (UTF-8, strict)
    for one code point.  A surrogate ([0xD800]-[0xDFFF]) has no encoding:
    the codec raises [UnicodeEncodeError]. *)
Definition encode_cp (c : N) : option (list byte) :=
  if c <? 0x80 then Some [byte_of_N c]
  else if c <? 0x800 then
    Some [byte_of_N (N.lor 0xC0 (N.shiftr c 6));
          byte_of_N (N.lor 0x80 (N.land c 0x3F))]
  else if c <? 0x10000 then
    if (0xD800 <=? c) && (c <=? 0xDFFF) then None
    else
      Some [byte_of_N (N.lor 0xE0 (N.shiftr c 12));
            byte_of_N (N.lor 0x80 (N.land (N.shiftr c 6) 0x3F));
            byte_of_N (N.lor 0x80 (N.land c 0x3F))]
  else if c <? 0x110000 then
    Some [byte_of_N (N.lor 0xF0 (N.shiftr c 18));
          byte_of_N (N.lor 0x80 (N.land (N.shiftr c 12) 0x3F));
          byte_of_N (N.lor 0x80 (N.land (N.shiftr c 6) 0x3F));
          byte_of_N (N.lor 0x80 (N.land c 0x3F))]
  else None.

Fixpoint encode (s : list N) : option (list byte) :=
  match s with
  | [] => Some []
  | c :: s' =>
      match encode_cp c, encode s' with
      | Some bs, Some rest => Some (bs ++ rest)
      | _, _ => None
      end
  end.

Definition is_cont (b : byte) : bool :=
  (0x80 <=? Byte.to_N b) && (Byte.to_N b <=? 0xBF).

Definition in_range (lo hi : N) (b : byte) : bool :=
  (lo <=? Byte.to_N b) && (Byte.to_N b <=? hi).

Definition low6 (b : byte) : N := N.land (Byte.to_N b) 0x3F.

(** [bytes.decode('utf-8')], strict: the well-formed byte sequences of the
    Unicode standard (no overlong form, no surrogate, nothing above
    [0x10FFFF]); anything else raises [UnicodeDecodeError]. *)
Fixpoint decode (bs : list byte) : option (list N) :=
  match bs with
  | [] => Some []
  | b0 :: r0 =>
      let n0 := Byte.to_N b0 in
      if n0 <? 0x80 then cons n0 <$> decode r0
      else if in_range 0xC2 0xDF b0 then
        match r0 with
        | b1 :: r1 =>
            if is_cont b1
            then cons (N.lor (N.shiftl (N.land n0 0x1F) 6) (low6 b1)) <$> decode r1
            else None
        | _ => None
        end
      else if in_range 0xE0 0xEF b0 then
        match r0 with
        | b1 :: b2 :: r2 =>
            let ok1 :=
              if n0 =? 0xE0 then in_range 0xA0 0xBF b1
              else if n0 =? 0xED then in_range 0x80 0x9F b1
              else is_cont b1 in
            if ok1 && is_cont b2
            then cons (N.lor (N.shiftl (N.land n0 0x0F) 12)
                         (N.lor (N.shiftl (low6 b1) 6) (low6 b2))) <$> decode r2
            else None
        | _ => None
        end
      else if in_range 0xF0 0xF4 b0 then
        match r0 with
        | b1 :: b2 :: b3 :: r3 =>
            let ok1 :=
              if n0 =? 0xF0 then in_range 0x90 0xBF b1
              else if n0 =? 0xF4 then in_range 0x80 0x8F b1
              else is_cont b1 in
            if ok1 && is_cont b2 && is_cont b3
            then cons (N.lor (N.shiftl (N.land n0 0x07) 18)
                         (N.lor (N.shiftl (low6 b1) 12)
                            (N.lor (N.shiftl (low6 b2) 6) (low6 b3)))) <$> decode r3
            else None
        | _ => None
        end
      else None
  end.

End Utf8.


Module Base64.

(** The standard alphabet, by 6-bit value ([binascii.b2a_base64]). *)
Definition b2a (v : N) : byte :=
  if v <? 26 then byte_of_N (65 + v)
  else if v <? 52 then byte_of_N (97 + (v - 26))
  else if v <? 62 then byte_of_N (48 + (v - 52))
  else if v =? 62 then "+"%byte
  else "/"%byte.

(** [base64.b64encode]: three bytes to four characters, padded with [=]. *)
Fixpoint b64encode (bs : list byte) : list byte :=
  match bs with
  | [] => []
  | [a] =>
      let x := Byte.to_N a in
      [b2a (N.shiftr x 2); b2a (N.shiftl (N.land x 3) 4); "="%byte; "="%byte]
  | [a; b] =>
      let x := Byte.to_N a in
      let y := Byte.to_N b in
      [b2a (N.shiftr x 2);
       b2a (N.lor (N.shiftl (N.land x 3) 4) (N.shiftr y 4));
       b2a (N.shiftl (N.land y 15) 2); "="%byte]
  | a :: b :: c :: rest =>
      let x := Byte.to_N a in
      let y := Byte.to_N b in
      let z := Byte.to_N c in
      b2a (N.shiftr x 2)
      :: b2a (N.lor (N.shiftl (N.land x 3) 4) (N.shiftr y 4))
      :: b2a (N.lor (N.shiftl (N.land y 15) 2) (N.shiftr z 6))
      :: b2a (N.land z 63)
      :: b64encode rest
  end.

(** [bytes.translate(_urlsafe_encode_translation)]: [+] to [-], [/] to [_]. *)
Definition urlsafe_encode_translation (b : byte) : byte :=
  if Byte.eqb b "+" then "-"%byte else if Byte.eqb b "/" then "_"%byte else b.

(** [base64.urlsafe_b64encode]. *)
Definition urlsafe_b64encode (bs : list byte) : list byte :=
  map urlsafe_encode_translation (b64encode bs).

(** [bytes.translate(_urlsafe_decode_translation)]: [-] to [+], [_] to [/]. *)
Definition urlsafe_decode_translation (b : byte) : byte :=
  if Byte.eqb b "-" then "+"%byte else if Byte.eqb b "_" then "/"%byte else b.

(** [binascii]'s decoding table: the 6-bit value of a character of the
    standard alphabet, nothing for any other byte. *)
Definition a2b (b : byte) : option N :=
  let n := Byte.to_N b in
  if (65 <=? n) && (n <=? 90) then Some (n - 65)
  else if (97 <=? n) && (n <=? 122) then Some (n - 97 + 26)
  else if (48 <=? n) && (n <=? 57) then Some (n - 48 + 52)
  else if n =? 43 then Some 62
  else if n =? 47 then Some 63
  else None.

(** [binascii.a2b_base64] in its default, non-strict mode: bytes outside the
    alphabet are skipped; a pad that completes a quad ends the decoding;
    input that ends inside a quad raises [binascii.Error]. *)
Fixpoint a2b_base64_loop (bs : list byte) (quad_pos leftchar pads : N)
    (out : list byte) : option (list byte) :=
  match bs with
  | [] => if quad_pos =? 0 then Some out else None
  | this_ch :: rest =>
      if Byte.eqb this_ch "=" then
        if 2 <=? quad_pos then
          if 4 <=? quad_pos + (pads + 1) then Some out
          else a2b_base64_loop rest quad_pos leftchar (pads + 1) out
        else a2b_base64_loop rest quad_pos leftchar pads out
      else
        match a2b this_ch with
        | None => a2b_base64_loop rest quad_pos leftchar pads out
        | Some v =>
            if quad_pos =? 0 then a2b_base64_loop rest 1 v 0 out
            else if quad_pos =? 1 then
              a2b_base64_loop rest 2 (N.land v 0x0f) 0
                (out ++ [byte_of_N (N.lor (N.shiftl leftchar 2) (N.shiftr v 4))])
            else if quad_pos =? 2 then
              a2b_base64_loop rest 3 (N.land v 0x03) 0
                (out ++ [byte_of_N (N.lor (N.shiftl leftchar 4) (N.shiftr v 2))])
            else
              a2b_base64_loop rest 0 0 0
                (out ++ [byte_of_N (N.lor (N.shiftl leftchar 6) v)])
        end
  end.

(** [base64.urlsafe_b64decode] of a [bytes] argument. *)
Definition urlsafe_b64decode (s : list byte) : option (list byte) :=
  a2b_base64_loop (map urlsafe_decode_translation s) 0 0 0 [].

End Base64.

Module Sha256.

Local Open Scope Z_scope.

(** [hashlib.sha256(data).digest()], FIPS 180-4, on 32-bit words kept in [Z]
    with their wrap-around written out. *)

Definition add32 (x y : Z) : Z := (x + y) mod 2 ^ 32.
Definition rotr (n x : Z) : Z :=
  Z.lor (Z.shiftr x n) (Z.shiftl x (32 - n) mod 2 ^ 32).
Definition not32 (x : Z) : Z := Z.lxor x 0xFFFFFFFF.
Definition Ch (x y z : Z) : Z := Z.lxor (Z.land x y) (Z.land (not32 x) z).
Definition Maj (x y z : Z) : Z :=
  Z.lxor (Z.lxor (Z.land x y) (Z.land x z)) (Z.land y z).
Definition bsig0 (x : Z) : Z := Z.lxor (Z.lxor (rotr 2 x) (rotr 13 x)) (rotr 22 x).
Definition bsig1 (x : Z) : Z := Z.lxor (Z.lxor (rotr 6 x) (rotr 11 x)) (rotr 25 x).
Definition ssig0 (x : Z) : Z := Z.lxor (Z.lxor (rotr 7 x) (rotr 18 x)) (Z.shiftr x 3).
Definition ssig1 (x : Z) : Z := Z.lxor (Z.lxor (rotr 17 x) (rotr 19 x)) (Z.shiftr x 10).

(** The constants are defined as the standard defines them: the first 32
    bits of the fractional parts of the cube roots (for the rounds) and of
    the square roots (for the initial state) of the first primes. *)
Definition is_prime (n : Z) : bool :=
  forallb (fun d => negb (n mod d =? 0)) (map Z.of_nat (seq 2 (Z.to_nat n - 2))).

Definition first_primes (count : nat) : list Z :=
  firstn count (filter is_prime (map Z.of_nat (seq 2 310))).

(** The integer cube root, bit by bit from bit 35 down. *)
Definition cube_root (n : Z) : Z :=
  fold_left (fun r b => if (r + 2 ^ b) ^ 3 <=? n then r + 2 ^ b else r)
            (rev (map Z.of_nat (seq 0 36))) 0.

Definition K : list Z :=
  Eval vm_compute in
    map (fun p => cube_root (p * 2 ^ 96) mod 2 ^ 32) (first_primes 64).

Definition H0 : list Z :=
  Eval vm_compute in
    map (fun p => Z.sqrt (p * 2 ^ 64) mod 2 ^ 32) (first_primes 8).

(** Big-endian bytes of the low [8 * n] bits of [x]. *)
Fixpoint be_bytes (n : nat) (x : Z) : list Z :=
  match n with
  | O => []
  | S n' => (Z.shiftr x (8 * Z.of_nat n')) mod 256 :: be_bytes n' x
  end.

(** The message, a [1] bit, zeros up to 56 modulo 64, the length in bits. *)
Definition pad (msg : list Z) : list Z :=
  let len := Z.of_nat (length msg) in
  msg ++ [0x80] ++ repeat 0 (Z.to_nat ((55 - len) mod 64)) ++ be_bytes 8 (8 * len).

Fixpoint be_words (n : nat) (bs : list Z) : list Z :=
  match n with
  | O => []
  | S n' =>
      match bs with
      | a :: b :: c :: d :: rest =>
          (Z.shiftl a 24 + Z.shiftl b 16 + Z.shiftl c 8 + d) :: be_words n' rest
      | _ => []
      end
  end.

(** The message schedule, latest word first: [extend n w] adds [n] words to
    a schedule holding at least sixteen. *)
Fixpoint extend (n : nat) (w : list Z) : list Z :=
  match n with
  | O => w
  | S n' =>
      let wt := add32 (add32 (ssig1 (nth 1 w 0)) (nth 6 w 0))
                      (add32 (ssig0 (nth 14 w 0)) (nth 15 w 0)) in
      extend n' (wt :: w)
  end.

Definition schedule (block : list Z) : list Z :=
  rev (extend 48 (rev (be_words 16 block))).

Definition round (s : list Z) (kw : Z * Z) : list Z :=
  match s with
  | [a; b; c; d; e; f; g; h] =>
      let t1 := add32 (add32 (add32 h (bsig1 e)) (add32 (Ch e f g) (fst kw))) (snd kw) in
      let t2 := add32 (bsig0 a) (Maj a b c) in
      [add32 t1 t2; a; b; c; add32 d t1; e; f; g]
  | _ => s
  end.

Definition compress (h : list Z) (block : list Z) : list Z :=
  let s := fold_left round (combine K (schedule block)) h in
  map (fun p => add32 (fst p) (snd p)) (combine h s).

Fixpoint blocks (fuel : nat) (bs : list Z) : list (list Z) :=
  match fuel with
  | O => []
  | S fuel' =>
      match bs with
      | [] => []
      | _ => firstn 64 bs :: blocks fuel' (skipn 64 bs)
      end
  end.

Definition sha256_Z (msg : list Z) : list Z :=
  let padded := pad msg in
  let h := fold_left compress (blocks (length padded) padded) H0 in
  flat_map (be_bytes 4) h.

Definition sha256 (data : list byte) : list byte :=
  map (fun z => byte_of_N (Z.to_N z))
      (sha256_Z (map (fun b => Z.of_N (Byte.to_N b)) data)).

End Sha256.

(** ** Values, exceptions and the program state *)

(** The Python values the class stores and tests. *)
Inductive value :=
  | VNone
  | VBool (b : bool)
  | VInt (z : Z)
  | VFloat (bits : Z)           (* a float, by its IEEE-754 bits; only stored *)
  | VStr (s : list N)
  | VBytes (b : list byte)
  | VInts (l : list Z)          (* a list of int, as [parties] *)
  | VDict (l : N)               (* a dict, by its address in the store *)
  | VObject (id : N) (truth : bool).
                                (* any other object, by identity and truth value *)

Inductive exn :=
  | ValueError (msg : list N)
  | ParserError (timestr : list N)   (* dateutil's, a subclass of ValueError *)
  | PlainException (msg : list N)    (* [raise Exception(msg)] *)
  | AttributeError (name : string)
  | TypeError
  | UnicodeEncodeError
  | UnicodeDecodeError
  | BinasciiError
  | RequestException (name : string). (* raised by [requests] itself *)

(** The state a method runs in: the instance's [__dict__], the dictionaries
    reachable from it and from the caller, and what was printed. *)
Record state := State {
  self_dict : gmap string value;
  store : gmap N (gmap string value);
  stdout : list exn
}.

Inductive outcome (A : Type) :=
  | Ret (a : A)
  | Raise (e : exn).
Arguments Ret {A} a.
Arguments Raise {A} e.

(** A method body: it runs in a state and returns or raises; the writes made
    before an exception stay made. *)
Definition M (A : Type) : Type := state -> outcome A * state.

Definition ret {A} (a : A) : M A := fun σ => (Ret a, σ).
Definition raise {A} (e : exn) : M A := fun σ => (Raise e, σ).
Definition bind {A B} (m : M A) (f : A -> M B) : M B :=
  fun σ => match m σ with
           | (Ret a, σ') => f a σ'
           | (Raise e, σ') => (Raise e, σ')
           end.

(** [try: m except <catches> as e: h e] *)
Definition try_except {A} (catches : exn -> bool) (m : M A) (h : exn -> M A) : M A :=
  fun σ => match m σ with
           | (Raise e, σ') => if catches e then h e σ' else (Raise e, σ')
           | r => r
           end.

Declare Scope py_scope.
Delimit Scope py_scope with py_.
Notation "x <- m ;; k" := (bind m (fun x => k))
  (at level 100, m at next level, right associativity,
   format "'[v' x  <-  m  ;;  '/' k ']'") : py_scope.
Notation "m ;;; k" := (bind m (fun _ => k))
  (at level 100, right associativity,
   format "'[v' m  ;;;  '/' k ']'") : py_scope.
Open Scope py_scope.

Definition when (b : bool) (m : M unit) : M unit := if b then m else ret tt.

Fixpoint for_each {A} (l : list A) (body : A -> M unit) : M unit :=
  match l with
  | [] => ret tt
  | x :: l' => body x ;;; for_each l' body
  end.

(** *** Attributes *)

Definition hasattr (name : string) : M bool :=
  fun σ => (Ret (bool_decide (is_Some (self_dict σ !! name))), σ).

Definition getattr (name : string) : M value :=
  fun σ => match self_dict σ !! name with
           | Some v => (Ret v, σ)
           | None => (Raise (AttributeError name), σ)
           end.

Definition setattr (name : string) (v : value) : M unit :=
  fun σ => (Ret tt, State (<[name := v]> (self_dict σ)) (store σ) (stdout σ)).

Definition delattr (name : string) : M unit :=
  fun σ => match self_dict σ !! name with
           | Some _ => (Ret tt, State (delete name (self_dict σ)) (store σ) (stdout σ))
           | None => (Raise (AttributeError name), σ)
           end.

Definition print (e : exn) : M unit :=
  fun σ => (Ret tt, State (self_dict σ) (store σ) (stdout σ ++ [e])).

(** *** Dictionaries in the store *)

(** The contents of the dict at an address (an address of no dict, which no
    Python program can hold, reads as the empty dict). *)
Definition deref (σ : state) (l : N) : gmap string value :=
  default ∅ (store σ !! l).

(** A new dict: [{}] or a copy. *)
Definition dict_new (m : gmap string value) : M value :=
  fun σ => let l := fresh (dom (store σ)) in
           (Ret (VDict l), State (self_dict σ) (<[l := m]> (store σ)) (stdout σ)).

(** [d.copy()] *)
Definition dict_copy (d : value) : M value :=
  match d with
  | VDict l => fun σ => dict_new (deref σ l) σ
  | VInts l => ret (VInts l)
  | _ => raise (AttributeError "copy")
  end.

(** [d.update(other)]: the entries of [other] win. *)
Definition dict_update (d : value) (other : N) : M unit :=
  match d with
  | VDict l =>
      fun σ => (Ret tt, State (self_dict σ)
                          (<[l := deref σ other ∪ deref σ l]> (store σ)) (stdout σ))
  | _ => raise (AttributeError "update")
  end.

(** [d[key] = v] *)
Definition dict_setitem (d : value) (key : string) (v : value) : M unit :=
  match d with
  | VDict l =>
      fun σ => (Ret tt, State (self_dict σ)
                          (<[l := <[key := v]> (deref σ l)]> (store σ)) (stdout σ))
  | _ => raise TypeError
  end.

(** Python's truth value of an object. *)
Definition truthy (σ : state) (v : value) : bool :=
  match v with
  | VNone => false
  | VBool b => b
  | VInt z => negb (z =? 0)%Z
  | VFloat bits => negb ((bits =? 0)%Z || (bits =? 0x8000000000000000)%Z)
  | VStr s => negb (bool_decide (s = []))
  | VBytes b => match b with [] => false | _ => true end
  | VInts l => negb (bool_decide (l = []))
  | VDict l => negb (bool_decide (deref σ l = ∅))
  | VObject _ truth => truth
  end.

Definition truth (v : value) : M bool := fun σ => (Ret (truthy σ v), σ).

(** ** String methods *)

(** [s.split(sep)] for a one-character separator: never an empty list. *)
Fixpoint str_split (sep : N) (s : list N) : list (list N) :=
  match s with
  | [] => [[]]
  | c :: s' =>
      if c =? sep then [] :: str_split sep s'
      else match str_split sep s' with
           | h :: t => (c :: h) :: t
           | [] => [[c]]
           end
  end.

(** [s.split(sep)[-1]] and [s.split(sep)[0]] *)
Definition split_last (sep : N) (s : list N) : list N := List.last (str_split sep s) [].
Definition split_first (sep : N) (s : list N) : list N := List.hd [] (str_split sep s).

Definition dot : N := 46.
Definition slash : N := 47.
Definition question_mark : N := 63.

Definition is_ascii (c : N) : bool := c <? 128.

Definition ascii_lower (c : N) : N :=
  if (65 <=? c) && (c <=? 90) then c + 32 else c.

Definition is_digit (c : N) : bool := (48 <=? c) && (c <=? 57).

Definition decimal_value (s : list N) : Z :=
  fold_left (fun acc c => (10 * acc + Z.of_N (c - 48))%Z) s 0%Z.

(** [str(n)] for an int. *)
Definition str_of_int (n : Z) : list N :=
  py (DecimalString.NilZero.string_of_int (Z.to_int n)).

(** [repr] of a list of strings that hold no quote, backslash or control
    character: ['a', 'b']. *)
Definition repr_str (s : list N) : list N := py "'" ++ s ++ py "'".
Fixpoint join (sep : list N) (l : list (list N)) : list N :=
  match l with
  | [] => []
  | [x] => x
  | x :: l' => x ++ sep ++ join sep l'
  end.
Definition repr_str_list (l : list (list N)) : list N :=
  py "[" ++ join (py ", ") (map repr_str l) ++ py "]".

(** [str.encode()] of an attribute value: only a [str] has the method. *)
Definition str_encode (v : value) : M (list byte) :=
  match v with
  | VStr s => match Utf8.encode s with
              | Some bs => ret bs
              | None => raise UnicodeEncodeError
              end
  | _ => raise (AttributeError "encode")
  end.

(** [bytes.decode()] *)
Definition bytes_decode (bs : list byte) : M (list N) :=
  match Utf8.decode bs with
  | Some s => ret s
  | None => raise UnicodeDecodeError
  end.

(** [base64.urlsafe_b64decode(bs)] *)
Definition urlsafe_b64decode (bs : list byte) : M (list byte) :=
  match Base64.urlsafe_b64decode bs with
  | Some out => ret out
  | None => raise BinasciiError
  end.

(** ** The environment *)

(** What a request returns: the status, the body and the two headers read. *)
Record Response := {
  status_code : Z;
  content : list byte;
  content_type : option (list N);
  content_length : option (list N)
}.

Inductive net_result :=
  | Responded (r : Response)
  | Failed (name : string).   (* [requests] raised: no connection, bad URL, ... *)

(** The collaborators the class calls.  Case mapping and [int()] are given
    by the environment only where the plain ASCII rule does not apply. *)
Record Env := {
  requests_head : list N -> net_result;     (* [requests.head(url, allow_redirects=True)] *)
  requests_get : value -> net_result;       (* [requests.get(url)] *)
  parser_parse : list N -> option (list N); (* [parser.parse(s).isoformat()], or ParserError *)
  lower_unicode : list N -> list N;         (* [s.lower()] of a string that is not all ASCII *)
  int_other : list N -> option Z            (* [int(s)] of a string that is not all digits *)
}.

(** ** The Dialog class *)

(** The arguments of [Dialog(...)], typed as the signature annotates them;
    [None] stands for an argument left at its default. *)
Inductive start_arg :=
  | StartDatetime (isoformat : list N)   (* a datetime, by its [isoformat()] *)
  | StartStr (s : list N).

Record InitArgs := {
  arg_type : list N;
  arg_start : start_arg;
  arg_parties : list Z;
  arg_originator : option Z;
  arg_mimetype : option (list N);
  arg_filename : option (list N);
  arg_body : option (list N);
  arg_encoding : option (list N);
  arg_url : option (list N);
  arg_alg : option (list N);
  arg_signature : option (list N);
  arg_disposition : option (list N);
  arg_party_history : option N;          (* the list object, by identity *)
  arg_transferee : option Z;
  arg_transferor : option Z;
  arg_transfer_target : option Z;
  arg_original : option Z;
  arg_consultation : option Z;
  arg_target_dialog : option Z;
  arg_campaign : option (list N);
  arg_interaction : option (list N);
  arg_skill : option (list N);
  arg_duration : option Z;               (* float bits *)
  arg_meta : option N;                   (* dicts, by address *)
  arg_metadata : option N;
  arg_transfer : option N;
  arg_signaling : option N;
  arg_resolution : option (list N);
  arg_frame_rate : option Z;             (* float bits *)
  arg_codec : option (list N);
  arg_bitrate : option Z;
  arg_thumbnail : option (list N)
}.

(** The named parameters of [__init__]: a keyword argument of one of these
    names is bound to the parameter and never reaches [**kwargs]. *)
Definition init_params : list string :=
  [ "self"; "type"; "start"; "parties"; "originator"; "mimetype"; "filename";
    "body"; "encoding"; "url"; "alg"; "signature"; "disposition";
    "party_history"; "transferee"; "transferor"; "transfer_target";
    "original"; "consultation"; "target_dialog"; "campaign"; "interaction";
    "skill"; "duration"; "meta"; "metadata"; "transfer"; "signaling";
    "resolution"; "frame_rate"; "codec"; "bitrate"; "thumbnail" ].

(** [locals().items()] after [start] was normalised, without [self] and
    [kwargs]; [None] for a parameter that is [None]. *)
Definition init_locals (a : InitArgs) (start : list N) : list (string * option value) :=
  [ ("type", Some (VStr (arg_type a)));
    ("start", Some (VStr start));
    ("parties", Some (VInts (arg_parties a)));
    ("originator", VInt <$> arg_originator a);
    ("mimetype", VStr <$> arg_mimetype a);
    ("filename", VStr <$> arg_filename a);
    ("body", VStr <$> arg_body a);
    ("encoding", VStr <$> arg_encoding a);
    ("url", VStr <$> arg_url a);
    ("alg", VStr <$> arg_alg a);
    ("signature", VStr <$> arg_signature a);
    ("disposition", VStr <$> arg_disposition a);
    ("party_history", (fun id => VObject id true) <$> arg_party_history a);
    ("transferee", VInt <$> arg_transferee a);
    ("transferor", VInt <$> arg_transferor a);
    ("transfer_target", VInt <$> arg_transfer_target a);
    ("original", VInt <$> arg_original a);
    ("consultation", VInt <$> arg_consultation a);
    ("target_dialog", VInt <$> arg_target_dialog a);
    ("campaign", VStr <$> arg_campaign a);
    ("interaction", VStr <$> arg_interaction a);
    ("skill", VStr <$> arg_skill a);
    ("duration", VFloat <$> arg_duration a);
    ("meta", VDict <$> arg_meta a);
    ("metadata", VDict <$> arg_metadata a);
    ("transfer", VDict <$> arg_transfer a);
    ("signaling", VDict <$> arg_signaling a);
    ("resolution", VStr <$> arg_resolution a);
    ("frame_rate", VFloat <$> arg_frame_rate a);
    ("codec", VStr <$> arg_codec a);
    ("bitrate", VInt <$> arg_bitrate a);
    ("thumbnail", VStr <$> arg_thumbnail a) ].

Definition VALID_TYPES : list (list N) :=
  [ py "recording"; py "text"; py "transfer"; py "incomplete"; py "audio"; py "video" ].

Definition AUDIO_MIMETYPES : list (list N) :=
  [ py "audio/x-wav"; py "audio/wav"; py "audio/wave"; py "audio/mpeg";
    py "audio/mp3"; py "audio/ogg"; py "audio/webm"; py "audio/x-m4a";
    py "audio/aac" ].

Definition VIDEO_MIMETYPES : list (list N) :=
  [ py "video/x-mp4"; py "video/ogg"; py "video/mp4"; py "video/quicktime";
    py "video/webm"; py "video/x-msvideo"; py "video/x-matroska";
    py "video/mpeg"; py "video/x-flv"; py "video/3gpp"; py "video/x-m4v" ].

(** [v is None] *)
Definition is_None (v : value) : bool :=
  match v with VNone => true | _ => false end.

(** [v == s] and [v in l] for string literals: no other value equals a str. *)
Definition value_is (v : value) (s : list N) : bool :=
  match v with VStr s' => bool_decide (s' = s) | _ => false end.
Definition value_in (v : value) (l : list (list N)) : bool :=
  match v with VStr s => bool_decide (s ∈ l) | _ => false end.

(** [f"Invalid dialog type: {type}. Must be one of {self.VALID_TYPES}"] *)
Definition invalid_type_message (type : list N) : list N :=
  py "Invalid dialog type: " ++ type ++ py ". Must be one of "
    ++ repr_str_list VALID_TYPES.

Definition incomplete_message : list N :=
  py "Dialog type 'incomplete' requires a disposition".

(** [f"Failed to fetch external data metadata: {response.status_code}"] and
    [f"Failed to fetch external data: {response.status_code}"] *)
Definition head_failed_message (status : Z) : list N :=
  py "Failed to fetch external data metadata: " ++ str_of_int status.
Definition get_failed_message (status : Z) : list N :=
  py "Failed to fetch external data: " ++ str_of_int status.

(** The mimetype chain of [__init__] (lines 227-247), on the lowered
    extension. *)
Definition init_mimetype_of_ext (ext : list N) : list N :=
  if bool_decide (ext = py "mp4") then py "video/mp4"
  else if bool_decide (ext = py "mov") then py "video/quicktime"
  else if bool_decide (ext = py "webm") then py "video/webm"
  else if bool_decide (ext = py "avi") then py "video/x-msvideo"
  else if bool_decide (ext = py "mkv") then py "video/x-matroska"
  else if bool_decide (ext ∈ [py "mpg"; py "mpeg"]) then py "video/mpeg"
  else if bool_decide (ext = py "flv") then py "video/x-flv"
  else if bool_decide (ext = py "3gp") then py "video/3gpp"
  else if bool_decide (ext = py "m4v") then py "video/x-m4v"
  else py "video/mp4".

(** The mimetype chain of [add_video_data] (lines 386-406). *)
Definition add_video_mimetype_of_ext (ext : list N) : list N :=
  if bool_decide (ext = py "mp4") then py "video/mp4"
  else if bool_decide (ext = py "mov") then py "video/quicktime"
  else if bool_decide (ext = py "webm") then py "video/webm"
  else if bool_decide (ext = py "avi") then py "video/x-msvideo"
  else if bool_decide (ext = py "mkv") then py "video/x-matroska"
  else if bool_decide (ext ∈ [py "mpg"; py "mpeg"]) then py "video/mpeg"
  else if bool_decide (ext = py "flv") then py "video/x-flv"
  else if bool_decide (ext = py "3gp") then py "video/3gpp"
  else if bool_decide (ext = py "m4v") then py "video/x-m4v"
  else py "video/mp4".

Section Dialog.

Context (env : Env).

(** [s.lower()] *)
Definition str_lower (s : list N) : list N :=
  if forallb is_ascii s then map ascii_lower s else lower_unicode env s.

(** [int(s)] for a str *)
Definition py_int (s : list N) : M Z :=
  if forallb is_digit s && negb (bool_decide (s = [])) then ret (decimal_value s)
  else match int_other env s with
       | Some n => ret n
       | None => raise (ValueError (py "invalid literal for int()"))
       end.

(** [v.split('.')[-1].lower()]: a [str] method called with a [str]. *)
Definition lowered_extension (v : value) : M (list N) :=
  match v with
  | VStr s => ret (str_lower (split_last dot s))
  | VBytes _ => raise TypeError
  | _ => raise (AttributeError "split")
  end.

(** [v.split("/")[-1]] *)
Definition last_path_segment (v : value) : M (list N) :=
  match v with
  | VStr s => ret (split_last slash s)
  | VBytes _ => raise TypeError
  | _ => raise (AttributeError "split")
  end.

Definition http_head (url : list N) : M Response :=
  match requests_head env url with
  | Responded r => ret r
  | Failed name => raise (RequestException name)
  end.

Definition http_get (url : value) : M Response :=
  match requests_get env url with
  | Responded r => ret r
  | Failed name => raise (RequestException name)
  end.

(** *** Classification (lines 494-596) *)

Definition is_external_data_of (d : gmap string value) : bool :=
  bool_decide (is_Some (d !! "url")).

Definition is_external_data : M bool :=
  fun σ => (Ret (is_external_data_of (self_dict σ)), σ).

Definition is_inline_data : M bool :=
  e <- is_external_data ;; ret (negb e).

Definition is_audio_of (d : gmap string value) : bool :=
  match d !! "mimetype" with
  | Some v => value_in v AUDIO_MIMETYPES
  | None => false
  end.

Definition is_audio : M bool := fun σ => (Ret (is_audio_of (self_dict σ)), σ).

Definition is_video_of (d : gmap string value) : bool :=
  let type_is_video :=
    match d !! "type" with Some v => value_is v (py "video") | None => false end in
  let mimetype_is_video :=
    match d !! "mimetype" with Some v => value_in v VIDEO_MIMETYPES | None => false end in
  type_is_video || mimetype_is_video.

Definition is_video : M bool := fun σ => (Ret (is_video_of (self_dict σ)), σ).

(** *** Construction (lines 80-250) *)

Definition __init__ (a : InitArgs) (kwargs : list (string * value)) : M unit :=
  let type := arg_type a in
  when (negb (bool_decide (type ∈ VALID_TYPES)))
       (raise (ValueError (invalid_type_message type))) ;;;
  start <- match arg_start a with
           | StartDatetime iso => ret iso
           | StartStr s => match parser_parse env s with
                           | Some iso => ret iso
                           | None => raise (ParserError s)
                           end
           end ;;
  for_each (init_locals a start)
    (fun kv => match kv.2 with
               | Some v => setattr kv.1 v
               | None => ret tt
               end) ;;;
  has_metadata <- hasattr "metadata" ;;
  has_meta <- hasattr "meta" ;;
  (if negb has_metadata && has_meta then
     meta <- getattr "meta" ;;
     nonempty <- truth meta ;;
     md <- (if nonempty then dict_copy meta else dict_new ∅) ;;
     setattr "metadata" md
   else if negb has_meta && has_metadata then
     metadata <- getattr "metadata" ;;
     nonempty <- truth metadata ;;
     m <- (if nonempty then dict_copy metadata else dict_new ∅) ;;
     setattr "meta" m
   else if negb has_metadata && negb has_meta then
     md <- dict_new ∅ ;;
     setattr "metadata" md ;;;
     m <- dict_new ∅ ;;
     setattr "meta" m
   else ret tt) ;;;
  for_each kwargs
    (fun kv => match kv.2 with
               | VNone => ret tt
               | v => setattr kv.1 v
               end) ;;;
  has_disposition <- hasattr "disposition" ;;
  when (bool_decide (type = py "incomplete") && negb has_disposition)
       (raise (ValueError incomplete_message)) ;;;
  has_mimetype <- hasattr "mimetype" ;;
  when (bool_decide (type = py "video") && negb has_mimetype)
       (has_filename <- hasattr "filename" ;;
        named <- (if has_filename
                  then (filename <- getattr "filename" ;; truth filename)
                  else ret false) ;;
        if named then
          filename <- getattr "filename" ;;
          ext <- lowered_extension filename ;;
          setattr "mimetype" (VStr (init_mimetype_of_ext ext))
        else setattr "mimetype" (VStr (py "video/mp4"))).

(** *** Attaching content (lines 275-344) *)

Definition add_external_data (url : list N) (filename mimetype : value) : M unit :=
  setattr "url" (VStr url) ;;;
  response <- http_head url ;;
  if (status_code response =? 200)%Z then
    let content_type := content_type response in
    let content_length := content_length response in
    given <- truth mimetype ;;
    (if given then setattr "mimetype" mimetype
     else setattr "mimetype" (from_option VStr VNone content_type)) ;;;
    named <- truth filename ;;
    (if named then setattr "filename" filename
     else
       let url_path := split_first question_mark url in
       setattr "filename" (VStr (split_last slash url_path))) ;;;
    setattr "alg" (VStr (py "external-reference")) ;;;
    setattr "encoding" (VStr (py "none")) ;;;
    video <- is_video ;;
    when video
      (known <- truth (from_option VStr VNone content_length) ;;
       when known
         (has_metadata <- hasattr "metadata" ;;
          when (negb has_metadata) (md <- dict_new ∅ ;; setattr "metadata" md) ;;;
          n <- py_int (default [] content_length) ;;
          metadata <- getattr "metadata" ;;
          dict_setitem metadata "content_length" (VInt n)))
  else raise (PlainException (head_failed_message (status_code response))).

(** [base64.urlsafe_b64encode(hashlib.sha256(data).digest()).decode()] *)
Definition signature_of (data : list byte) : M (list N) :=
  bytes_decode (Base64.urlsafe_b64encode (Sha256.sha256 data)).

Definition add_inline_data (body filename mimetype : value) : M unit :=
  setattr "body" body ;;;
  setattr "mimetype" mimetype ;;;
  setattr "filename" filename ;;;
  setattr "alg" (VStr (py "sha256")) ;;;
  setattr "encoding" (VStr (py "base64url")) ;;;
  stored <- getattr "body" ;;
  data <- str_encode stored ;;
  signature <- signature_of data ;;
  setattr "signature" (VStr signature).

(** *** Video helpers (lines 346-417 and 470-492) *)

(** [kwargs.get(key)]: the binding of [key], [None] without one (of two
    bindings of one key the later stands, as in a dict built in order). *)
Definition kwargs_get (kwargs : list (string * value)) (key : string) : value :=
  fold_left (fun found kv => if decide (kv.1 = key) then kv.2 else found) kwargs VNone.

(** [not hasattr(self, name) or self.<name> is None] *)
Definition missing_or_None (name : string) : M bool :=
  fun σ => (Ret match self_dict σ !! name with
                | None | Some VNone => true
                | Some _ => false
                end, σ).

Definition add_video_data (source : list N) (metadata : option N)
    (is_external : bool) (kwargs : list (string * value)) : M unit :=
  setattr "type" (VStr (py "video")) ;;;
  no_metadata <- missing_or_None "metadata" ;;
  when no_metadata (md <- dict_new ∅ ;; setattr "metadata" md) ;;;
  no_meta <- missing_or_None "meta" ;;
  when no_meta (m <- dict_new ∅ ;; setattr "meta" m) ;;;
  supplied <- truth (from_option VDict VNone metadata) ;;
  when supplied
    (md <- getattr "metadata" ;;
     dict_update md (default 0 metadata) ;;;
     m <- getattr "meta" ;;
     dict_update m (default 0 metadata)) ;;;
  let filename := kwargs_get kwargs "filename" in
  named <- truth filename ;;
  let filename :=
    if is_external && negb named
    then let url_path := split_first question_mark source in
         VStr (split_last slash url_path)
    else filename in
  let mimetype := kwargs_get kwargs "mimetype" in
  given <- truth mimetype ;;
  named <- truth filename ;;
  mimetype <- (if negb given && named then
                 ext <- lowered_extension filename ;;
                 ret (VStr (add_video_mimetype_of_ext ext))
               else ret mimetype) ;;
  (if is_external
   then add_external_data source filename mimetype
   else add_inline_data (VStr source) filename mimetype) ;;;
  for_each kwargs
    (fun kv =>
       when (negb (bool_decide (kv.1 ∈ ["filename"; "mimetype"]))
             && negb (is_None kv.2))
            (setattr kv.1 kv.2)).

Definition PROMOTED_KEYS : list string :=
  [ "resolution"; "frame_rate"; "codec"; "bitrate"; "duration"; "thumbnail" ].

Definition update_video_metadata (metadata : N) : M unit :=
  has_metadata <- hasattr "metadata" ;;
  when (negb has_metadata) (md <- dict_new ∅ ;; setattr "metadata" md) ;;;
  has_meta <- hasattr "meta" ;;
  when (negb has_meta) (m <- dict_new ∅ ;; setattr "meta" m) ;;;
  md <- getattr "metadata" ;;
  dict_update md metadata ;;;
  m <- getattr "meta" ;;
  dict_update m metadata ;;;
  fun σ =>
    for_each (map_to_list (deref σ metadata))
      (fun kv => when (bool_decide (kv.1 ∈ PROMOTED_KEYS)) (setattr kv.1 kv.2)) σ.

(** *** The integrity predicate (lines 598-613) *)

Definition bytes_differ (a b : list byte) : bool :=
  negb (bool_decide (map Byte.to_N a = map Byte.to_N b)).

(** The [try] block: decode the signature, hash the body, compare. *)
Definition body_hash_differs : M bool :=
  signature <- getattr "signature" ;;
  encoded <- str_encode signature ;;
  body_hash <- urlsafe_b64decode encoded ;;
  body <- getattr "body" ;;
  data <- str_encode body ;;
  ret (bytes_differ (Sha256.sha256 data) body_hash).

(** [except Exception] catches every exception of the model. *)
Definition is_Exception (e : exn) : bool := true.

Definition is_external_data_changed : M bool :=
  external <- is_external_data ;;
  if negb external then ret false
  else
    try_except is_Exception
      body_hash_differs
      (fun e => print e ;;; ret true).

(** *** External to inline (lines 617-672) *)

Definition is_UnicodeDecodeError (e : exn) : bool :=
  match e with UnicodeDecodeError => true | _ => false end.

Definition to_inline_data : M unit :=
  external <- is_external_data ;;
  if negb external then ret tt
  else
    url <- getattr "url" ;;
    response <- http_get url ;;
    raw_content <-
      (if (status_code response =? 200)%Z then
         let raw_content := content response in
         video <- is_video ;;
         audio <- is_audio ;;
         (if video || audio then
            body <- bytes_decode (Base64.urlsafe_b64encode raw_content) ;;
            setattr "body" (VStr body) ;;;
            setattr "encoding" (VStr (py "base64url"))
          else
            try_except is_UnicodeDecodeError
              (body <- bytes_decode raw_content ;;
               setattr "body" (VStr body) ;;;
               setattr "encoding" (VStr (py "none")))
              (fun _ =>
                 body <- bytes_decode (Base64.urlsafe_b64encode raw_content) ;;
                 setattr "body" (VStr body) ;;;
                 setattr "encoding" (VStr (py "base64url")))) ;;;
         unset <- (fun σ => (Ret match self_dict σ !! "mimetype" with
                                 | Some v => negb (truthy σ v)
                                 | None => true
                                 end, σ)) ;;
         when unset (setattr "mimetype" (from_option VStr VNone (content_type response))) ;;;
         ret raw_content
       else raise (PlainException (get_failed_message (status_code response)))) ;;
    setattr "alg" (VStr (py "sha256")) ;;;
    signature <- signature_of raw_content ;;
    setattr "signature" (VStr signature) ;;;
    has_filename <- hasattr "filename" ;;
    when (negb has_filename)
         (url <- getattr "url" ;;
          segment <- last_path_segment url ;;
          setattr "filename" (VStr segment)) ;;;
    delattr "url" ;;;
    video <- is_video ;;
    ret tt.

End Dialog.

Arguments py : simpl never.
Arguments str_of_int : simpl never.
Arguments split_last : simpl never.
Arguments split_first : simpl never.
Arguments str_lower : simpl never.
Arguments invalid_type_message : simpl never.
Arguments get_failed_message : simpl never.
Arguments head_failed_message : simpl never.

(** ** The specification's vocabulary *)

(** The text [bytes.decode()] gives for base64 output: its bytes. *)
Definition base64url_text (data : list byte) : list N :=
  map Byte.to_N (Base64.urlsafe_b64encode data).

(** The Integrity Engine's signing as the specification words it (4.3):
    the digest is SHA-256 over the raw bytes of the content, the signature
    the URL-safe base64 encoding of that digest. *)
Definition sha256_base64url (body : list N) : option (list N) :=
  match Utf8.encode body with
  | Some raw => Some (base64url_text (Sha256.sha256 raw))
  | None => None
  end.

(** The spec's error kinds (7), as the code raises them: [ValidationError]
    is [ValueError] (dateutil's [ParserError] is one), [FetchError] the
    plain [Exception] raised on a response status. *)
Definition is_ValidationError (e : exn) : bool :=
  match e with ValueError _ | ParserError _ => true | _ => false end.

Definition is_FetchError (e : exn) : bool :=
  match e with PlainException _ => true | _ => false end.

(** The two content-location states (I3). *)
Definition EXTERNAL (σ : state) : Prop := is_external_data_of (self_dict σ) = true.
Definition INLINE (σ : state) : Prop := is_external_data_of (self_dict σ) = false.


(** [start] is a datetime or a string the parser accepts. *)
Definition start_parses (env : Env) (a : InitArgs) : Prop :=
  match arg_start a with
  | StartDatetime _ => True
  | StartStr s => is_Some (parser_parse env s)
  end.

(** Python's binding rule: [**kwargs] holds no name of a parameter. *)
Definition kwargs_ok (params : list string) (kwargs : list (string * value)) : Prop :=
  Forall (fun kv => kv.1 ∉ params) kwargs.

(** The parameters of [add_video_data]. *)
Definition add_video_params : list string :=
  [ "self"; "source"; "metadata"; "is_external" ].

(** What a successful conversion writes (lines 632-659), as a function of
    the fragment and the response: body and encoding by media kind and
    decodability, the mimetype only where none was set, then the algorithm
    and the signature over the raw bytes. *)
Definition inline_body (d : gmap string value) (raw : list byte) : list N * list N :=
  if is_video_of d || is_audio_of d then (base64url_text raw, py "base64url")
  else match Utf8.decode raw with
       | Some text => (text, py "none")
       | None => (base64url_text raw, py "base64url")
       end.

Definition converted (σ : state) (response : Response) : gmap string value :=
  let d := self_dict σ in
  let raw := content response in
  let d1 := <["encoding" := VStr (inline_body d raw).2]>
              (<["body" := VStr (inline_body d raw).1]> d) in
  let unset := match d !! "mimetype" with
               | Some v => negb (truthy σ v)
               | None => true
               end in
  let d2 := if unset
            then <["mimetype" := from_option VStr VNone (content_type response)]> d1
            else d1 in
  <["signature" := VStr (base64url_text (Sha256.sha256 raw))]>
    (<["alg" := VStr (py "sha256")]> d2).

(** [to_inline_data] on a fragment whose [url] attribute is [url], in closed
    form. *)
Definition to_inline_data_result (env : Env) (σ : state) (url : value)
    : outcome unit * state :=
  match requests_get env url with
  | Failed name => (Raise (RequestException name), σ)
  | Responded response =>
      if (status_code response =? 200)%Z then
        let d3 := converted σ response in
        match self_dict σ !! "filename" with
        | Some _ => (Ret tt, State (delete "url" d3) (store σ) (stdout σ))
        | None =>
            match url with
            | VStr u =>
                (Ret tt,
                 State (delete "url" (<["filename" := VStr (split_last slash u)]> d3))
                       (store σ) (stdout σ))
            | VBytes _ => (Raise TypeError, State d3 (store σ) (stdout σ))
            | _ => (Raise (AttributeError "split"), State d3 (store σ) (stdout σ))
            end
        end
      else (Raise (PlainException (get_failed_message (status_code response))), σ)
  end.

(** An optional assignment, and a run of them: what the [setattr] loops do
    to the attribute dictionary. *)
Definition assign (k : string) (o : option value) (d : gmap string value)
    : gmap string value :=
  match o with Some v => <[k := v]> d | None => d end.

Definition assign_all (l : list (string * option value)) (d : gmap string value)
    : gmap string value :=
  fold_left (fun d kv => assign kv.1 kv.2 d) l d.

(** The keyword arguments [__init__] stores: those that are not [None]. *)
Definition init_kwargs (kwargs : list (string * value)) : list (string * option value) :=
  map (fun kv => (kv.1, if is_None kv.2 then None else Some kv.2)) kwargs.

(** [start] as [__init__] stores it, or the string the parser rejected. *)
Definition normalised_start (env : Env) (a : InitArgs) : list N + list N :=
  match arg_start a with
  | StartDatetime iso => inl iso
  | StartStr s => match parser_parse env s with
                  | Some iso => inl iso
                  | None => inr s
                  end
  end.

(** The attributes of a new object after the named parameters were stored
    (lines 197-200). *)
Definition init_attrs (a : InitArgs) (start : list N) : gmap string value :=
  assign_all (init_locals a start) ∅.

(** Attributes and store after [meta] and [metadata] were reconciled (lines
    205-211): one supplied, the other becomes a new dict with the same
    entries; none supplied, two new empty dicts; both supplied, nothing. *)
Definition init_reconciled (a : InitArgs) (start : list N)
    (s : gmap N (gmap string value))
    : gmap string value * gmap N (gmap string value) :=
  let d := init_attrs a start in
  match arg_meta a, arg_metadata a with
  | Some l, None =>
      (<["metadata" := VDict (fresh (dom s))]> d,
       <[fresh (dom s) := default ∅ (s !! l)]> s)
  | None, Some l =>
      (<["meta" := VDict (fresh (dom s))]> d,
       <[fresh (dom s) := default ∅ (s !! l)]> s)
  | None, None =>
      let s0 := <[fresh (dom s) := ∅]> s in
      (<["meta" := VDict (fresh (dom s0))]> (<["metadata" := VDict (fresh (dom s))]> d),
       <[fresh (dom s0) := ∅]> s0)
  | Some _, Some _ => (d, s)
  end.

(** The mimetype construction gives a video fragment that has none (lines
    223-250). *)
Definition init_default_mimetype (env : Env) (a : InitArgs) : list N :=
  match arg_filename a with
  | Some f => if bool_decide (f = []) then py "video/mp4"
              else init_mimetype_of_ext (str_lower env (split_last dot f))
  | None => py "video/mp4"
  end.

(** [Dialog(...)] on a new object, in closed form. *)
Definition init_result (env : Env) (a : InitArgs) (kwargs : list (string * value))
    (s : gmap N (gmap string value)) (o : list exn) : outcome unit * state :=
  if bool_decide (arg_type a ∈ VALID_TYPES) then
    match normalised_start env a with
    | inr unparsable => (Raise (ParserError unparsable), State ∅ s o)
    | inl start =>
        let ds := init_reconciled a start s in
        let d := assign_all (init_kwargs kwargs) ds.1 in
        if bool_decide (arg_type a = py "incomplete")
           && negb (bool_decide (is_Some (arg_disposition a)))
        then (Raise (ValueError incomplete_message), State d ds.2 o)
        else if bool_decide (arg_type a = py "video")
                && negb (bool_decide (is_Some (arg_mimetype a)))
        then (Ret tt, State (<["mimetype" := VStr (init_default_mimetype env a)]> d) ds.2 o)
        else (Ret tt, State d ds.2 o)
    end
  else (Raise (ValueError (invalid_type_message (arg_type a))), State ∅ s o).

(** [if not hasattr(self, name) or self.<name> is None: self.<name> = {}] *)
Definition ensure_dict (name : string) (σ : state) : state :=
  match self_dict σ !! name with
  | None | Some VNone =>
      State (<[name := VDict (fresh (dom (store σ)))]> (self_dict σ))
            (<[fresh (dom (store σ)) := ∅]> (store σ)) (stdout σ)
  | Some _ => σ
  end.

(** Lines 317-320: the content length goes into [metadata]. *)
Definition record_content_length (env : Env) (length : list N) : M unit :=
  has_metadata <- hasattr "metadata" ;;
  when (negb has_metadata) (md <- dict_new ∅ ;; setattr "metadata" md) ;;;
  n <- py_int env length ;;
  metadata <- getattr "metadata" ;;
  dict_setitem metadata "content_length" (VInt n).

(** The fragment once [url] is recorded (line 288), and once a HEAD
    response with status 200 is written into it (lines 293-312). *)
Definition referenced (σ : state) (url : list N) : state :=
  State (<["url" := VStr url]> (self_dict σ)) (store σ) (stdout σ).

Definition described (σ : state) (url : list N) (filename mimetype : value)
    (response : Response) : state :=
  let mt := if truthy σ mimetype then mimetype
            else from_option VStr VNone (content_type response) in
  let fn := if truthy σ filename then filename
            else VStr (split_last slash (split_first question_mark url)) in
  State (<["encoding" := VStr (py "none")]>
           (<["alg" := VStr (py "external-reference")]>
              (<["filename" := fn]>
                 (<["mimetype" := mt]> (<["url" := VStr url]> (self_dict σ))))))
        (store σ) (stdout σ).

(** [add_external_data] in closed form. *)
Definition add_external_data_result (env : Env) (σ : state) (url : list N)
    (filename mimetype : value) : outcome unit * state :=
  match requests_head env url with
  | Failed name => (Raise (RequestException name), referenced σ url)
  | Responded response =>
      if (status_code response =? 200)%Z then
        let σ1 := described σ url filename mimetype response in
        if is_video_of (self_dict σ1)
           && truthy σ (from_option VStr VNone (content_length response))
        then record_content_length env (default [] (content_length response)) σ1
        else (Ret tt, σ1)
      else (Raise (PlainException (head_failed_message (status_code response))),
            referenced σ url)
  end.

(** The store after [metadata.update(other)] then [meta.update(other)],
    for [meta] at [l1] and [metadata] at [l2] (the second update reads what
    the first left). *)
Definition both_updated (σ : state) (other l1 l2 : N) : state :=
  let s1 := <[l2 := deref σ other ∪ deref σ l2]> (store σ) in
  let σ1 := State (self_dict σ) s1 (stdout σ) in
  State (self_dict σ) (<[l1 := deref σ1 other ∪ deref σ1 l1]> s1) (stdout σ).




(** ** Sample inputs *)

Definition sample_response (status : Z) : Response :=
  {| status_code := status;
     content := map byte_of_N (py "hello");
     content_type := Some (py "text/plain");
     content_length := Some (py "5") |}.

(** An environment whose GET answers with the given status; its parser
    knows one timestamp and, like dateutil, rejects the empty string. *)
Definition sample_env (get_status : Z) : Env :=
  {| requests_head := fun _ => Responded (sample_response 200);
     requests_get := fun _ => Responded (sample_response get_status);
     parser_parse := fun s =>
       if bool_decide (s = py "2024-01-01T00:00:00Z")
       then Some (py "2024-01-01T00:00:00+00:00") else None;
     lower_unicode := fun s => s;
     int_other := fun _ => None |}.

(** [Dialog(type, start, parties=[0, 1], filename=..., disposition=...,
    meta=..., metadata=...)] *)
Definition sample_args (type : list N) (start : start_arg)
    (filename disposition : option (list N)) (meta metadata : option N) : InitArgs :=
  {| arg_type := type; arg_start := start; arg_parties := [0; 1]%Z;
     arg_originator := None; arg_mimetype := None; arg_filename := filename;
     arg_body := None; arg_encoding := None; arg_url := None; arg_alg := None;
     arg_signature := None; arg_disposition := disposition;
     arg_party_history := None; arg_transferee := None; arg_transferor := None;
     arg_transfer_target := None; arg_original := None; arg_consultation := None;
     arg_target_dialog := None; arg_campaign := None; arg_interaction := None;
     arg_skill := None; arg_duration := None; arg_meta := meta;
     arg_metadata := metadata; arg_transfer := None; arg_signaling := None;
     arg_resolution := None; arg_frame_rate := None; arg_codec := None;
     arg_bitrate := None; arg_thumbnail := None |}.

Definition sample_start : start_arg := StartStr (py "2024-01-01T00:00:00Z").

(** A new object, before [__init__] ran, and no dict anywhere. *)
Definition empty_state : state := State ∅ ∅ [].


(** A text fragment that refers to its content by URL. *)
Definition external_state : state :=
  State (<["url" := VStr (py "https://x/a.txt")]> (<["type" := VStr (py "text")]> ∅)) ∅ [].

(** An inline fragment whose body was changed after it was signed: the
    signature is that of "hello". *)
Definition tampered_inline_state : state :=
  State (<["signature" := VStr (py "LPJNul-wow4m6DsqxbninhsWHlwfp0JecwQzYpOLmCQ=")]>
           (<["alg" := VStr (py "sha256")]>
              (<["body" := VStr (py "tampered")]> (<["type" := VStr (py "text")]> ∅))))
        ∅ [].

(** ** The rest of the class *)

(** The class attribute [MIME_TYPES] (lines 41-68; the module's list of
    lines 9-36 holds the same entries in the same order). *)
Definition MIME_TYPES : list (list N) :=
  [ py "text/plain"; py "audio/x-wav"; py "audio/wav"; py "audio/wave";
    py "audio/mpeg"; py "audio/mp3"; py "audio/ogg"; py "audio/webm";
    py "audio/x-m4a"; py "audio/aac"; py "video/x-mp4"; py "video/ogg";
    py "video/mp4"; py "video/quicktime"; py "video/webm";
    py "video/x-msvideo"; py "video/x-matroska"; py "video/mpeg";
    py "video/x-flv"; py "video/3gpp"; py "video/x-m4v"; py "multipart/mixed";
    py "message/rfc822"; py "application/json" ].

(** *** Classification by type and by mail mimetype (lines 512-542, 590-596) *)

(** [hasattr(self, "type") and self.type == name] *)
Definition type_is_of (d : gmap string value) (name : list N) : bool :=
  match d !! "type" with Some v => value_is v name | None => false end.

Definition is_text : M bool :=
  fun σ => (Ret (type_is_of (self_dict σ) (py "text")), σ).

Definition is_recording : M bool :=
  fun σ => (Ret (type_is_of (self_dict σ) (py "recording")), σ).

Definition is_transfer : M bool :=
  fun σ => (Ret (type_is_of (self_dict σ) (py "transfer")), σ).

Definition is_incomplete : M bool :=
  fun σ => (Ret (type_is_of (self_dict σ) (py "incomplete")), σ).

Definition is_email_of (d : gmap string value) : bool :=
  match d !! "mimetype" with
  | Some v => value_is v (py "message/rfc822")
  | None => false
  end.

Definition is_email : M bool := fun σ => (Ret (is_email_of (self_dict σ)), σ).

(** *** Reading the video metadata back (lines 419-468) *)

(** [d.update(other)] for any [other]: a dict is merged in; an empty
    sequence adds nothing; a non-empty [str] fails on its first character,
    which is no key/value pair; anything else is no iterable of pairs. *)
Definition dict_update_from (d other : value) : M unit :=
  match d with
  | VDict _ =>
      match other with
      | VDict o => dict_update d o
      | VStr [] | VBytes [] | VInts [] => ret tt
      | VStr _ =>
          raise (ValueError
                   (py "dictionary update sequence element #0 has length 1; 2 is required"))
      | _ => raise TypeError
      end
  | _ => raise (AttributeError "update")
  end.

Definition VIDEO_FIELDS : list string :=
  [ "resolution"; "frame_rate"; "codec"; "bitrate"; "duration" ].

Definition extract_video_metadata : M value :=
  result <- dict_new ∅ ;;
  for_each VIDEO_FIELDS
    (fun field =>
       present <- hasattr field ;;
       when present (v <- getattr field ;; dict_setitem result field v)) ;;;
  has_metadata <- hasattr "metadata" ;;
  when has_metadata
    (metadata <- getattr "metadata" ;; dict_update_from result metadata) ;;;
  ret result.



(** *** The dictionary form (lines 252-273) *)

(** [d.items()] of a dict. *)
Definition dict_items (d : value) : M (gmap string value) :=
  match d with
  | VDict l => fun σ => (Ret (deref σ l), σ)
  | _ => raise (AttributeError "items")
  end.

Section Views.

(** [datetime.now().isoformat()] at the call, and the list
    [[p.to_dict() for p in history]] for a list object [history]: the new
    list, by identity and truth value, or the exception an element raised. *)
Context (now : list N) (history_dicts : N -> exn + N * bool).

(** [[p.to_dict() for p in v]]: characters, ints and keys have no
    [to_dict]; a number is not iterable; nothing to iterate gives [[]]. *)
Definition party_history_dicts (v : value) : M value :=
  match v with
  | VObject id _ =>
      match history_dicts id with
      | inl e => raise e
      | inr (id', nonempty) => ret (VObject id' nonempty)
      end
  | VNone | VBool _ | VInt _ | VFloat _ => raise TypeError
  | _ =>
      nonempty <- truth v ;;
      if nonempty then raise (AttributeError "to_dict") else ret (VInts [])
  end.

Definition to_dict : M value :=
  has_start <- hasattr "start" ;;
  when (negb has_start) (setattr "start" (VStr now)) ;;;
  dialog_dict <- (fun σ => dict_new (self_dict σ) σ) ;;
  has_history <- hasattr "party_history" ;;
  listed <- (if has_history
             then (history <- getattr "party_history" ;; truth history)
             else ret false) ;;
  when listed
    (history <- getattr "party_history" ;;
     dicts <- party_history_dicts history ;;
     dict_setitem dialog_dict "party_history" dicts) ;;;
  items <- dict_items dialog_dict ;;
  dict_new (filter (fun kv => is_None kv.2 = false) items).

End Views.

(** ** Finite checks on the codecs *)

(** The 256 bytes, and a run of [count] numbers from [lo]: what the
    decidable facts on bytes and sextets are checked over. *)
Definition all_bytes : list byte := map byte_of_N (map N.of_nat (seq 0 256)).

Definition N_range (lo : N) (count : nat) : list N :=
  map (fun i => lo + N.of_nat i) (seq 0 count).

(** The character of a sextet once encoded URL-safe and translated back
    for decoding. *)
Definition url_char (v : N) : byte :=
  Base64.urlsafe_decode_translation (Base64.urlsafe_encode_translation (Base64.b2a v)).

(** The code point of a well-formed two-, three- or four-byte sequence
    encodes to the bytes it was read from. *)
Definition utf8_check2_at (n0 n1 : N) : bool :=
  let c := N.lor (N.shiftl (N.land n0 0x1F) 6) (N.land n1 0x3F) in
  (0x80 <=? c) && (c <? 0x800)
  && (N.lor 0xC0 (N.shiftr c 6) =? n0)
  && (N.lor 0x80 (N.land c 0x3F) =? n1).

Definition utf8_check3_at (n0 n1 n2 : N) : bool :=
  if (if n0 =? 0xE0 then 0xA0 <=? n1 else if n0 =? 0xED then n1 <=? 0x9F else true)
  then
    let c := N.lor (N.shiftl (N.land n0 0x0F) 12)
               (N.lor (N.shiftl (N.land n1 0x3F) 6) (N.land n2 0x3F)) in
    (0x800 <=? c) && (c <? 0x10000)
    && negb ((0xD800 <=? c) && (c <=? 0xDFFF))
    && (N.lor 0xE0 (N.shiftr c 12) =? n0)
    && (N.lor 0x80 (N.land (N.shiftr c 6) 0x3F) =? n1)
    && (N.lor 0x80 (N.land c 0x3F) =? n2)
  else true.

Definition utf8_check4_at (n0 n1 n2 n3 : N) : bool :=
  if (if n0 =? 0xF0 then 0x90 <=? n1 else if n0 =? 0xF4 then n1 <=? 0x8F else true)
  then
    let c := N.lor (N.shiftl (N.land n0 0x07) 18)
               (N.lor (N.shiftl (N.land n1 0x3F) 12)
                  (N.lor (N.shiftl (N.land n2 0x3F) 6) (N.land n3 0x3F))) in
    (0x10000 <=? c) && (c <? 0x110000)
    && (N.lor 0xF0 (N.shiftr c 18) =? n0)
    && (N.lor 0x80 (N.land (N.shiftr c 12) 0x3F) =? n1)
    && (N.lor 0x80 (N.land (N.shiftr c 6) 0x3F) =? n2)
    && (N.lor 0x80 (N.land c 0x3F) =? n3)
  else true.

(** ** Further sample inputs *)

(** An environment whose HEAD request is answered with the given status. *)
Definition head_env (head_status : Z) : Env :=
  {| requests_head := fun _ => Responded (sample_response head_status);
     requests_get := fun _ => Responded (sample_response 200);
     parser_parse := fun _ => None;
     lower_unicode := fun s => s;
     int_other := fun _ => None |}.

(** A video fragment whose [metadata] and [meta] are two empty dicts, at
    addresses 0 and 1; the caller holds [{"codec": "h264", "fps": 30}] at 2. *)
Definition video_state : state :=
  State (<["metadata" := VDict 0]>
           (<["meta" := VDict 1]> (<["type" := VStr (py "video")]> ∅)))
        (<[0 := ∅]>
           (<[1 := ∅]>
              (<[2 := <["codec" := VStr (py "h264")]> {["fps" := VInt 30]}]> ∅)))
        [].

(** * Properties *)

(** ** The library models *)

Lemma decode_ascii (bs : list byte) :
  Forall (fun b => Byte.to_N b < 0x80) bs -> Utf8.decode bs = Some (map Byte.to_N bs).
Proof.
  induction 1 as [|b bs Hb _ IH]; [reflexivity|].
  cbn [Utf8.decode map]. apply N.ltb_lt in Hb. rewrite Hb, IH. reflexivity.
Qed.

Lemma byte_of_N_small (n : N) : n < 256 -> Byte.to_N (byte_of_N n) = n.
Proof.
  intros H. unfold byte_of_N. rewrite N.mod_small by exact H.
  destruct (Byte.of_N n) as [b|] eqn:E.
  - apply Byte.to_of_N. exact E.
  - apply Byte.of_N_None_iff in E. lia.
Qed.

Lemma b2a_ascii (v : N) : Byte.to_N (Base64.b2a v) < 0x80.
Proof.
  unfold Base64.b2a.
  destruct (N.ltb_spec v 26); [rewrite byte_of_N_small; lia|].
  destruct (N.ltb_spec v 52); [rewrite byte_of_N_small; lia|].
  destruct (N.ltb_spec v 62); [rewrite byte_of_N_small; lia|].
  destruct (v =? 62); vm_compute; reflexivity.
Qed.

(** Base64 text is ASCII: by the three shapes of the encoder's recursion. *)
Lemma b64encode_ascii (bs : list byte) :
  Forall (fun b => Byte.to_N b < 0x80) (Base64.b64encode bs).
Proof.
  enough (H : Forall (fun b => Byte.to_N b < 0x80) (Base64.b64encode bs)
              /\ (forall a, Forall (fun b => Byte.to_N b < 0x80) (Base64.b64encode (a :: bs)))
              /\ (forall a b, Forall (fun b => Byte.to_N b < 0x80)
                                (Base64.b64encode (a :: b :: bs))))
    by apply H.
  assert (Hpad : Byte.to_N "="%byte < 0x80) by (vm_compute; reflexivity).
  induction bs as [|c bs (IH0 & IH1 & IH2)].
  - cbn [Base64.b64encode]. repeat split; intros; repeat constructor; auto using b2a_ascii.
  - repeat split; intros; [apply IH1 | apply IH2 |].
    cbn [Base64.b64encode]. repeat (constructor; [apply b2a_ascii|]). exact IH0.
Qed.

Lemma urlsafe_b64encode_ascii (bs : list byte) :
  Forall (fun b => Byte.to_N b < 0x80) (Base64.urlsafe_b64encode bs).
Proof.
  unfold Base64.urlsafe_b64encode. apply Forall_map.
  eapply Forall_impl; [apply b64encode_ascii|].
  intros b Hb. cbn. unfold Base64.urlsafe_encode_translation.
  destruct (Byte.eqb b "+"); [vm_compute; reflexivity|].
  destruct (Byte.eqb b "/"); [vm_compute; reflexivity|exact Hb].
Qed.

(** So the [.decode()] that follows [urlsafe_b64encode] never raises. *)
Lemma bytes_decode_base64 (bs : list byte) (σ : state) :
  bytes_decode (Base64.urlsafe_b64encode bs) σ = (Ret (base64url_text bs), σ).
Proof.
  unfold bytes_decode. rewrite decode_ascii by apply urlsafe_b64encode_ascii. reflexivity.
Qed.

Lemma signature_of_ret (data : list byte) (σ : state) :
  signature_of data σ = (Ret (base64url_text (Sha256.sha256 data)), σ).
Proof. apply bytes_decode_base64. Qed.

(** The models agree with the libraries on known vectors: SHA-256 of
    "abc" (FIPS 180-4) and of "hello", in URL-safe base64. *)
Example sha256_base64url_abc :
  sha256_base64url (py "abc") = Some (py "ungWv48Bz-pBQUDeXa4iI7ADYaOWF3qctBD_YfIAFa0=").
Proof. vm_compute. reflexivity. Qed.

Example sha256_base64url_hello :
  sha256_base64url (py "hello") = Some (py "LPJNul-wow4m6DsqxbninhsWHlwfp0JecwQzYpOLmCQ=").
Proof. vm_compute. reflexivity. Qed.

Example sha256_constants :
  nth 0 Sha256.K 0%Z = 0x428a2f98%Z /\ nth 63 Sha256.K 0%Z = 0xc67178f2%Z
  /\ nth 0 Sha256.H0 0%Z = 0x6a09e667%Z /\ length Sha256.K = 64%nat.
Proof. repeat split. Qed.

(** A message of 56 bytes takes a second block. *)
Example sha256_two_blocks :
  base64url_text (Sha256.sha256 (repeat "a"%byte 56))
  = py "s1Q5pKxvCUi21vnjxq8PX1kM4g8b3nCQ73lwaG7Gc4o=".
Proof. vm_compute. reflexivity. Qed.

Example utf8_encode_euro : Utf8.encode [0x20AC] = Some [xe2; x82; xac].
Proof. reflexivity. Qed.

Example utf8_decode_overlong : Utf8.decode [xc0; x80] = None.
Proof. reflexivity. Qed.

Example urlsafe_b64decode_padding :
  Base64.urlsafe_b64decode (map byte_of_N (py "QQ==")) = Some ["A"%byte]
  /\ Base64.urlsafe_b64decode (map byte_of_N (py "QQ")) = None.
Proof. split; vm_compute; reflexivity. Qed.

(** ** Running a method body *)

(** Unfold the monad and the attribute primitives, then reduce what became
    a pair. *)
Ltac mrun :=
  unfold bind, ret, raise, try_except, when, hasattr, getattr, setattr, delattr,
    print, truth, is_video, is_audio, is_external_data, http_get, http_head;
  cbn [self_dict store stdout fst snd negb andb orb is_UnicodeDecodeError is_Exception].

Lemma bool_decide_is_Some_Some {A} (x : A) : bool_decide (is_Some (Some x)) = true.
Proof. apply bool_decide_eq_true. eauto. Qed.

Lemma bool_decide_is_Some_None {A} : bool_decide (is_Some (@None A)) = false.
Proof. apply bool_decide_eq_false. intros [? ?]. discriminate. Qed.

(** The truth value of an object does not depend on the instance. *)
Lemma truthy_self_dict (d d' : gmap string value) (s : gmap N (gmap string value))
    (o o' : list exn) (v : value) :
  truthy (State d s o) v = truthy (State d' s o') v.
Proof. destruct v; reflexivity. Qed.

(** ** Inline attachment *)

Lemma add_inline_data_run (σ : state) (body : list N) (filename mimetype : value)
    (raw : list byte) :
  Utf8.encode body = Some raw ->
  add_inline_data (VStr body) filename mimetype σ =
    (Ret tt,
     State (<["signature" := VStr (base64url_text (Sha256.sha256 raw))]>
              (<["encoding" := VStr (py "base64url")]>
                 (<["alg" := VStr (py "sha256")]>
                    (<["filename" := filename]>
                       (<["mimetype" := mimetype]>
                          (<["body" := VStr body]> (self_dict σ)))))))
           (store σ) (stdout σ)).
Proof.
  intros Henc. unfold add_inline_data. mrun.
  rewrite !lookup_insert_ne by done. rewrite lookup_insert_eq.
  cbn [str_encode]. rewrite Henc. mrun. rewrite signature_of_ret. reflexivity.
Qed.


(** C1, as stated for every string body, fails on a body that holds a
    surrogate code point: [str.encode()] raises [UnicodeEncodeError] and no
    signature is stored. *)
Lemma add_inline_data_surrogate_body :
  (add_inline_data (VStr [0xD800]) (VStr (py "f.txt")) (VStr (py "text/plain"))
     empty_state).1 = Raise UnicodeEncodeError
  /\ self_dict (add_inline_data (VStr [0xD800]) (VStr (py "f.txt"))
                  (VStr (py "text/plain")) empty_state).2 !! "signature" = None.
Proof. split; vm_compute; reflexivity. Qed.

(** C1 (amended): for every string body that UTF-8 can encode, and every
    filename and mimetype, [add_inline_data] returns having set [alg] to
    "sha256", [encoding] to "base64url", [body], [filename] and [mimetype] to
    the given values and [signature] to the URL-safe base64 text of the
    SHA-256 digest of the body's UTF-8 bytes; recomputing SHA-256/base64url
    over the stored body gives the stored signature. *)
Theorem add_inline_data_signs (σ : state) (body : list N) (filename mimetype : value)
    (raw : list byte) :
  Utf8.encode body = Some raw ->
  exists σ' signature,
    add_inline_data (VStr body) filename mimetype σ = (Ret tt, σ')
    /\ self_dict σ' !! "alg" = Some (VStr (py "sha256"))
    /\ self_dict σ' !! "encoding" = Some (VStr (py "base64url"))
    /\ self_dict σ' !! "body" = Some (VStr body)
    /\ self_dict σ' !! "filename" = Some filename
    /\ self_dict σ' !! "mimetype" = Some mimetype
    /\ self_dict σ' !! "signature" = Some (VStr signature)
    /\ signature = base64url_text (Sha256.sha256 raw)
    /\ sha256_base64url body = Some signature.
Proof.
  intros Henc. eexists _, _. split; [apply add_inline_data_run; exact Henc|].
  cbn [self_dict]. unfold sha256_base64url. rewrite Henc.
  repeat split; by simplify_map_eq.
Qed.

Lemma add_inline_data_signs_witness :
  exists σ',
    add_inline_data (VStr (py "hello")) (VStr (py "f.txt")) (VStr (py "text/plain"))
      empty_state = (Ret tt, σ')
    /\ self_dict σ' !! "signature"
       = Some (VStr (py "LPJNul-wow4m6DsqxbninhsWHlwfp0JecwQzYpOLmCQ=")).
Proof.
  destruct (add_inline_data_signs empty_state (py "hello") (VStr (py "f.txt"))
              (VStr (py "text/plain")) (map byte_of_N (py "hello")))
    as (σ' & signature & Hrun & _ & _ & _ & _ & _ & Hsig & Heq & _).
  - vm_compute. reflexivity.
  - exists σ'. split; [exact Hrun|]. rewrite Hsig, Heq. vm_compute. reflexivity.
Defined.

(** ** External to inline *)

Section Conversion.

Context (env : Env).

(** Already inline: nothing is read or written. *)
Lemma to_inline_data_inline (σ : state) :
  INLINE σ -> to_inline_data env σ = (Ret tt, σ).
Proof.
  unfold INLINE. intros Hin. unfold to_inline_data. mrun. rewrite Hin. reflexivity.
Qed.

(** External: the method computes [to_inline_data_result].  The three ways
    to the body (media, text, undecodable) and the two mimetype cases meet
    in one tail: signature, filename, removal of [url]. *)
Lemma to_inline_data_external (σ : state) (url : value) :
  self_dict σ !! "url" = Some url ->
  to_inline_data env σ = to_inline_data_result env σ url.
Proof.
  intros Hurl. destruct σ as [d s o]. cbn [self_dict] in Hurl.
  unfold to_inline_data, to_inline_data_result. mrun. unfold is_external_data_of.
  rewrite Hurl, bool_decide_is_Some_Some. mrun. rewrite ?Hurl.
  destruct (requests_get env url) as [response|name]; [|reflexivity].
  mrun. destruct (status_code response =? 200)%Z eqn:Hst; [|reflexivity].
  unfold converted, inline_body. mrun.
  assert (Hmt : forall d' o' body enc,
    match (<["encoding" := enc]> (<["body" := body]> d) : gmap string value)
            !! "mimetype" with
    | Some v => negb (truthy (State d' s o') v)
    | None => true
    end = match d !! "mimetype" with
          | Some v => negb (truthy (State d s o) v)
          | None => true
          end).
  { intros. rewrite !lookup_insert_ne by done.
    destruct (d !! "mimetype") as [v|]; [|done].
    by rewrite (truthy_self_dict d' d s o' o). }
  destruct (is_video_of d || is_audio_of d) eqn:Hmedia;
    [ rewrite bytes_decode_base64
    | unfold bytes_decode at 1;
      destruct (Utf8.decode (content response)) as [text|];
      [ | mrun; rewrite bytes_decode_base64 ] ];
    mrun; rewrite Hmt;
    (destruct (match d !! "mimetype" with Some v => _ | None => true end)); mrun;
    rewrite signature_of_ret; mrun;
    rewrite !lookup_insert_ne by done;
    (destruct (d !! "filename") as [fn|] eqn:Hfnm;
     [ rewrite bool_decide_is_Some_Some
     | rewrite bool_decide_is_Some_None ]);
    mrun; rewrite !lookup_insert_ne by done; rewrite Hurl; try reflexivity;
    destruct url; cbn [last_path_segment]; mrun; try reflexivity;
    rewrite !lookup_insert_ne by done; rewrite Hurl; reflexivity.
Qed.

Lemma EXTERNAL_url (σ : state) : EXTERNAL σ -> exists url, self_dict σ !! "url" = Some url.
Proof.
  unfold EXTERNAL, is_external_data_of. intros H.
  apply bool_decide_eq_true in H. destruct H as [url H]. eauto.
Qed.

Lemma INLINE_no_url (σ : state) : INLINE σ <-> self_dict σ !! "url" = None.
Proof.
  unfold INLINE, is_external_data_of. rewrite bool_decide_eq_false.
  rewrite <- eq_None_not_Some. reflexivity.
Qed.

(** A conversion that returns leaves an inline fragment. *)
Lemma to_inline_data_ends_inline (σ σ' : state) :
  to_inline_data env σ = (Ret tt, σ') -> INLINE σ'.
Proof.
  intros Hrun. destruct (is_external_data_of (self_dict σ)) eqn:Hext.
  - destruct (EXTERNAL_url σ Hext) as [url Hurl].
    rewrite (to_inline_data_external σ url Hurl) in Hrun.
    unfold to_inline_data_result in Hrun.
    destruct (requests_get env url) as [response|name]; [|discriminate].
    destruct (status_code response =? 200)%Z; [|discriminate].
    apply INLINE_no_url.
    destruct (self_dict σ !! "filename");
      [|destruct url; try discriminate];
      injection Hrun as <-; apply lookup_delete_eq.
  - rewrite (to_inline_data_inline σ Hext) in Hrun. by injection Hrun as <-.
Qed.

(** Calling the conversion twice is calling it once, on any fragment. *)
Lemma to_inline_data_twice (σ : state) :
  (to_inline_data env ;;; to_inline_data env) σ = to_inline_data env σ.
Proof.
  unfold bind at 1. destruct (to_inline_data env σ) as [[[]|e] σ'] eqn:Hrun; [|reflexivity].
  apply to_inline_data_inline. eapply to_inline_data_ends_inline. exact Hrun.
Qed.

(** C7: on a fragment already in INLINE state [to_inline_data] returns and
    alters no field, nor the store, nor the output; calling it twice leaves
    the fragment as calling it once does. *)
Theorem to_inline_data_idempotent (σ : state) :
  INLINE σ ->
  to_inline_data env σ = (Ret tt, σ)
  /\ (to_inline_data env ;;; to_inline_data env) σ = to_inline_data env σ.
Proof.
  intros Hin. split; [apply to_inline_data_inline; exact Hin|apply to_inline_data_twice].
Qed.

End Conversion.

Lemma to_inline_data_idempotent_witness :
  to_inline_data (sample_env 200) tampered_inline_state = (Ret tt, tampered_inline_state)
  /\ (to_inline_data (sample_env 200) ;;; to_inline_data (sample_env 200))
       tampered_inline_state
     = to_inline_data (sample_env 200) tampered_inline_state.
Proof.
  apply (to_inline_data_idempotent (sample_env 200) tampered_inline_state).
  vm_compute. reflexivity.
Defined.

Section Fetch.

Context (env : Env).

(** C2 (amended): on an EXTERNAL fragment whose GET is answered,
    [to_inline_data] raises the fetch error exactly when the status is not
    200 (the code tests [== 200], so 201, 204 and 206 are failures too); the
    error names the status, and when it is raised no field of the fragment
    has changed. *)
Theorem to_inline_data_fetch_error (σ : state) (url : value) (response : Response) :
  self_dict σ !! "url" = Some url ->
  requests_get env url = Responded response ->
  ((exists msg σ', to_inline_data env σ = (Raise (PlainException msg), σ'))
   <-> status_code response ≠ 200%Z)
  /\ (status_code response ≠ 200%Z ->
      to_inline_data env σ
      = (Raise (PlainException (get_failed_message (status_code response))), σ))
  /\ (forall e σ', to_inline_data env σ = (Raise e, σ') ->
      is_FetchError e = true -> σ' = σ).
Proof.
  intros Hurl Hget. rewrite (to_inline_data_external env σ url Hurl).
  unfold to_inline_data_result. rewrite Hget.
  destruct (Z.eqb_spec (status_code response) 200) as [Hst|Hst].
  - split; [split|split].
    + intros (msg & σ' & Hrun).
      destruct (self_dict σ !! "filename"); [discriminate|].
      destruct url; discriminate.
    + intros Hne. contradiction.
    + intros Hne. contradiction.
    + intros e σ' Hrun He.
      destruct (self_dict σ !! "filename"); [discriminate|].
      destruct url; try discriminate; injection Hrun as <- <-; discriminate.
  - split; [split|split].
    + intros _. exact Hst.
    + intros _. eauto.
    + reflexivity.
    + intros e σ' Hrun _. by injection Hrun as <- <-.
Qed.

(** C6: on an EXTERNAL fragment whose GET is answered with status 200 (and
    whose filename is set, or whose url is a string to take one from),
    [to_inline_data] returns, having set [alg] to "sha256" and [signature]
    to the URL-safe base64 text of the SHA-256 digest of the raw fetched
    bytes; [body] is the base64url text of the raw bytes with [encoding]
    "base64url" if the fragment is audio or video, else the UTF-8 decoding
    with [encoding] "none" where the bytes decode, else the base64url text
    again; [url] is gone and the fragment is INLINE. *)
Theorem to_inline_data_converts (σ : state) (url : value) (response : Response) :
  self_dict σ !! "url" = Some url ->
  requests_get env url = Responded response ->
  status_code response = 200%Z ->
  (is_Some (self_dict σ !! "filename") \/ exists u, url = VStr u) ->
  let raw := content response in
  let media := is_video_of (self_dict σ) || is_audio_of (self_dict σ) in
  exists σ',
    to_inline_data env σ = (Ret tt, σ')
    /\ self_dict σ' !! "alg" = Some (VStr (py "sha256"))
    /\ self_dict σ' !! "signature" = Some (VStr (base64url_text (Sha256.sha256 raw)))
    /\ (media = true ->
        self_dict σ' !! "body" = Some (VStr (base64url_text raw))
        /\ self_dict σ' !! "encoding" = Some (VStr (py "base64url")))
    /\ (media = false -> forall text, Utf8.decode raw = Some text ->
        self_dict σ' !! "body" = Some (VStr text)
        /\ self_dict σ' !! "encoding" = Some (VStr (py "none")))
    /\ (media = false -> Utf8.decode raw = None ->
        self_dict σ' !! "body" = Some (VStr (base64url_text raw))
        /\ self_dict σ' !! "encoding" = Some (VStr (py "base64url")))
    /\ self_dict σ' !! "url" = None
    /\ INLINE σ'.
Proof.
  intros Hurl Hget Hst Hname raw media.
  rewrite (to_inline_data_external env σ url Hurl).
  unfold to_inline_data_result. rewrite Hget, Hst. cbn [Z.eqb Pos.eqb].
  assert (Hconv : forall d' : gmap string value,
    d' = delete "url" (converted σ response)
    \/ (exists seg, d' = delete "url" (<["filename" := seg]> (converted σ response))) ->
    d' !! "alg" = Some (VStr (py "sha256"))
    /\ d' !! "signature" = Some (VStr (base64url_text (Sha256.sha256 raw)))
    /\ d' !! "body" = Some (VStr (inline_body (self_dict σ) raw).1)
    /\ d' !! "encoding" = Some (VStr (inline_body (self_dict σ) raw).2)
    /\ d' !! "url" = None).
  { intros d' [->|[seg ->]]; unfold converted; fold raw;
      destruct (match self_dict σ !! "mimetype" with Some v => _ | None => true end);
      repeat split; by simplify_map_eq. }
  assert (Hpost : forall d' : gmap string value,
    d' = delete "url" (converted σ response)
    \/ (exists seg, d' = delete "url" (<["filename" := seg]> (converted σ response))) ->
    exists σ', (Ret tt, State d' (store σ) (stdout σ)) = (Ret tt, σ')
    /\ self_dict σ' !! "alg" = Some (VStr (py "sha256"))
    /\ self_dict σ' !! "signature" = Some (VStr (base64url_text (Sha256.sha256 raw)))
    /\ (media = true ->
        self_dict σ' !! "body" = Some (VStr (base64url_text raw))
        /\ self_dict σ' !! "encoding" = Some (VStr (py "base64url")))
    /\ (media = false -> forall text, Utf8.decode raw = Some text ->
        self_dict σ' !! "body" = Some (VStr text)
        /\ self_dict σ' !! "encoding" = Some (VStr (py "none")))
    /\ (media = false -> Utf8.decode raw = None ->
        self_dict σ' !! "body" = Some (VStr (base64url_text raw))
        /\ self_dict σ' !! "encoding" = Some (VStr (py "base64url")))
    /\ self_dict σ' !! "url" = None
    /\ INLINE σ').
  { intros d' Hd'. destruct (Hconv d' Hd') as (Halg & Hsig & Hbody & Henc & Hnourl).
    eexists. split; [reflexivity|]. cbn [self_dict].
    unfold inline_body in Hbody, Henc. fold media in Hbody, Henc.
    split; [exact Halg|]. split; [exact Hsig|].
    split; [intros Hm; rewrite Hm in Hbody, Henc; by split|].
    split; [intros Hm text Hdec; rewrite Hm, Hdec in Hbody, Henc; by split|].
    split; [intros Hm Hdec; rewrite Hm, Hdec in Hbody, Henc; by split|].
    split; [exact Hnourl|]. apply INLINE_no_url. exact Hnourl. }
  destruct (self_dict σ !! "filename") as [fn|] eqn:Hfn.
  - apply Hpost. by left.
  - destruct Hname as [[? ?]|[u ->]]; [discriminate|].
    apply Hpost. right. eauto.
Qed.

(** Conversely, a conversion of an EXTERNAL fragment that returns was
    answered with status 200. *)
Lemma to_inline_data_returns_inv (σ σ' : state) (url : value) :
  self_dict σ !! "url" = Some url ->
  to_inline_data env σ = (Ret tt, σ') ->
  exists response,
    requests_get env url = Responded response
    /\ status_code response = 200%Z
    /\ (is_Some (self_dict σ !! "filename") \/ exists u, url = VStr u).
Proof.
  intros Hurl. rewrite (to_inline_data_external env σ url Hurl).
  unfold to_inline_data_result.
  destruct (requests_get env url) as [response|name]; [|discriminate].
  destruct (Z.eqb_spec (status_code response) 200) as [Hst|Hst]; [|discriminate].
  intros Hrun. exists response. split; [reflexivity|]. split; [exact Hst|].
  destruct (self_dict σ !! "filename"); [left; eauto|].
  destruct url; try discriminate. right. eauto.
Qed.

End Fetch.

(** C2, as stated for every 2xx status, fails at 204: the code raises the
    fetch error for it. *)
Lemma to_inline_data_status_204 :
  to_inline_data (sample_env 204) external_state
  = (Raise (PlainException (py "Failed to fetch external data: 204")), external_state).
Proof. vm_compute. reflexivity. Qed.

Lemma to_inline_data_fetch_error_witness :
  to_inline_data (sample_env 404) external_state
  = (Raise (PlainException (get_failed_message 404)), external_state).
Proof.
  apply (to_inline_data_fetch_error (sample_env 404) external_state
           (VStr (py "https://x/a.txt")) (sample_response 404)).
  - vm_compute. reflexivity.
  - reflexivity.
  - vm_compute. discriminate.
Defined.

Lemma to_inline_data_converts_witness :
  exists σ',
    to_inline_data (sample_env 200) external_state = (Ret tt, σ')
    /\ self_dict σ' !! "body" = Some (VStr (py "hello"))
    /\ self_dict σ' !! "encoding" = Some (VStr (py "none"))
    /\ self_dict σ' !! "signature"
       = Some (VStr (py "LPJNul-wow4m6DsqxbninhsWHlwfp0JecwQzYpOLmCQ="))
    /\ self_dict σ' !! "url" = None.
Proof.
  destruct (to_inline_data_converts (sample_env 200) external_state
              (VStr (py "https://x/a.txt")) (sample_response 200))
    as (σ' & Hrun & _ & Hsig & _ & Htext & _ & Hurl & _).
  - vm_compute. reflexivity.
  - reflexivity.
  - reflexivity.
  - right. eauto.
  - exists σ'. split; [exact Hrun|].
    destruct (Htext eq_refl (py "hello")) as [Hbody Henc]; [vm_compute; reflexivity|].
    split; [exact Hbody|]. split; [exact Henc|]. split; [|exact Hurl].
    rewrite Hsig. vm_compute. reflexivity.
Defined.

(** ** The integrity predicate *)

(** The [try] block only reads. *)
Lemma body_hash_differs_reads (σ : state) : (body_hash_differs σ).2 = σ.
Proof.
  unfold body_hash_differs. mrun.
  destruct (self_dict σ !! "signature") as [sig|]; [|reflexivity].
  unfold str_encode at 1.
  destruct sig as [| | | |s| | | |]; try reflexivity.
  destruct (Utf8.encode s) as [encoded|]; [|reflexivity]. mrun.
  unfold urlsafe_b64decode.
  destruct (Base64.urlsafe_b64decode encoded) as [body_hash|]; [|reflexivity]. mrun.
  destruct (self_dict σ !! "body") as [body|]; [|reflexivity].
  unfold str_encode.
  destruct body as [| | | |b| | | |]; try reflexivity.
  destruct (Utf8.encode b); reflexivity.
Qed.

Lemma is_external_data_changed_external (σ : state) :
  EXTERNAL σ ->
  is_external_data_changed σ =
    match body_hash_differs σ with
    | (Ret changed, _) => (Ret changed, σ)
    | (Raise e, _) => (Ret true, State (self_dict σ) (store σ) (stdout σ ++ [e]))
    end.
Proof.
  unfold EXTERNAL. intros Hext. unfold is_external_data_changed. mrun. rewrite Hext.
  cbn [negb]. pose proof (body_hash_differs_reads σ) as Hreads.
  destruct (body_hash_differs σ) as [[changed|e] σ']; cbn [snd] in Hreads; subst σ';
    reflexivity.
Qed.

(** C10: on a fragment that is not EXTERNAL the predicate returns [False]
    at once: body and signature are not looked at, and nothing changes. *)
Theorem is_external_data_changed_inline (σ : state) :
  INLINE σ -> is_external_data_changed σ = (Ret false, σ).
Proof.
  unfold INLINE. intros Hin. unfold is_external_data_changed. mrun. rewrite Hin.
  reflexivity.
Qed.

(** A body altered after signing goes unreported. *)
Lemma is_external_data_changed_inline_witness :
  sha256_base64url (py "tampered") ≠ Some (py "LPJNul-wow4m6DsqxbninhsWHlwfp0JecwQzYpOLmCQ=")
  /\ is_external_data_changed tampered_inline_state = (Ret false, tampered_inline_state).
Proof.
  split; [vm_compute; discriminate|].
  apply (is_external_data_changed_inline tampered_inline_state).
  vm_compute. reflexivity.
Defined.

(** C3: on an EXTERNAL fragment the predicate always returns, and changes
    neither the fragment nor the store; whenever decoding the signature or
    hashing the body raises, it prints the exception and returns [True].  So
    it does for a missing signature, a signature that is no base64, and a
    missing body. *)
Theorem is_external_data_changed_never_raises (σ : state) :
  EXTERNAL σ ->
  (exists changed printed,
     is_external_data_changed σ
     = (Ret changed, State (self_dict σ) (store σ) (stdout σ ++ printed)))
  /\ (forall e σ', body_hash_differs σ = (Raise e, σ') ->
      is_external_data_changed σ
      = (Ret true, State (self_dict σ) (store σ) (stdout σ ++ [e])))
  /\ (self_dict σ !! "signature" = None ->
      (is_external_data_changed σ).1 = Ret true)
  /\ (forall s encoded, self_dict σ !! "signature" = Some (VStr s) ->
      Utf8.encode s = Some encoded -> Base64.urlsafe_b64decode encoded = None ->
      (is_external_data_changed σ).1 = Ret true)
  /\ (self_dict σ !! "body" = None ->
      (is_external_data_changed σ).1 = Ret true).
Proof.
  intros Hext. rewrite (is_external_data_changed_external σ Hext).
  split; [|split; [|split; [|split]]].
  - destruct (body_hash_differs σ) as [[changed|e] σ'].
    + exists changed, []. rewrite app_nil_r. by destruct σ.
    + exists true, [e]. reflexivity.
  - intros e σ' ->. reflexivity.
  - intros Hsig. unfold body_hash_differs. mrun. rewrite Hsig. reflexivity.
  - intros s encoded Hsig Henc Hdec. unfold body_hash_differs. mrun.
    rewrite Hsig. cbn [str_encode]. rewrite Henc. mrun.
    unfold urlsafe_b64decode. rewrite Hdec. reflexivity.
  - intros Hbody. unfold body_hash_differs. mrun.
    destruct (self_dict σ !! "signature") as [sig|]; [|reflexivity].
    unfold str_encode at 1.
    destruct sig as [| | | |s| | | |]; try reflexivity.
    destruct (Utf8.encode s) as [encoded|]; [|reflexivity]. mrun.
    unfold urlsafe_b64decode.
    destruct (Base64.urlsafe_b64decode encoded) as [body_hash|]; [|reflexivity]. mrun.
    rewrite Hbody. reflexivity.
Qed.

(** An external reference has no body: reported as changed. *)
Lemma is_external_data_changed_never_raises_witness :
  is_external_data_changed external_state
  = (Ret true, State (self_dict external_state) (store external_state)
                 [AttributeError "signature"]).
Proof.
  destruct (is_external_data_changed_never_raises external_state)
    as (_ & Hraise & _); [vm_compute; reflexivity|].
  apply (Hraise (AttributeError "signature") external_state).
  vm_compute. reflexivity.
Defined.

(** ** Construction *)

(** A loop whose body is an optional [setattr] never raises; it performs
    its assignments in order. *)
Lemma for_each_assigns {A} (l : list A) (body : A -> M unit)
    (f : A -> string * option value) :
  (forall x σ, body x σ
               = (Ret tt, State (assign (f x).1 (f x).2 (self_dict σ)) (store σ) (stdout σ))) ->
  forall σ, for_each l body σ
            = (Ret tt, State (assign_all (map f l) (self_dict σ)) (store σ) (stdout σ)).
Proof.
  intros Hbody. induction l as [|x l IH]; intros σ.
  - by destruct σ.
  - cbn [for_each]. unfold bind. rewrite Hbody, IH. reflexivity.
Qed.

Lemma lookup_assign_ne (k k' : string) (o : option value) (d : gmap string value) :
  k ≠ k' -> assign k o d !! k' = d !! k'.
Proof. intros Hne. destruct o; cbn [assign]; [by rewrite lookup_insert_ne|done]. Qed.

Lemma lookup_assign_eq (k : string) (o : option value) (d : gmap string value) :
  assign k o d !! k = match o with Some v => Some v | None => d !! k end.
Proof. destruct o; cbn [assign]; [by rewrite lookup_insert_eq|done]. Qed.

(** An attribute no assignment of the run names keeps its value. *)
Lemma assign_all_lookup_other (l : list (string * option value))
    (d : gmap string value) (k : string) :
  Forall (fun kv => kv.1 ≠ k \/ kv.2 = None) l -> assign_all l d !! k = d !! k.
Proof.
  revert d. induction l as [|[k' o] l IH]; intros d Hl; [done|].
  apply Forall_cons in Hl as [Hk Hl]. cbn [assign_all fold_left fst snd].
  unfold assign_all in IH. rewrite IH by exact Hl.
  cbn [fst snd] in Hk. destruct Hk as [Hk| ->]; [by apply lookup_assign_ne|reflexivity].
Qed.

Lemma init_kwargs_lookup (kwargs : list (string * value)) (d : gmap string value)
    (k : string) :
  kwargs_ok init_params kwargs -> k ∈ init_params ->
  assign_all (init_kwargs kwargs) d !! k = d !! k.
Proof.
  intros Hok Hk. apply assign_all_lookup_other. unfold init_kwargs.
  apply Forall_map. eapply Forall_impl; [exact Hok|].
  intros [k' v] Hk'. left. intros Heq. cbn in Hk', Heq. by subst k'.
Qed.

(** Reading one attribute off the thirty-two assignments of [init_locals]. *)
Ltac init_attr :=
  unfold init_attrs, init_locals, assign_all; cbn [fold_left fst snd];
  repeat (rewrite lookup_assign_ne by done); rewrite lookup_assign_eq;
  repeat (rewrite lookup_assign_ne by done); rewrite ?lookup_empty.

Lemma init_attrs_meta (a : InitArgs) (start : list N) :
  init_attrs a start !! "meta" = VDict <$> arg_meta a.
Proof. init_attr. by destruct (arg_meta a). Qed.

Lemma init_attrs_metadata (a : InitArgs) (start : list N) :
  init_attrs a start !! "metadata" = VDict <$> arg_metadata a.
Proof. init_attr. by destruct (arg_metadata a). Qed.

Lemma init_attrs_disposition (a : InitArgs) (start : list N) :
  init_attrs a start !! "disposition" = VStr <$> arg_disposition a.
Proof. init_attr. by destruct (arg_disposition a). Qed.

Lemma init_attrs_mimetype (a : InitArgs) (start : list N) :
  init_attrs a start !! "mimetype" = VStr <$> arg_mimetype a.
Proof. init_attr. by destruct (arg_mimetype a). Qed.

Lemma init_attrs_filename (a : InitArgs) (start : list N) :
  init_attrs a start !! "filename" = VStr <$> arg_filename a.
Proof. init_attr. by destruct (arg_filename a). Qed.

Lemma truthy_dict_false (σ : state) (l : N) : truthy σ (VDict l) = false -> deref σ l = ∅.
Proof.
  cbn [truthy]. intros H. apply negb_false_iff in H. by apply bool_decide_eq_true in H.
Qed.

Lemma is_Some_fmap_b {A B} (f : A -> B) (o : option A) :
  bool_decide (is_Some (f <$> o)) = bool_decide (is_Some o).
Proof.
  destruct o; cbn; by rewrite ?bool_decide_is_Some_Some, ?bool_decide_is_Some_None.
Qed.

(** One step of a body, leaving the attribute primitives folded. *)
Ltac mstep :=
  unfold bind, ret, raise, when;
  cbn [self_dict store stdout fst snd negb andb orb].

(** The end of [__init__]: the keyword arguments, then the two checks. *)
Lemma init_tail (env : Env) (a : InitArgs) (kwargs : list (string * value))
    (d : gmap string value) (s : gmap N (gmap string value)) (o : list exn) :
  kwargs_ok init_params kwargs ->
  d !! "disposition" = VStr <$> arg_disposition a ->
  d !! "mimetype" = VStr <$> arg_mimetype a ->
  d !! "filename" = VStr <$> arg_filename a ->
  (for_each kwargs
     (fun kv => match kv.2 with
                | VNone => ret tt
                | v => setattr kv.1 v
                end) ;;;
   has_disposition <- hasattr "disposition" ;;
   when (bool_decide (arg_type a = py "incomplete") && negb has_disposition)
        (raise (ValueError incomplete_message)) ;;;
   has_mimetype <- hasattr "mimetype" ;;
   when (bool_decide (arg_type a = py "video") && negb has_mimetype)
        (has_filename <- hasattr "filename" ;;
         named <- (if has_filename
                   then (filename <- getattr "filename" ;; truth filename)
                   else ret false) ;;
         if named then
           filename <- getattr "filename" ;;
           ext <- lowered_extension env filename ;;
           setattr "mimetype" (VStr (init_mimetype_of_ext ext))
         else setattr "mimetype" (VStr (py "video/mp4")))) (State d s o)
  = let d' := assign_all (init_kwargs kwargs) d in
    if bool_decide (arg_type a = py "incomplete")
       && negb (bool_decide (is_Some (arg_disposition a)))
    then (Raise (ValueError incomplete_message), State d' s o)
    else if bool_decide (arg_type a = py "video")
            && negb (bool_decide (is_Some (arg_mimetype a)))
    then (Ret tt, State (<["mimetype" := VStr (init_default_mimetype env a)]> d') s o)
    else (Ret tt, State d' s o).
Proof.
  intros Hkw Hdisp Hmt Hfn. mstep.
  rewrite (for_each_assigns kwargs _ (fun kv => (kv.1, if is_None kv.2 then None else Some kv.2)));
    [|intros [k []] [d' s' o']; reflexivity].
  fold (init_kwargs kwargs). cbn [self_dict store stdout]. unfold hasattr, getattr, truth, setattr.
  cbn [self_dict store stdout].
  set (d' := assign_all (init_kwargs kwargs) d).
  assert (Hdisp' : d' !! "disposition" = VStr <$> arg_disposition a)
    by (unfold d'; rewrite init_kwargs_lookup by (done || compute_done); exact Hdisp).
  assert (Hmt' : d' !! "mimetype" = VStr <$> arg_mimetype a)
    by (unfold d'; rewrite init_kwargs_lookup by (done || compute_done); exact Hmt).
  assert (Hfn' : d' !! "filename" = VStr <$> arg_filename a)
    by (unfold d'; rewrite init_kwargs_lookup by (done || compute_done); exact Hfn).
  clearbody d'.
  rewrite Hdisp', is_Some_fmap_b.
  destruct (bool_decide (arg_type a = py "incomplete")
            && negb (bool_decide (is_Some (arg_disposition a))));
    [reflexivity|].
  mstep. rewrite Hmt', is_Some_fmap_b.
  destruct (bool_decide (arg_type a = py "video")
            && negb (bool_decide (is_Some (arg_mimetype a))));
    [|reflexivity].
  mstep. unfold init_default_mimetype.
  destruct (arg_filename a) as [f|].
  - cbn [fmap option_fmap option_map] in Hfn'.
    repeat first [ progress mstep | rewrite Hfn' | rewrite bool_decide_is_Some_Some
                 | progress cbn [truthy lowered_extension] ].
    destruct (bool_decide (f = []));
    repeat first [ progress mstep | rewrite Hfn' | progress cbn [truthy lowered_extension] ];
    reflexivity.
  - cbn [fmap option_fmap option_map] in Hfn'.
    repeat first [ progress mstep | rewrite Hfn' | rewrite bool_decide_is_Some_None ].
    reflexivity.
Qed.

(** Copying the one dict that was supplied: the new dict has its entries,
    whether [copy()] or [{}] made it. *)
Lemma mirror_run (from to : string) (d : gmap string value)
    (s : gmap N (gmap string value)) (o : list exn) (l : N) :
  d !! from = Some (VDict l) ->
  (x <- getattr from ;;
   nonempty <- truth x ;;
   y <- (if nonempty then dict_copy x else dict_new ∅) ;;
   setattr to y) (State d s o)
  = (Ret tt, State (<[to := VDict (fresh (dom s))]> d)
               (<[fresh (dom s) := default ∅ (s !! l)]> s) o).
Proof.
  intros Hfrom. unfold bind, getattr, truth, setattr. cbn [self_dict store stdout].
  rewrite Hfrom.
  destruct (truthy (State d s o) (VDict l)) eqn:Htruth.
  - reflexivity.
  - apply truthy_dict_false in Htruth. unfold deref in Htruth. cbn [store] in Htruth.
    unfold dict_new. cbn [self_dict store stdout]. by rewrite Htruth.
Qed.

Ltac init_tail_lookups Hkw :=
  apply init_tail; [exact Hkw|..]; rewrite ?lookup_insert_ne by done;
  [apply init_attrs_disposition | apply init_attrs_mimetype | apply init_attrs_filename].

(** Construction of a new object computes [init_result]. *)
Lemma init_run (env : Env) (a : InitArgs) (kwargs : list (string * value))
    (s : gmap N (gmap string value)) (o : list exn) :
  kwargs_ok init_params kwargs ->
  __init__ env a kwargs (State ∅ s o) = init_result env a kwargs s o.
Proof.
  intros Hkw. unfold __init__, init_result, normalised_start.
  unfold bind at 1. unfold when at 1.
  destruct (bool_decide (arg_type a ∈ VALID_TYPES)); [cbn [negb]|reflexivity].
  unfold ret at 1. unfold bind at 1.
  destruct (arg_start a) as [start|str];
    [|destruct (parser_parse env str) as [start|]; [|reflexivity]].
  all: unfold ret at 1; unfold bind at 1.
  all: rewrite (for_each_assigns (init_locals a start) _ id);
         [|intros [k [v|]] [d' s' o']; reflexivity].
  all: rewrite map_id; cbn [self_dict store stdout]; fold (init_attrs a start).
  all: unfold bind at 1; unfold hasattr at 1; cbn [self_dict store stdout].
  all: unfold bind at 1; unfold hasattr at 1; cbn [self_dict store stdout].
  all: rewrite init_attrs_meta, init_attrs_metadata, !is_Some_fmap_b.
  all: unfold bind at 1; unfold init_reconciled.
  all: pose proof (init_attrs_meta a start) as Hm;
       pose proof (init_attrs_metadata a start) as Hmd.
  all: destruct (arg_meta a) as [l1|], (arg_metadata a) as [l2|];
       cbn [fmap option_fmap option_map] in *;
       repeat first [ rewrite bool_decide_is_Some_Some | rewrite bool_decide_is_Some_None
                    | progress cbn [negb andb] ].
  all: first
    [ (* both supplied: nothing to do *)
      unfold ret at 1; cbn [fst snd]; init_tail_lookups Hkw
    | (* metadata from meta *)
      rewrite (mirror_run "meta" "metadata" _ s o l1 Hm); cbn [fst snd];
      init_tail_lookups Hkw
    | (* meta from metadata *)
      rewrite (mirror_run "metadata" "meta" _ s o l2 Hmd); cbn [fst snd];
      init_tail_lookups Hkw
    | (* neither: two new dicts *)
      unfold bind at 1 2 3, dict_new at 1, setattr at 1;
      cbn [self_dict store stdout fst snd];
      unfold dict_new at 1, setattr at 1; cbn [self_dict store stdout fst snd];
      init_tail_lookups Hkw ].
Qed.

Lemma invalid_type_message_text (type : list N) :
  invalid_type_message type
  = py "Invalid dialog type: " ++ type
    ++ py ". Must be one of ['recording', 'text', 'transfer', 'incomplete', 'audio', 'video']".
Proof. unfold invalid_type_message. do 2 f_equal. Qed.

(** The two [ValueError] messages of [__init__] differ at their first
    character. *)
Lemma invalid_type_message_ne (type : list N) :
  invalid_type_message type ≠ incomplete_message.
Proof.
  intros H. apply (f_equal (hd 0)) in H. vm_compute in H. discriminate.
Qed.

Section Construction.

Context (env : Env).

(** C8: construction raises the type error exactly when [type] is outside
    {recording, text, transfer, incomplete, audio, video}; its message holds
    the offending value and the list of the valid ones; and for a [type] in
    the set construction returns when its other preconditions hold ([start]
    is a datetime or parses; a disposition comes with "incomplete"). *)
Theorem init_validates_type (a : InitArgs) (kwargs : list (string * value))
    (s : gmap N (gmap string value)) (o : list exn) :
  kwargs_ok init_params kwargs ->
  (arg_type a ∉ VALID_TYPES <->
   exists σ', __init__ env a kwargs (State ∅ s o)
              = (Raise (ValueError (invalid_type_message (arg_type a))), σ'))
  /\ invalid_type_message (arg_type a)
     = py "Invalid dialog type: " ++ arg_type a
       ++ py ". Must be one of ['recording', 'text', 'transfer', 'incomplete', 'audio', 'video']"
  /\ (arg_type a ∈ VALID_TYPES ->
      start_parses env a ->
      (arg_type a = py "incomplete" -> is_Some (arg_disposition a)) ->
      exists σ', __init__ env a kwargs (State ∅ s o) = (Ret tt, σ')).
Proof.
  intros Hkw. rewrite (init_run env a kwargs s o Hkw). unfold init_result.
  split; [|split; [apply invalid_type_message_text|]].
  - destruct (decide (arg_type a ∈ VALID_TYPES)) as [Hin|Hout].
    + rewrite (bool_decide_eq_true_2 _ Hin). split; [done|].
      intros (σ' & Hrun). exfalso.
      destruct (normalised_start env a); [|discriminate].
      destruct (_ && _) in Hrun.
      * apply (invalid_type_message_ne (arg_type a)). congruence.
      * destruct (_ && _) in Hrun; discriminate.
    + rewrite (bool_decide_eq_false_2 _ Hout). split; [eauto|done].
  - intros Hin Hstart Hdisp. rewrite (bool_decide_eq_true_2 _ Hin).
    unfold normalised_start. unfold start_parses in Hstart.
    assert (Hok : bool_decide (arg_type a = py "incomplete")
                  && negb (bool_decide (is_Some (arg_disposition a))) = false).
    { apply andb_false_iff. destruct (decide (arg_type a = py "incomplete")) as [Heq|Hne].
      - right. apply negb_false_iff, bool_decide_eq_true. auto.
      - left. by apply bool_decide_eq_false. }
    destruct (arg_start a) as [iso|str];
      [|destruct Hstart as [iso ->]]; cbn [fst snd]; rewrite Hok; clear Hok;
      destruct (_ && _); eauto.
Qed.

(** C9: with [type == "incomplete"] and the other preconditions of
    construction met ([start] a datetime or a string that parses),
    construction raises the ValidationError that asks for a disposition
    when none is supplied, and returns when one is.  The check is the last
    step: when it raises, the fields are already assigned. *)
Theorem init_incomplete_needs_disposition (a : InitArgs) (kwargs : list (string * value))
    (s : gmap N (gmap string value)) (o : list exn) :
  kwargs_ok init_params kwargs ->
  arg_type a = py "incomplete" ->
  start_parses env a ->
  (arg_disposition a = None ->
   exists σ', __init__ env a kwargs (State ∅ s o)
              = (Raise (ValueError incomplete_message), σ')
              /\ is_ValidationError (ValueError incomplete_message) = true
              /\ self_dict σ' !! "type" = Some (VStr (py "incomplete")))
  /\ (is_Some (arg_disposition a) ->
      exists σ', __init__ env a kwargs (State ∅ s o) = (Ret tt, σ')
                 /\ self_dict σ' !! "disposition" = VStr <$> arg_disposition a).
Proof.
  intros Hkw Htype Hstart. rewrite (init_run env a kwargs s o Hkw). unfold init_result.
  rewrite Htype.
  replace (bool_decide (py "incomplete" ∈ VALID_TYPES)) with true
    by (vm_compute; reflexivity).
  replace (bool_decide (py "incomplete" = py "video")) with false
    by (vm_compute; reflexivity).
  replace (bool_decide (py "incomplete" = py "incomplete")) with true
    by (vm_compute; reflexivity).
  cbn [andb]. unfold normalised_start. unfold start_parses in Hstart.
  split.
  - intros Hnone. rewrite Hnone, bool_decide_is_Some_None. cbn [negb].
    assert (Hlook : forall start,
      assign_all (init_kwargs kwargs) (init_reconciled a start s).1 !! "type"
      = Some (VStr (py "incomplete"))).
    { intros start. rewrite init_kwargs_lookup by (done || compute_done).
      unfold init_reconciled.
      destruct (arg_meta a), (arg_metadata a); cbn [fst];
        rewrite ?lookup_insert_ne by done; init_attr; by rewrite Htype. }
    destruct (arg_start a) as [iso|str]; [|destruct Hstart as [iso ->]];
      eexists; (split; [reflexivity|]); (split; [reflexivity|]); apply Hlook.
  - intros Hdisp. rewrite (bool_decide_eq_true_2 _ Hdisp). cbn [negb].
    assert (Hlook : forall start,
      assign_all (init_kwargs kwargs) (init_reconciled a start s).1 !! "disposition"
      = VStr <$> arg_disposition a).
    { intros start. rewrite init_kwargs_lookup by (done || compute_done).
      unfold init_reconciled.
      destruct (arg_meta a), (arg_metadata a); cbn [fst];
        rewrite ?lookup_insert_ne by done; apply init_attrs_disposition. }
    destruct (arg_start a) as [iso|str]; [|destruct Hstart as [iso ->]];
      eexists; (split; [reflexivity|]); apply Hlook.
Qed.

End Construction.

Lemma init_validates_type_witness :
  exists σ', __init__ (sample_env 200)
               (sample_args (py "text") sample_start None None None None) []
               empty_state = (Ret tt, σ').
Proof.
  apply (init_validates_type (sample_env 200)
           (sample_args (py "text") sample_start None None None None) [] ∅ []).
  - constructor.
  - apply (bool_decide_eq_true_1 (py "text" ∈ VALID_TYPES)). vm_compute. reflexivity.
  - vm_compute. eauto.
  - vm_compute. discriminate.
Defined.

(** The parse of [start] comes before the disposition check: a [start]
    string the parser rejects is reported first, with or without a
    disposition. *)
Example init_incomplete_unparsable_start :
  __init__ (sample_env 200)
    (sample_args (py "incomplete") (StartStr []) None (Some (py "no-answer")) None None)
    [] empty_state
  = (Raise (ParserError []), empty_state).
Proof. vm_compute. reflexivity. Qed.

Lemma init_incomplete_needs_disposition_witness :
  (exists σ', __init__ (sample_env 200)
                (sample_args (py "incomplete") sample_start None None None None) []
                empty_state = (Raise (ValueError incomplete_message), σ')
              /\ is_ValidationError (ValueError incomplete_message) = true
              /\ self_dict σ' !! "type" = Some (VStr (py "incomplete")))
  /\ (exists σ', __init__ (sample_env 200)
                   (sample_args (py "incomplete") sample_start None
                      (Some (py "no-answer")) None None) []
                   empty_state = (Ret tt, σ')
                 /\ self_dict σ' !! "disposition" = Some (VStr (py "no-answer"))).
Proof.
  split.
  - destruct (init_incomplete_needs_disposition (sample_env 200)
                (sample_args (py "incomplete") sample_start None None None None) [] ∅ [])
      as (Hraise & _); [constructor|reflexivity|vm_compute; eauto|].
    exact (Hraise eq_refl).
  - destruct (init_incomplete_needs_disposition (sample_env 200)
                (sample_args (py "incomplete") sample_start None
                   (Some (py "no-answer")) None None) [] ∅ [])
      as (_ & Hret); [constructor|reflexivity|vm_compute; eauto|].
    apply Hret. vm_compute. eauto.
Defined.

(** ** Attaching by reference, and the video helper *)

Lemma ensure_dict_bind {A} (name : string) (k : M A) (σ : state) :
  (missing <- missing_or_None name ;;
   when missing (d <- dict_new ∅ ;; setattr name d) ;;;
   k) σ = k (ensure_dict name σ).
Proof.
  unfold bind, missing_or_None, when, ensure_dict, dict_new, setattr, ret.
  cbn [self_dict store stdout].
  destruct (self_dict σ !! name) as [[]|]; try reflexivity; by destruct σ.
Qed.

Lemma kwargs_get_filename_only (filename : value) :
  kwargs_get [("filename", filename)] "filename" = filename
  /\ kwargs_get [("filename", filename)] "mimetype" = VNone.
Proof. split; reflexivity. Qed.

Lemma truthy_str (σ : state) (s : list N) : s ≠ [] -> truthy σ (VStr s) = true.
Proof. intros Hne. cbn [truthy]. by rewrite (bool_decide_eq_false_2 _ Hne). Qed.

(** The two copies of the extension table are one table. *)
Lemma mimetype_chains_agree (ext : list N) :
  add_video_mimetype_of_ext ext = init_mimetype_of_ext ext.
Proof. reflexivity. Qed.

Section Attach.

Context (env : Env).

Lemma add_external_data_run (σ : state) (url : list N) (filename mimetype : value) :
  add_external_data env url filename mimetype σ
  = add_external_data_result env σ url filename mimetype.
Proof.
  destruct σ as [d s o].
  unfold add_external_data, add_external_data_result, referenced, described.
  mrun. destruct (requests_head env url) as [response|name]; [|reflexivity].
  mrun. destruct (status_code response =? 200)%Z; [|reflexivity].
  rewrite !(truthy_self_dict _ d s _ o).
  destruct (truthy (State d s o) mimetype); mrun.
  all: rewrite !(truthy_self_dict _ d s _ o).
  all: destruct (truthy (State d s o) filename); mrun.
  all: match goal with |- context [is_video_of ?m] => destruct (is_video_of m) end;
       [|reflexivity].
  all: rewrite !(truthy_self_dict _ d s _ o).
  all: destruct (truthy (State d s o) (from_option VStr VNone (content_length response)));
       [|reflexivity].
  all: unfold record_content_length; mrun; reflexivity.
Qed.

(** Recording the content length touches no attribute but [metadata]. *)
Lemma record_content_length_frame (length : list N) (σ : state) (k : string) :
  k ≠ "metadata" ->
  self_dict (record_content_length env length σ).2 !! k = self_dict σ !! k.
Proof.
  intros Hne. destruct σ as [d s o]. unfold record_content_length. mrun.
  destruct (d !! "metadata") as [md|] eqn:Hmd.
  - rewrite bool_decide_is_Some_Some. mrun. unfold py_int.
    destruct (_ && _); [|destruct (int_other env length)]; mrun;
      rewrite ?Hmd; try reflexivity;
      destruct md; cbn [dict_setitem]; mrun; reflexivity.
  - rewrite bool_decide_is_Some_None. unfold dict_new. mrun. unfold py_int.
    destruct (_ && _); [|destruct (int_other env length)]; mrun;
      rewrite ?lookup_insert_eq; cbn [dict_setitem]; mrun;
      by rewrite lookup_insert_ne.
Qed.


(** [add_video_data(source, is_external=..., filename=filename)] up to the
    dispatch: type set, both maps present, the mimetype inferred. *)
Lemma add_video_data_named (source filename : list N) (is_external : bool) (σ : state) :
  filename ≠ [] ->
  add_video_data env source None is_external [("filename", VStr filename)] σ
  = ((if is_external
      then add_external_data env source (VStr filename)
             (VStr (add_video_mimetype_of_ext (str_lower env (split_last dot filename))))
      else add_inline_data (VStr source) (VStr filename)
             (VStr (add_video_mimetype_of_ext (str_lower env (split_last dot filename))))) ;;;
     ret tt)
      (ensure_dict "meta"
         (ensure_dict "metadata"
            (State (<["type" := VStr (py "video")]> (self_dict σ)) (store σ) (stdout σ)))).
Proof.
  intros Hne. unfold add_video_data.
  unfold bind at 1, setattr at 1. cbn [self_dict store stdout].
  rewrite !ensure_dict_bind.
  destruct (kwargs_get_filename_only (VStr filename)) as [-> ->].
  set (σ1 := ensure_dict "meta" _).
  unfold bind at 1, truth at 1. cbn [from_option truthy].
  unfold bind at 1, when at 1, ret at 1.
  unfold bind at 1, truth at 1. rewrite (truthy_str _ _ Hne). cbn [negb andb].
  rewrite andb_false_r.
  unfold bind at 1, truth at 1. cbn [truthy negb andb].
  unfold bind at 1, truth at 1. rewrite (truthy_str _ _ Hne). cbn [negb andb].
  unfold bind at 1. unfold bind at 1. cbn [lowered_extension]. unfold ret at 1 2.
  unfold bind at 1 2.
  match goal with |- context [(if is_external then ?x else ?y) σ1] =>
    destruct ((if is_external then x else y) σ1) as [[[]|e] σ2]
  end; [|reflexivity].
  cbn [for_each]. unfold bind, when, ret. cbn [fst snd].
  replace (bool_decide ("filename" ∈ ["filename"; "mimetype"])) with true
    by (symmetry; apply bool_decide_eq_true; set_solver).
  reflexivity.
Qed.

End Attach.


Section Inference.

Context (env : Env).










End Inference.


(** What the amended claim leaves out: inline, with an empty filename,
    [add_video_data] has no fallback (line 384 has no [else], where lines
    248-250 of construction have one) and stores [None]. *)
Example add_video_data_inline_no_default :
  self_dict (add_video_data (sample_env 200) (py "AAAA") None false
               [("filename", VStr [])] empty_state).2 !! "mimetype"
  = Some VNone.
Proof. vm_compute. reflexivity. Qed.


(** The scenario of the specification (8): a video fragment, then
    [add_video_data("https://x/clip.mov", is_external=True)]. *)
Example add_video_data_clip_mov :
  let σ := (__init__ (sample_env 200)
              (sample_args (py "video") sample_start None None None None) [] ;;;
            add_video_data (sample_env 200) (py "https://x/clip.mov") None true [])
             empty_state in
  σ.1 = Ret tt
  /\ self_dict σ.2 !! "mimetype" = Some (VStr (py "video/quicktime"))
  /\ self_dict σ.2 !! "filename" = Some (VStr (py "clip.mov"))
  /\ is_video_of (self_dict σ.2) = true
  /\ EXTERNAL σ.2.
Proof. repeat split; vm_compute; reflexivity. Qed.

(** ** The mirrored maps *)




Section Mirror.
Context (env : Env).




Lemma update_both_run {A} (other l1 l2 : N) (k : M A) (σ : state) :
  self_dict σ !! "meta" = Some (VDict l1) ->
  self_dict σ !! "metadata" = Some (VDict l2) ->
  (md <- getattr "metadata" ;;
   dict_update md other ;;;
   m <- getattr "meta" ;;
   dict_update m other ;;;
   k) σ = k (both_updated σ other l1 l2).
Proof.
  intros Hm Hmd. unfold bind, getattr. rewrite Hmd. cbn [dict_update self_dict].
  rewrite Hm. reflexivity.
Qed.











End Mirror.



(** The write path the amended claim leaves out: on a video fragment whose
    HEAD response has a Content-Length, [add_external_data] writes
    [metadata["content_length"]] (line 320) and not [meta]. *)
Example add_external_data_content_length_unmirrored :
  let r := (__init__ (sample_env 200)
              (sample_args (py "video") sample_start None None None None) [] ;;;
            add_external_data (sample_env 200) (py "https://x/clip.mp4") VNone VNone)
             empty_state in
  r.1 = Ret tt
  /\ self_dict r.2 !! "metadata" = Some (VDict 0)
  /\ self_dict r.2 !! "meta" = Some (VDict 1)
  /\ deref r.2 0 !! "content_length" = Some (VInt 5)
  /\ deref r.2 1 !! "content_length" = None.
Proof. repeat split; vm_compute; reflexivity. Qed.

(** * Further properties of the code *)

(** ** Bytes and sextets, by enumeration *)

Lemma byte_of_to_N (b : byte) : byte_of_N (Byte.to_N b) = b.
Proof.
  unfold byte_of_N. pose proof (Byte.to_N_bounded b) as Hb.
  rewrite N.mod_small by lia. by rewrite Byte.of_to_N.
Qed.

Lemma elem_of_all_bytes (b : byte) : In b all_bytes.
Proof.
  unfold all_bytes. rewrite <- (byte_of_to_N b). apply in_map, in_map_iff.
  exists (N.to_nat (Byte.to_N b)). split; [apply N2Nat.id|].
  apply in_seq. pose proof (Byte.to_N_bounded b). lia.
Qed.

Lemma forall_byte (P : byte -> bool) :
  forallb P all_bytes = true -> forall b, P b = true.
Proof. intros H b. eapply forallb_forall in H; [exact H|apply elem_of_all_bytes]. Qed.

Lemma forall_byte2 (P : byte -> byte -> bool) :
  forallb (fun a => forallb (P a) all_bytes) all_bytes = true -> forall a b, P a b = true.
Proof. intros H a b. apply forall_byte. revert a. apply forall_byte. exact H. Qed.

Lemma forallb_N_range (P : N -> bool) (lo : N) (count : nat) :
  forallb P (N_range lo count) = true ->
  forall x, lo <= x < lo + N.of_nat count -> P x = true.
Proof.
  intros H x Hx. eapply forallb_forall in H; [exact H|].
  apply in_map_iff. exists (N.to_nat (x - lo)). split; [lia|]. apply in_seq. lia.
Qed.

Lemma forallb_N_range2 (P : N -> N -> bool) (l0 l1 : N) (c0 c1 : nat) :
  forallb (fun a => forallb (P a) (N_range l1 c1)) (N_range l0 c0) = true ->
  forall a b, l0 <= a < l0 + N.of_nat c0 -> l1 <= b < l1 + N.of_nat c1 -> P a b = true.
Proof.
  intros H a b Ha Hb.
  apply (forallb_N_range (P a) l1 c1); [|exact Hb].
  apply (forallb_N_range (fun a => forallb (P a) (N_range l1 c1)) l0 c0 H a Ha).
Qed.

Lemma url_char_sextet (v : N) :
  v < 64 -> Byte.eqb (url_char v) "=" = false /\ Base64.a2b (url_char v) = Some v.
Proof.
  intros Hv.
  assert (H : forallb (fun v => negb (Byte.eqb (url_char v) "=")
                               && bool_decide (Base64.a2b (url_char v) = Some v))
                (map N.of_nat (seq 0 64)) = true) by (vm_compute; reflexivity).
  eapply forallb_forall in H.
  - apply andb_true_iff in H as [H1 H2]. apply negb_true_iff in H1.
    apply bool_decide_eq_true in H2. eauto.
  - apply in_map_iff. exists (N.to_nat v). split; [apply N2Nat.id|]. apply in_seq. lia.
Qed.

Lemma quad_facts (a b : byte) :
  let x := Byte.to_N a in
  let y := Byte.to_N b in
  N.shiftr x 2 < 64
  /\ N.lor (N.shiftl (N.land x 3) 4) (N.shiftr y 4) < 64
  /\ N.lor (N.shiftl (N.land x 15) 2) (N.shiftr y 6) < 64
  /\ N.land x 63 < 64
  /\ N.shiftl (N.land x 3) 4 < 64
  /\ N.shiftl (N.land x 15) 2 < 64
  /\ byte_of_N (N.lor (N.shiftl (N.shiftr x 2) 2)
                  (N.shiftr (N.lor (N.shiftl (N.land x 3) 4) (N.shiftr y 4)) 4)) = a
  /\ N.land (N.lor (N.shiftl (N.land x 3) 4) (N.shiftr y 4)) 15 = N.shiftr y 4
  /\ byte_of_N (N.lor (N.shiftl (N.shiftr x 4) 4)
                  (N.shiftr (N.lor (N.shiftl (N.land x 15) 2) (N.shiftr y 6)) 2)) = a
  /\ N.land (N.lor (N.shiftl (N.land x 15) 2) (N.shiftr y 6)) 3 = N.shiftr y 6
  /\ byte_of_N (N.lor (N.shiftl (N.shiftr x 6) 6) (N.land x 63)) = a.
Proof.
  revert a b.
  set (P := fun a b : byte =>
    let x := Byte.to_N a in
    let y := Byte.to_N b in
    (N.shiftr x 2 <? 64)
    && (N.lor (N.shiftl (N.land x 3) 4) (N.shiftr y 4) <? 64)
    && (N.lor (N.shiftl (N.land x 15) 2) (N.shiftr y 6) <? 64)
    && (N.land x 63 <? 64)
    && (N.shiftl (N.land x 3) 4 <? 64)
    && (N.shiftl (N.land x 15) 2 <? 64)
    && Byte.eqb (byte_of_N (N.lor (N.shiftl (N.shiftr x 2) 2)
                  (N.shiftr (N.lor (N.shiftl (N.land x 3) 4) (N.shiftr y 4)) 4))) a
    && (N.land (N.lor (N.shiftl (N.land x 3) 4) (N.shiftr y 4)) 15 =? N.shiftr y 4)
    && Byte.eqb (byte_of_N (N.lor (N.shiftl (N.shiftr x 4) 4)
                  (N.shiftr (N.lor (N.shiftl (N.land x 15) 2) (N.shiftr y 6)) 2))) a
    && (N.land (N.lor (N.shiftl (N.land x 15) 2) (N.shiftr y 6)) 3 =? N.shiftr y 6)
    && Byte.eqb (byte_of_N (N.lor (N.shiftl (N.shiftr x 6) 6) (N.land x 63))) a).
  assert (H : forall a b, P a b = true) by (apply forall_byte2; vm_compute; reflexivity).
  intros a b. specialize (H a b). unfold P in H. cbn zeta in *.
  repeat (apply andb_true_iff in H as [H ?]).
  repeat match goal with
         | H : (_ <? _) = true |- _ => apply N.ltb_lt in H
         | H : (_ =? _) = true |- _ => apply N.eqb_eq in H
         | H : Byte.eqb _ _ = true |- _ => apply Byte.byte_dec_bl in H
         end.
  repeat split; assumption.
Qed.

(** ** Base64: decoding what was encoded *)

Section Base64RoundTrip.

Import Base64.


Lemma loop_url_char (v : N) (rest : list byte) (quad_pos leftchar pads : N)
    (out : list byte) :
  v < 64 ->
  a2b_base64_loop (url_char v :: rest) quad_pos leftchar pads out
  = if quad_pos =? 0 then a2b_base64_loop rest 1 v 0 out
    else if quad_pos =? 1 then
      a2b_base64_loop rest 2 (N.land v 0x0f) 0
        (out ++ [byte_of_N (N.lor (N.shiftl leftchar 2) (N.shiftr v 4))])
    else if quad_pos =? 2 then
      a2b_base64_loop rest 3 (N.land v 0x03) 0
        (out ++ [byte_of_N (N.lor (N.shiftl leftchar 4) (N.shiftr v 2))])
    else
      a2b_base64_loop rest 0 0 0
        (out ++ [byte_of_N (N.lor (N.shiftl leftchar 6) v)]).
Proof.
  intros Hv. destruct (url_char_sextet v Hv) as [Hpad Hval].
  cbn [a2b_base64_loop]. rewrite Hpad, Hval. reflexivity.
Qed.

Lemma pad_facts (a : byte) :
  let x := Byte.to_N a in
  byte_of_N (N.lor (N.shiftl (N.shiftr x 2) 2) (N.shiftr (N.shiftl (N.land x 3) 4) 4)) = a
  /\ byte_of_N (N.lor (N.shiftl (N.shiftr x 4) 4) (N.shiftr (N.shiftl (N.land x 15) 2) 2)) = a.
Proof.
  revert a.
  set (P := fun a : byte =>
    let x := Byte.to_N a in
    Byte.eqb (byte_of_N (N.lor (N.shiftl (N.shiftr x 2) 2)
                           (N.shiftr (N.shiftl (N.land x 3) 4) 4))) a
    && Byte.eqb (byte_of_N (N.lor (N.shiftl (N.shiftr x 4) 4)
                              (N.shiftr (N.shiftl (N.land x 15) 2) 2))) a).
  assert (H : forall a, P a = true) by (apply forall_byte; vm_compute; reflexivity).
  intros a. specialize (H a). unfold P in H. cbn zeta in *.
  apply andb_true_iff in H as [H1 H2].
  split; by apply Byte.byte_dec_bl.
Qed.

Lemma loop_two_pads (rest : list byte) (leftchar : N) (out : list byte) :
  a2b_base64_loop ("="%byte :: "="%byte :: rest) 2 leftchar 0 out = Some out.
Proof. reflexivity. Qed.

Lemma loop_one_pad (rest : list byte) (leftchar : N) (out : list byte) :
  a2b_base64_loop ("="%byte :: rest) 3 leftchar 0 out = Some out.
Proof. reflexivity. Qed.

Lemma url_text_cons (c : byte) (cs : list byte) :
  map urlsafe_decode_translation (map urlsafe_encode_translation (c :: cs))
  = urlsafe_decode_translation (urlsafe_encode_translation c)
    :: map urlsafe_decode_translation (map urlsafe_encode_translation cs).
Proof. reflexivity. Qed.

Lemma url_text_pad :
  urlsafe_decode_translation (urlsafe_encode_translation "=") = "="%byte.
Proof. reflexivity. Qed.

Lemma a2b_base64_loop_encoded (bs junk : list byte) :
  forall out,
    a2b_base64_loop (map urlsafe_decode_translation (urlsafe_b64encode bs) ++ junk) 0 0 0 out
    = if (length bs mod 3 =? 0)%nat
      then a2b_base64_loop junk 0 0 0 (out ++ bs)
      else Some (out ++ bs).
Proof.
  set (P := fun bs => forall out,
    a2b_base64_loop (map urlsafe_decode_translation (urlsafe_b64encode bs) ++ junk) 0 0 0 out
    = if (length bs mod 3 =? 0)%nat
      then a2b_base64_loop junk 0 0 0 (out ++ bs)
      else Some (out ++ bs)).
  enough (H : P bs /\ (forall a, P (a :: bs)) /\ (forall a b, P (a :: b :: bs))) by apply H.
  induction bs as [|c bs (IH0 & IH1 & IH2)].
  - split; [|split].
    + intros out. cbn. by rewrite app_nil_r.
    + intros a out. unfold urlsafe_b64encode. cbn [b64encode].
      destruct (quad_facts a a) as (H1 & _ & _ & _ & H2 & _).
      destruct (pad_facts a) as [Ha _].
      rewrite !url_text_cons, !url_text_pad.
      fold (url_char (N.shiftr (Byte.to_N a) 2)).
      fold (url_char (N.shiftl (N.land (Byte.to_N a) 3) 4)).
      cbn [app]. rewrite !loop_url_char by assumption. cbn [N.eqb Pos.eqb].
      rewrite loop_two_pads, Ha. reflexivity.
    + intros a b out. unfold urlsafe_b64encode. cbn [b64encode].
      destruct (quad_facts a b) as (H1 & H2 & _ & _ & _ & _ & Ha & Hl & _).
      destruct (quad_facts b b) as (_ & _ & _ & _ & _ & H3 & _).
      destruct (pad_facts b) as [_ Hb].
      rewrite !url_text_cons, !url_text_pad.
      fold (url_char (N.shiftr (Byte.to_N a) 2)).
      fold (url_char (N.lor (N.shiftl (N.land (Byte.to_N a) 3) 4) (N.shiftr (Byte.to_N b) 4))).
      fold (url_char (N.shiftl (N.land (Byte.to_N b) 15) 2)).
      cbn [app]. rewrite !loop_url_char by assumption. cbn [N.eqb Pos.eqb].
      rewrite loop_one_pad, Ha, Hl, Hb, <- app_assoc. reflexivity.
  - split; [|split].
    + apply IH1.
    + intros a. apply IH2.
    + intros a b out. unfold urlsafe_b64encode. cbn [b64encode].
      destruct (quad_facts a b) as (H1 & H2 & _ & _ & _ & _ & Ha & Hl & _).
      destruct (quad_facts b c) as (_ & _ & H3 & _ & _ & _ & _ & _ & Hb & Hl' & _).
      destruct (quad_facts c c) as (_ & _ & _ & H4 & _ & _ & _ & _ & _ & _ & Hc).
      rewrite !url_text_cons.
      fold (url_char (N.shiftr (Byte.to_N a) 2)).
      fold (url_char (N.lor (N.shiftl (N.land (Byte.to_N a) 3) 4) (N.shiftr (Byte.to_N b) 4))).
      fold (url_char (N.lor (N.shiftl (N.land (Byte.to_N b) 15) 2) (N.shiftr (Byte.to_N c) 6))).
      fold (url_char (N.land (Byte.to_N c) 63)).
      cbn [app]. rewrite !loop_url_char by assumption. cbn [N.eqb Pos.eqb].
      rewrite Ha, Hl, Hb, Hl', Hc.
      fold (urlsafe_b64encode bs). rewrite IH0.
      rewrite <- !app_assoc. cbn [app length].
      replace (S (S (S (length bs))) mod 3)%nat with (length bs mod 3)%nat; [reflexivity|].
      change (S (S (S (length bs)))) with (3 + length bs)%nat.
      rewrite Nat.Div0.add_mod, Nat.Div0.mod_same. cbn [Nat.add].
      by rewrite Nat.Div0.mod_mod.
Qed.

Lemma urlsafe_b64decode_encode (bs : list byte) :
  urlsafe_b64decode (urlsafe_b64encode bs) = Some bs.
Proof.
  unfold urlsafe_b64decode.
  rewrite <- (app_nil_r (map _ _)), a2b_base64_loop_encoded.
  destruct (_ =? _)%nat; reflexivity.
Qed.

End Base64RoundTrip.

(** ** UTF-8: encoding what was decoded *)

Section Utf8RoundTrip.

Import Utf8.

Lemma utf8_check2_ok (n0 n1 : N) :
  0xC2 <= n0 <= 0xDF -> 0x80 <= n1 <= 0xBF -> utf8_check2_at n0 n1 = true.
Proof.
  intros H0 H1.
  apply (forallb_N_range2 utf8_check2_at 0xC2 0x80 30 64); [|lia..].
  vm_compute. reflexivity.
Qed.

Lemma utf8_check3_ok (n0 n1 n2 : N) :
  0xE0 <= n0 <= 0xEF -> 0x80 <= n1 <= 0xBF -> 0x80 <= n2 <= 0xBF ->
  utf8_check3_at n0 n1 n2 = true.
Proof.
  intros H0 H1 H2.
  assert (H : forallb (utf8_check3_at n0 n1) (N_range 0x80 64) = true).
  { apply (forallb_N_range2 (fun a b => forallb (utf8_check3_at a b) (N_range 0x80 64))
             0xE0 0x80 16 64); [|lia..].
    vm_compute. reflexivity. }
  apply (forallb_N_range (utf8_check3_at n0 n1) 0x80 64 H). lia.
Qed.

Lemma utf8_check4_ok (n0 n1 n2 n3 : N) :
  0xF0 <= n0 <= 0xF4 -> 0x80 <= n1 <= 0xBF -> 0x80 <= n2 <= 0xBF -> 0x80 <= n3 <= 0xBF ->
  utf8_check4_at n0 n1 n2 n3 = true.
Proof.
  intros H0 H1 H2 H3.
  assert (H : forallb (fun c => forallb (utf8_check4_at n0 n1 c) (N_range 0x80 64))
                 (N_range 0x80 64) = true).
  { apply (forallb_N_range2
             (fun a b => forallb (fun c => forallb (utf8_check4_at a b c) (N_range 0x80 64))
                           (N_range 0x80 64))
             0xF0 0x80 5 64); [|lia..].
    vm_compute. reflexivity. }
  apply (forallb_N_range2 (utf8_check4_at n0 n1) 0x80 0x80 64 64 H); lia.
Qed.

Lemma in_range_bounds (lo hi : N) (b : byte) :
  in_range lo hi b = true -> lo <= Byte.to_N b <= hi.
Proof.
  unfold in_range. intros H. apply andb_true_iff in H as [H1 H2].
  apply N.leb_le in H1, H2. lia.
Qed.

Lemma is_cont_bounds (b : byte) : is_cont b = true -> 0x80 <= Byte.to_N b <= 0xBF.
Proof. apply in_range_bounds. Qed.

Lemma encode_cp_1 (b : byte) : Byte.to_N b < 0x80 -> encode_cp (Byte.to_N b) = Some [b].
Proof.
  intros H. unfold encode_cp. apply N.ltb_lt in H. rewrite H. by rewrite byte_of_to_N.
Qed.

Lemma encode_cp_2 (b0 b1 : byte) :
  in_range 0xC2 0xDF b0 = true -> is_cont b1 = true ->
  encode_cp (N.lor (N.shiftl (N.land (Byte.to_N b0) 0x1F) 6) (low6 b1)) = Some [b0; b1].
Proof.
  intros H0%in_range_bounds H1%is_cont_bounds. unfold low6.
  pose proof (utf8_check2_ok _ _ H0 H1) as Hc. unfold utf8_check2_at in Hc.
  cbv zeta in Hc. set (c := N.lor _ _) in *.
  apply andb_true_iff in Hc as [Hc Hb1]. apply andb_true_iff in Hc as [Hc Hb0].
  apply andb_true_iff in Hc as [Hlo Hhi].
  apply N.eqb_eq in Hb0, Hb1. apply N.leb_le in Hlo. apply N.ltb_lt in Hhi.
  unfold encode_cp.
  rewrite (proj2 (N.ltb_ge c 0x80)) by lia.
  rewrite (proj2 (N.ltb_lt c 0x800)) by lia.
  rewrite Hb0, Hb1. by rewrite !byte_of_to_N.
Qed.

Lemma lead_condition (b0 b1 : byte) (lo_lead hi_lead lo hi : N) :
  (if Byte.to_N b0 =? lo_lead then in_range lo 0xBF b1
   else if Byte.to_N b0 =? hi_lead then in_range 0x80 hi b1
   else is_cont b1) = true ->
  0x80 <= lo -> hi <= 0xBF ->
  0x80 <= Byte.to_N b1 <= 0xBF
  /\ (if Byte.to_N b0 =? lo_lead then lo <=? Byte.to_N b1
      else if Byte.to_N b0 =? hi_lead then Byte.to_N b1 <=? hi
      else true) = true.
Proof.
  intros H Hlo Hhi.
  destruct (Byte.to_N b0 =? lo_lead); [|destruct (Byte.to_N b0 =? hi_lead)];
    apply in_range_bounds in H; (split; [lia|]); try reflexivity; apply N.leb_le; lia.
Qed.

Lemma encode_cp_3 (b0 b1 b2 : byte) :
  in_range 0xE0 0xEF b0 = true ->
  (if Byte.to_N b0 =? 0xE0 then in_range 0xA0 0xBF b1
   else if Byte.to_N b0 =? 0xED then in_range 0x80 0x9F b1
   else is_cont b1) = true ->
  is_cont b2 = true ->
  encode_cp (N.lor (N.shiftl (N.land (Byte.to_N b0) 0x0F) 12)
               (N.lor (N.shiftl (low6 b1) 6) (low6 b2))) = Some [b0; b1; b2].
Proof.
  intros H0%in_range_bounds H1 H2%is_cont_bounds. unfold low6.
  apply lead_condition in H1 as [H1 Hlead]; [|lia..].
  pose proof (utf8_check3_ok _ _ _ H0 H1 H2) as Hc. unfold utf8_check3_at in Hc.
  rewrite Hlead in Hc. cbv zeta in Hc. set (c := N.lor _ _) in *.
  apply andb_true_iff in Hc as [Hc Hb2]. apply andb_true_iff in Hc as [Hc Hb1].
  apply andb_true_iff in Hc as [Hc Hb0]. apply andb_true_iff in Hc as [Hc Hsur].
  apply andb_true_iff in Hc as [Hlo Hhi].
  apply negb_true_iff in Hsur. apply N.eqb_eq in Hb0, Hb1, Hb2.
  apply N.leb_le in Hlo. apply N.ltb_lt in Hhi. unfold encode_cp.
  rewrite (proj2 (N.ltb_ge c 0x80)) by lia.
  rewrite (proj2 (N.ltb_ge c 0x800)) by lia.
  rewrite (proj2 (N.ltb_lt c 0x10000)) by lia.
  rewrite Hsur, Hb0, Hb1, Hb2. by rewrite !byte_of_to_N.
Qed.

Lemma encode_cp_4 (b0 b1 b2 b3 : byte) :
  in_range 0xF0 0xF4 b0 = true ->
  (if Byte.to_N b0 =? 0xF0 then in_range 0x90 0xBF b1
   else if Byte.to_N b0 =? 0xF4 then in_range 0x80 0x8F b1
   else is_cont b1) = true ->
  is_cont b2 = true -> is_cont b3 = true ->
  encode_cp (N.lor (N.shiftl (N.land (Byte.to_N b0) 0x07) 18)
               (N.lor (N.shiftl (low6 b1) 12)
                  (N.lor (N.shiftl (low6 b2) 6) (low6 b3)))) = Some [b0; b1; b2; b3].
Proof.
  intros H0%in_range_bounds H1 H2%is_cont_bounds H3%is_cont_bounds. unfold low6.
  apply lead_condition in H1 as [H1 Hlead]; [|lia..].
  pose proof (utf8_check4_ok _ _ _ _ H0 H1 H2 H3) as Hc. unfold utf8_check4_at in Hc.
  rewrite Hlead in Hc. cbv zeta in Hc. set (c := N.lor _ _) in *.
  apply andb_true_iff in Hc as [Hc Hb3]. apply andb_true_iff in Hc as [Hc Hb2].
  apply andb_true_iff in Hc as [Hc Hb1]. apply andb_true_iff in Hc as [Hc Hb0].
  apply andb_true_iff in Hc as [Hlo Hhi].
  apply N.eqb_eq in Hb0, Hb1, Hb2, Hb3.
  apply N.leb_le in Hlo. apply N.ltb_lt in Hhi. unfold encode_cp.
  rewrite (proj2 (N.ltb_ge c 0x80)) by lia.
  rewrite (proj2 (N.ltb_ge c 0x800)) by lia.
  rewrite (proj2 (N.ltb_ge c 0x10000)) by lia.
  rewrite (proj2 (N.ltb_lt c 0x110000)) by lia.
  rewrite Hb0, Hb1, Hb2, Hb3. by rewrite !byte_of_to_N.
Qed.

Lemma decode_encode_bounded (n : nat) :
  forall bs s, (length bs <= n)%nat -> decode bs = Some s -> encode s = Some bs.
Proof.
  induction n as [|n IH]; intros bs s Hlen Hdec.
  - destruct bs; [|cbn in Hlen; lia]. cbn in Hdec. by injection Hdec as <-.
  - destruct bs as [|b0 r0]; [cbn in Hdec; by injection Hdec as <-|].
    cbn [decode] in Hdec. cbn [length] in Hlen.
    destruct (N.ltb_spec (Byte.to_N b0) 0x80) as [Hb0|Hb0].
    { destruct (decode r0) as [s'|] eqn:Hr; [|discriminate]. cbn in Hdec.
      injection Hdec as <-. cbn [encode].
      rewrite (encode_cp_1 b0 Hb0), (IH r0 s') by (lia || done). reflexivity. }
    destruct (in_range 0xC2 0xDF b0) eqn:H2.
    { destruct r0 as [|b1 r1]; [discriminate|].
      destruct (is_cont b1) eqn:Hc1; [|discriminate].
      destruct (decode r1) as [s'|] eqn:Hr; [|discriminate]. cbn in Hdec.
      injection Hdec as <-. cbn [encode].
      rewrite (encode_cp_2 b0 b1 H2 Hc1), (IH r1 s') by (cbn in Hlen; lia || done).
      reflexivity. }
    destruct (in_range 0xE0 0xEF b0) eqn:H3.
    { destruct r0 as [|b1 [|b2 r2]]; [discriminate..|].
      match type of Hdec with (if ?a && ?b then _ else _) = _ =>
        destruct a eqn:Hok1; [|discriminate]; destruct b eqn:Hc2; [|discriminate] end.
      destruct (decode r2) as [s'|] eqn:Hr; [|discriminate]. cbn in Hdec.
      injection Hdec as <-. cbn [encode].
      rewrite (encode_cp_3 b0 b1 b2 H3 Hok1 Hc2), (IH r2 s') by (cbn in Hlen; lia || done).
      reflexivity. }
    destruct (in_range 0xF0 0xF4 b0) eqn:H4; [|discriminate].
    destruct r0 as [|b1 [|b2 [|b3 r3]]]; [discriminate..|].
    match type of Hdec with (if ?a && ?b && ?c then _ else _) = _ =>
      destruct a eqn:Hok1; [|discriminate]; destruct b eqn:Hc2; [|discriminate];
      destruct c eqn:Hc3; [|discriminate] end.
    destruct (decode r3) as [s'|] eqn:Hr; [|discriminate]. cbn in Hdec.
    injection Hdec as <-. cbn [encode].
    rewrite (encode_cp_4 b0 b1 b2 b3 H4 Hok1 Hc2 Hc3), (IH r3 s') by (cbn in Hlen; lia || done).
    reflexivity.
Qed.

Lemma decode_encode (bs : list byte) (s : list N) :
  decode bs = Some s -> encode s = Some bs.
Proof. apply (decode_encode_bounded (length bs)). lia. Qed.

End Utf8RoundTrip.

(** ** What the signature check accepts *)

Lemma encode_app (s1 s2 : list N) (b1 b2 : list byte) :
  Utf8.encode s1 = Some b1 -> Utf8.encode s2 = Some b2 ->
  Utf8.encode (s1 ++ s2) = Some (b1 ++ b2).
Proof.
  revert b1. induction s1 as [|c s1 IH]; intros b1 H1 H2.
  - injection H1 as <-. exact H2.
  - cbn [Utf8.encode app] in *.
    destruct (Utf8.encode_cp c) as [bc|]; [|discriminate].
    destruct (Utf8.encode s1) as [r1|]; [|discriminate].
    injection H1 as <-. rewrite (IH r1 eq_refl H2). by rewrite app_assoc.
Qed.

Lemma encode_ascii (bs : list byte) :
  Forall (fun b => Byte.to_N b < 0x80) bs -> Utf8.encode (map Byte.to_N bs) = Some bs.
Proof.
  induction 1 as [|b bs Hb _ IH]; [reflexivity|].
  cbn [map Utf8.encode]. rewrite (encode_cp_1 b Hb), IH. reflexivity.
Qed.

(** The text of a base64 string encodes back to its bytes. *)
Lemma encode_base64url_text (data : list byte) :
  Utf8.encode (base64url_text data) = Some (Base64.urlsafe_b64encode data).
Proof. apply encode_ascii, urlsafe_b64encode_ascii. Qed.

Lemma bytes_differ_same (bs : list byte) : bytes_differ bs bs = false.
Proof. unfold bytes_differ. by rewrite bool_decide_eq_true_2. Qed.

(** The [try] block on a fragment whose signature and body are strings
    that encode, the signature decoding as base64. *)
Lemma body_hash_differs_run (σ : state) (signature body : list N)
    (encoded raw digest : list byte) :
  self_dict σ !! "signature" = Some (VStr signature) ->
  Utf8.encode signature = Some encoded ->
  Base64.urlsafe_b64decode encoded = Some digest ->
  self_dict σ !! "body" = Some (VStr body) ->
  Utf8.encode body = Some raw ->
  body_hash_differs σ = (Ret (bytes_differ (Sha256.sha256 raw) digest), σ).
Proof.
  intros Hsig Henc Hdec Hbody Hraw. unfold body_hash_differs. mrun.
  rewrite Hsig. cbn [str_encode]. rewrite Henc. mrun.
  unfold urlsafe_b64decode. rewrite Hdec. mrun.
  rewrite Hbody. cbn [str_encode]. rewrite Hraw. reflexivity.
Qed.

(** The digest has thirty-two bytes. *)
Lemma round_length (s : list Z) (kw : Z * Z) : length (Sha256.round s kw) = length s.
Proof.
  unfold Sha256.round.
  destruct s as [|a [|b [|c [|d [|e [|f [|g [|h [|i s]]]]]]]]]; reflexivity.
Qed.

Lemma fold_round_length (l : list (Z * Z)) (s : list Z) :
  length (fold_left Sha256.round l s) = length s.
Proof.
  revert s. induction l as [|kw l IH]; intros s; [reflexivity|].
  cbn [fold_left]. by rewrite IH, round_length.
Qed.

Lemma compress_length (h block : list Z) :
  length (Sha256.compress h block) = length h.
Proof.
  unfold Sha256.compress.
  rewrite length_map, length_combine, fold_round_length. lia.
Qed.

Lemma fold_compress_length (l : list (list Z)) (h : list Z) :
  length (fold_left Sha256.compress l h) = length h.
Proof.
  revert h. induction l as [|b l IH]; intros h; [reflexivity|].
  cbn [fold_left]. by rewrite IH, compress_length.
Qed.

Lemma be_bytes_length (n : nat) (x : Z) : length (Sha256.be_bytes n x) = n.
Proof. induction n as [|n IH]; [reflexivity|]. cbn [Sha256.be_bytes length]. by rewrite IH. Qed.

Lemma flat_map_be_bytes_length (h : list Z) :
  length (flat_map (Sha256.be_bytes 4) h) = (4 * length h)%nat.
Proof.
  induction h as [|x h IH]; [reflexivity|].
  cbn [flat_map]. rewrite length_app, be_bytes_length, IH. cbn [length]. lia.
Qed.

Lemma sha256_length (data : list byte) : length (Sha256.sha256 data) = 32%nat.
Proof.
  unfold Sha256.sha256, Sha256.sha256_Z.
  rewrite length_map, flat_map_be_bytes_length, fold_compress_length. reflexivity.
Qed.

(** X1: signing then checking.  On a fragment that has a [url], after
    [add_inline_data] with a body UTF-8 can encode the fragment is still
    EXTERNAL ([url] is not cleared) and [is_external_data_changed] returns
    [False]: the stored signature decodes to the digest of the stored body. *)
Theorem add_inline_data_signature_verifies (σ : state) (body : list N)
    (filename mimetype : value) (raw : list byte) :
  Utf8.encode body = Some raw ->
  EXTERNAL σ ->
  exists σ',
    add_inline_data (VStr body) filename mimetype σ = (Ret tt, σ')
    /\ EXTERNAL σ'
    /\ is_external_data_changed σ' = (Ret false, σ').
Proof.
  intros Henc Hext. rewrite (add_inline_data_run σ body filename mimetype raw Henc).
  eexists. split; [reflexivity|].
  assert (Hext' : EXTERNAL
    (State (<["signature" := VStr (base64url_text (Sha256.sha256 raw))]>
              (<["encoding" := VStr (py "base64url")]>
                 (<["alg" := VStr (py "sha256")]>
                    (<["filename" := filename]>
                       (<["mimetype" := mimetype]>
                          (<["body" := VStr body]> (self_dict σ)))))))
           (store σ) (stdout σ))).
  { unfold EXTERNAL, is_external_data_of in *. cbn [self_dict].
    by rewrite !lookup_insert_ne by done. }
  split; [exact Hext'|].
  rewrite (is_external_data_changed_external _ Hext').
  erewrite body_hash_differs_run.
  - rewrite bytes_differ_same. by destruct σ.
  - cbn [self_dict]. apply lookup_insert_eq.
  - apply encode_base64url_text.
  - apply urlsafe_b64decode_encode.
  - cbn [self_dict]. rewrite !lookup_insert_ne by done. apply lookup_insert_eq.
  - exact Henc.
Qed.

Lemma add_inline_data_signature_verifies_witness :
  exists σ',
    add_inline_data (VStr (py "hello")) (VStr (py "a.txt")) (VStr (py "text/plain"))
      external_state = (Ret tt, σ')
    /\ EXTERNAL σ'
    /\ is_external_data_changed σ' = (Ret false, σ').
Proof.
  apply (add_inline_data_signature_verifies external_state (py "hello")
           (VStr (py "a.txt")) (VStr (py "text/plain")) (map byte_of_N (py "hello")));
    vm_compute; reflexivity.
Defined.

(** What a conversion leaves in [body] and [encoding]. *)
Lemma converted_body (σ : state) (response : Response) :
  converted σ response !! "body"
  = Some (VStr (inline_body (self_dict σ) (content response)).1)
  /\ converted σ response !! "encoding"
     = Some (VStr (inline_body (self_dict σ) (content response)).2)
  /\ converted σ response !! "signature"
     = Some (VStr (base64url_text (Sha256.sha256 (content response)))).
Proof.
  unfold converted.
  destruct (match self_dict σ !! "mimetype" with Some v => _ | None => true end);
    repeat split; by simplify_map_eq.
Qed.

Section Lossless.

Context (env : Env).

(** A conversion that is answered with 200, as [to_inline_data_result] has
    it: the attributes are those of [converted], without [url] and with a
    filename. *)
Lemma to_inline_data_200 (σ : state) (url : value) (response : Response) :
  self_dict σ !! "url" = Some url ->
  requests_get env url = Responded response ->
  status_code response = 200%Z ->
  (is_Some (self_dict σ !! "filename") \/ exists u, url = VStr u) ->
  exists d',
    to_inline_data env σ = (Ret tt, State d' (store σ) (stdout σ))
    /\ d' !! "url" = None
    /\ forall k, k ≠ "url" -> k ≠ "filename" -> d' !! k = converted σ response !! k.
Proof.
  intros Hurl Hget Hst Hname. rewrite (to_inline_data_external env σ url Hurl).
  unfold to_inline_data_result. rewrite Hget, Hst. cbn [Z.eqb Pos.eqb].
  destruct (self_dict σ !! "filename") as [fn|] eqn:Hfn.
  - eexists. split; [reflexivity|]. split; [apply lookup_delete_eq|].
    intros k Hk _. by rewrite lookup_delete_ne.
  - destruct Hname as [[? ?]|[u ->]]; [discriminate|].
    eexists. split; [reflexivity|]. split; [apply lookup_delete_eq|].
    intros k Hk Hk'. by rewrite lookup_delete_ne, lookup_insert_ne.
Qed.

(** X2: the conversion loses nothing.  After a [to_inline_data] answered
    with 200, the fetched bytes can be read back from the fragment: with
    [encoding] "none" they are the UTF-8 encoding of [body]; with
    "base64url" they are what [urlsafe_b64decode] gives for [body]. *)
Theorem to_inline_data_body_recovers_content (σ : state) (url : value)
    (response : Response) :
  self_dict σ !! "url" = Some url ->
  requests_get env url = Responded response ->
  status_code response = 200%Z ->
  (is_Some (self_dict σ !! "filename") \/ exists u, url = VStr u) ->
  exists σ' body,
    to_inline_data env σ = (Ret tt, σ')
    /\ self_dict σ' !! "body" = Some (VStr body)
    /\ ((self_dict σ' !! "encoding" = Some (VStr (py "none"))
         /\ Utf8.encode body = Some (content response))
        \/ (self_dict σ' !! "encoding" = Some (VStr (py "base64url"))
            /\ exists text, Utf8.encode body = Some text
                            /\ Base64.urlsafe_b64decode text = Some (content response))).
Proof.
  intros Hurl Hget Hst Hname.
  destruct (to_inline_data_200 σ url response Hurl Hget Hst Hname) as (d' & Hrun & _ & Hd').
  destruct (converted_body σ response) as (Hbody & Henc & _).
  eexists _, _. split; [exact Hrun|]. cbn [self_dict].
  rewrite !Hd' by done. split; [exact Hbody|]. rewrite Henc.
  assert (Hb64 : exists text,
    Utf8.encode (base64url_text (content response)) = Some text
    /\ Base64.urlsafe_b64decode text = Some (content response)).
  { eexists. split; [apply encode_base64url_text|apply urlsafe_b64decode_encode]. }
  unfold inline_body.
  destruct (is_video_of (self_dict σ) || is_audio_of (self_dict σ)); [by right|].
  destruct (Utf8.decode (content response)) as [text|] eqn:Hdec; [|by right].
  left. split; [reflexivity|]. by apply decode_encode.
Qed.

(** X3: for text the stored signature is the body's own.  When the
    fragment is neither audio nor video and the fetched bytes decode as
    UTF-8, the conversion leaves a body and a signature that pass the check
    of [is_external_data_changed] (its [try] block returns [False]), and
    [add_inline_data] with that body computes the same signature. *)
Theorem to_inline_data_text_signature_verifies (σ : state) (url : value)
    (response : Response) (text : list N) :
  self_dict σ !! "url" = Some url ->
  requests_get env url = Responded response ->
  status_code response = 200%Z ->
  (is_Some (self_dict σ !! "filename") \/ exists u, url = VStr u) ->
  is_video_of (self_dict σ) || is_audio_of (self_dict σ) = false ->
  Utf8.decode (content response) = Some text ->
  exists σ',
    to_inline_data env σ = (Ret tt, σ')
    /\ self_dict σ' !! "body" = Some (VStr text)
    /\ body_hash_differs σ' = (Ret false, σ')
    /\ forall filename mimetype,
         self_dict (add_inline_data (VStr text) filename mimetype σ').2 !! "signature"
         = self_dict σ' !! "signature".
Proof.
  intros Hurl Hget Hst Hname Hmedia Hdec.
  destruct (to_inline_data_200 σ url response Hurl Hget Hst Hname) as (d' & Hrun & _ & Hd').
  destruct (converted_body σ response) as (Hbody & _ & Hsig).
  unfold inline_body in Hbody. rewrite Hmedia, Hdec in Hbody. cbn [fst] in Hbody.
  pose proof (decode_encode _ _ Hdec) as Henc.
  eexists. split; [exact Hrun|]. cbn [self_dict]. rewrite !Hd' by done.
  split; [exact Hbody|]. split.
  - erewrite body_hash_differs_run.
    + by rewrite bytes_differ_same.
    + cbn [self_dict]. rewrite Hd' by done. exact Hsig.
    + apply encode_base64url_text.
    + apply urlsafe_b64decode_encode.
    + cbn [self_dict]. rewrite Hd' by done. exact Hbody.
    + exact Henc.
  - intros filename mimetype.
    rewrite (add_inline_data_run _ text filename mimetype _ Henc).
    cbn [snd self_dict]. by rewrite lookup_insert_eq, Hsig.
Qed.

End Lossless.

Lemma to_inline_data_body_recovers_content_witness :
  exists σ' body,
    to_inline_data (sample_env 200) external_state = (Ret tt, σ')
    /\ self_dict σ' !! "body" = Some (VStr body)
    /\ ((self_dict σ' !! "encoding" = Some (VStr (py "none"))
         /\ Utf8.encode body = Some (content (sample_response 200)))
        \/ (self_dict σ' !! "encoding" = Some (VStr (py "base64url"))
            /\ exists text, Utf8.encode body = Some text
                            /\ Base64.urlsafe_b64decode text
                               = Some (content (sample_response 200)))).
Proof.
  apply (to_inline_data_body_recovers_content (sample_env 200) external_state
           (VStr (py "https://x/a.txt")) (sample_response 200)).
  - vm_compute. reflexivity.
  - reflexivity.
  - reflexivity.
  - right. eauto.
Defined.

Lemma to_inline_data_text_signature_verifies_witness :
  exists σ',
    to_inline_data (sample_env 200) external_state = (Ret tt, σ')
    /\ self_dict σ' !! "body" = Some (VStr (py "hello"))
    /\ body_hash_differs σ' = (Ret false, σ')
    /\ forall filename mimetype,
         self_dict (add_inline_data (VStr (py "hello")) filename mimetype σ').2
           !! "signature"
         = self_dict σ' !! "signature".
Proof.
  apply (to_inline_data_text_signature_verifies (sample_env 200) external_state
           (VStr (py "https://x/a.txt")) (sample_response 200) (py "hello")).
  - vm_compute. reflexivity.
  - reflexivity.
  - reflexivity.
  - right. eauto.
  - vm_compute. reflexivity.
  - vm_compute. reflexivity.
Defined.

Lemma encode_app_None (s1 s2 : list N) :
  Utf8.encode s2 = None -> Utf8.encode (s1 ++ s2) = None.
Proof.
  intros H2. induction s1 as [|c s1 IH]; [exact H2|].
  cbn [Utf8.encode app]. rewrite IH. by destruct (Utf8.encode_cp c).
Qed.

(** X4: what follows the padding of a signature is not decoded.  On an
    EXTERNAL fragment whose signature is the right one followed by any
    further text, [is_external_data_changed] returns [False] when UTF-8
    can encode that text: [urlsafe_b64decode] stops at the [=] that
    completes the last group of the 32-byte digest.  When it cannot (the
    text holds a lone surrogate), [self.signature.encode()] raises, the
    error is printed and the method returns [True]. *)
Theorem signature_suffix_ignored (σ : state) (body suffix : list N) (raw : list byte) :
  EXTERNAL σ ->
  self_dict σ !! "body" = Some (VStr body) ->
  Utf8.encode body = Some raw ->
  self_dict σ !! "signature"
  = Some (VStr (base64url_text (Sha256.sha256 raw) ++ suffix)) ->
  is_external_data_changed σ
  = if bool_decide (is_Some (Utf8.encode suffix))
    then (Ret false, σ)
    else (Ret true, State (self_dict σ) (store σ) (stdout σ ++ [UnicodeEncodeError])).
Proof.
  intros Hext Hbody Hraw Hsig.
  rewrite (is_external_data_changed_external σ Hext).
  destruct (Utf8.encode suffix) as [suffix_bytes|] eqn:Hsuffix.
  - rewrite bool_decide_is_Some_Some. erewrite body_hash_differs_run.
    + rewrite bytes_differ_same. reflexivity.
    + exact Hsig.
    + apply encode_app; [apply encode_base64url_text|exact Hsuffix].
    + unfold Base64.urlsafe_b64decode. rewrite map_app, a2b_base64_loop_encoded.
      rewrite sha256_length. reflexivity.
    + exact Hbody.
    + exact Hraw.
  - rewrite bool_decide_is_Some_None. unfold body_hash_differs. mrun.
    rewrite Hsig. cbn [str_encode]. by rewrite (encode_app_None _ _ Hsuffix).
Qed.

Lemma signature_suffix_ignored_witness :
  is_external_data_changed
    (State (<["signature" := VStr (py "LPJNul-wow4m6DsqxbninhsWHlwfp0JecwQzYpOLmCQ=tail")]>
              (<["body" := VStr (py "hello")]> (self_dict external_state))) ∅ [])
  = (Ret false,
     State (<["signature" := VStr (py "LPJNul-wow4m6DsqxbninhsWHlwfp0JecwQzYpOLmCQ=tail")]>
              (<["body" := VStr (py "hello")]> (self_dict external_state))) ∅ []).
Proof.
  apply (signature_suffix_ignored _ (py "hello") (py "tail") (map byte_of_N (py "hello")));
    vm_compute; reflexivity.
Defined.

(** ** Attaching by reference *)

(** [sep.join(s.split(sep))] is [s], and no piece holds the separator. *)
Lemma str_split_nonempty (sep : N) (s : list N) : str_split sep s ≠ [].
Proof.
  destruct s as [|c s]; cbn [str_split]; [done|].
  destruct (c =? sep); [done|]. by destruct (str_split sep s).
Qed.

Lemma join_str_split (sep : N) (s : list N) : join [sep] (str_split sep s) = s.
Proof.
  induction s as [|c s IH]; [reflexivity|]. cbn [str_split].
  pose proof (str_split_nonempty sep s) as Hne.
  destruct (c =? sep) eqn:Hc.
  - apply N.eqb_eq in Hc as ->.
    destruct (str_split sep s) as [|h t]; [done|].
    change (join [sep] ([] :: h :: t)) with (sep :: join [sep] (h :: t)).
    by rewrite IH.
  - destruct (str_split sep s) as [|h t]; [done|].
    destruct t as [|h' t].
    + cbn [join] in *. by rewrite IH.
    + change (join [sep] ((c :: h) :: h' :: t))
        with (c :: join [sep] (h :: h' :: t)).
      by rewrite IH.
Qed.

Lemma str_split_no_sep (sep : N) (s : list N) :
  Forall (fun piece => sep ∉ piece) (str_split sep s).
Proof.
  induction s as [|c s IH]; cbn [str_split].
  - constructor; [set_solver|constructor].
  - destruct (c =? sep) eqn:Hc.
    + constructor; [set_solver|exact IH].
    + apply N.eqb_neq in Hc.
      destruct (str_split sep s) as [|h t]; [constructor; [set_solver|constructor]|].
      inversion IH; subst. constructor; [|done].
      rewrite elem_of_cons. intros [->|?]; done.
Qed.

Lemma join_last (sep : N) (l : list (list N)) :
  l ≠ [] ->
  (exists before,
     join [sep] l = before ++ List.last l []
     /\ (before = [] \/ last before = Some sep)).
Proof.
  induction l as [|x l IH]; [done|]. intros _.
  destruct l as [|y l].
  - exists []. split; [reflexivity|by left].
  - destruct IH as (before & Hjoin & Hbefore); [done|].
    exists (x ++ sep :: before). split.
    + change (join [sep] (x :: y :: l)) with (x ++ [sep] ++ join [sep] (y :: l)).
      rewrite Hjoin. change (List.last (x :: y :: l) []) with (List.last (y :: l) []).
      by rewrite <- !app_assoc.
    + right. destruct Hbefore as [->|Hlast].
      * change (x ++ [sep]) with (x ++ [sep]). by rewrite last_snoc.
      * rewrite last_app, last_cons, Hlast. reflexivity.
Qed.

Lemma join_first (sep : N) (l : list (list N)) :
  exists after,
    join [sep] l = List.hd [] l ++ after
    /\ (after = [] \/ head after = Some sep).
Proof.
  destruct l as [|x [|y l]].
  - exists []. split; [reflexivity|by left].
  - exists []. cbn [join List.hd]. split; [by rewrite app_nil_r|by left].
  - exists (sep :: join [sep] (y :: l)). split; [reflexivity|by right].
Qed.

(** [s.split(sep)[-1]] is what follows the last separator. *)
Lemma split_last_spec (sep : N) (s : list N) :
  sep ∉ split_last sep s
  /\ exists before,
       s = before ++ split_last sep s
       /\ (before = [] \/ last before = Some sep).
Proof.
  unfold split_last. split.
  - pose proof (str_split_no_sep sep s) as Hall.
    pose proof (str_split_nonempty sep s) as Hne.
    induction Hall as [|x l Hx Hall IH]; [done|].
    destruct l as [|y l]; [exact Hx|]. by apply IH.
  - destruct (join_last sep (str_split sep s) (str_split_nonempty sep s))
      as (before & Hjoin & Hbefore).
    rewrite join_str_split in Hjoin. by exists before.
Qed.

(** [s.split(sep)[0]] is what precedes the first separator. *)
Lemma split_first_spec (sep : N) (s : list N) :
  sep ∉ split_first sep s
  /\ exists after,
       s = split_first sep s ++ after
       /\ (after = [] \/ head after = Some sep).
Proof.
  unfold split_first. split.
  - pose proof (str_split_no_sep sep s) as Hall.
    destruct Hall; [set_solver|done].
  - destruct (join_first sep (str_split sep s)) as (after & Hjoin & Hafter).
    rewrite join_str_split in Hjoin. by exists after.
Qed.

Section Reference.

Context (env : Env).

(** What a HEAD request that answers 200 leaves in the five fields. *)
Lemma add_external_data_fields (σ : state) (url : list N) (filename mimetype : value)
    (response : Response) (k : string) :
  requests_head env url = Responded response ->
  status_code response = 200%Z ->
  k ≠ "metadata" ->
  self_dict (add_external_data env url filename mimetype σ).2 !! k
  = self_dict (described σ url filename mimetype response) !! k.
Proof.
  intros Hhead Hst Hk. rewrite add_external_data_run. unfold add_external_data_result.
  rewrite Hhead, Hst. cbn [Z.eqb Pos.eqb].
  destruct (_ && _); [|reflexivity].
  by rewrite record_content_length_frame.
Qed.

(** Only six attributes are ever written. *)
Lemma add_external_data_frame_attrs (σ : state) (url : list N)
    (filename mimetype : value) (k : string) :
  k ∉ ["url"; "mimetype"; "filename"; "alg"; "encoding"; "metadata"] ->
  self_dict (add_external_data env url filename mimetype σ).2 !! k = self_dict σ !! k.
Proof.
  intros Hk.
  rewrite !not_elem_of_cons in Hk. destruct Hk as (? & ? & ? & ? & ? & ? & _).
  rewrite add_external_data_run. unfold add_external_data_result, referenced.
  destruct (requests_head env url) as [response|name] eqn:Hhead;
    [|cbn [snd self_dict]; by rewrite lookup_insert_ne].
  destruct (status_code response =? 200)%Z;
    [|cbn [snd self_dict]; by rewrite lookup_insert_ne].
  assert (Hdesc : self_dict (described σ url filename mimetype response) !! k
                  = self_dict σ !! k).
  { unfold described. cbn [self_dict]. by rewrite !lookup_insert_ne by done. }
  destruct (_ && _); [|exact Hdesc].
  by rewrite record_content_length_frame.
Qed.

Lemma add_external_data_url (σ : state) (url : list N) (filename mimetype : value) :
  self_dict (add_external_data env url filename mimetype σ).2 !! "url"
  = Some (VStr url).
Proof.
  rewrite add_external_data_run. unfold add_external_data_result, referenced.
  destruct (requests_head env url) as [response|name] eqn:Hhead;
    [|cbn [snd self_dict]; by rewrite lookup_insert_eq].
  destruct (status_code response =? 200)%Z;
    [|cbn [snd self_dict]; by rewrite lookup_insert_eq].
  assert (Hdesc : self_dict (described σ url filename mimetype response) !! "url"
                  = Some (VStr url)).
  { unfold described. cbn [self_dict]. by simplify_map_eq. }
  destruct (_ && _); [|exact Hdesc].
  by rewrite record_content_length_frame.
Qed.

(** X5: a failed HEAD request still moves the fragment to the new URL.
    When [requests.head] raises, or answers with a status other than 200,
    [add_external_data] raises (the library's exception, or [Exception]
    with the status in its message) and the only thing changed is [url],
    which holds the new URL: mimetype, filename, alg and encoding are the
    old ones. *)
Theorem add_external_data_failure_keeps_url (σ : state) (url : list N)
    (filename mimetype : value) :
  (forall response,
      requests_head env url = Responded response -> status_code response ≠ 200%Z) ->
  add_external_data env url filename mimetype σ
  = (Raise match requests_head env url with
           | Responded response =>
               PlainException (head_failed_message (status_code response))
           | Failed name => RequestException name
           end,
     State (<["url" := VStr url]> (self_dict σ)) (store σ) (stdout σ)).
Proof.
  intros Hbad. rewrite add_external_data_run. unfold add_external_data_result, referenced.
  destruct (requests_head env url) as [response|name] eqn:Hhead; [|reflexivity].
  specialize (Hbad response eq_refl). apply Z.eqb_neq in Hbad. by rewrite Hbad.
Qed.

(** X6: attaching a reference does not touch what was attached inline.
    After [add_inline_data] with an encodable body followed by
    [add_external_data], whatever the HEAD request gives, the fragment is
    EXTERNAL, still holds that body, and [is_external_data_changed]
    returns [False]: it compares the body with the signature, both left
    by the inline attachment, and never reads the URL. *)
Theorem inline_then_external_reports_unchanged (σ : state) (body : list N)
    (raw : list byte) (f1 m1 : value) (url : list N) (f2 m2 : value) :
  Utf8.encode body = Some raw ->
  exists σ1 σ2,
    add_inline_data (VStr body) f1 m1 σ = (Ret tt, σ1)
    /\ (add_external_data env url f2 m2 σ1).2 = σ2
    /\ EXTERNAL σ2
    /\ self_dict σ2 !! "body" = Some (VStr body)
    /\ is_external_data_changed σ2 = (Ret false, σ2).
Proof.
  intros Henc. rewrite (add_inline_data_run σ body f1 m1 raw Henc).
  eexists _, _. split; [reflexivity|]. split; [reflexivity|].
  set (σ1 := State _ _ _). set (σ2 := (add_external_data env url f2 m2 σ1).2).
  assert (Hext : EXTERNAL σ2).
  { unfold EXTERNAL, is_external_data_of, σ2. by rewrite add_external_data_url. }
  assert (Hbody : self_dict σ2 !! "body" = Some (VStr body)).
  { unfold σ2. rewrite add_external_data_frame_attrs by set_solver.
    unfold σ1. cbn [self_dict]. by simplify_map_eq. }
  assert (Hsig : self_dict σ2 !! "signature"
                 = Some (VStr (base64url_text (Sha256.sha256 raw)))).
  { unfold σ2. rewrite add_external_data_frame_attrs by set_solver.
    unfold σ1. cbn [self_dict]. by simplify_map_eq. }
  split; [exact Hext|]. split; [exact Hbody|].
  rewrite (is_external_data_changed_external σ2 Hext).
  erewrite body_hash_differs_run.
  - by rewrite bytes_differ_same.
  - exact Hsig.
  - apply encode_base64url_text.
  - apply urlsafe_b64decode_encode.
  - exact Hbody.
  - exact Henc.
Qed.

(** X7: the filename taken from the URL.  When the HEAD request answers
    200 and no filename is given, the stored filename is the stretch of the
    URL between the last [/] before the first [?] and that [?]: it holds
    neither character, is preceded by nothing or by a [/], and is followed
    by nothing or by the [?].  A URL whose path ends in [/] gives the empty
    filename. *)
Theorem add_external_data_derived_filename (σ : state) (url : list N)
    (filename mimetype : value) (response : Response) :
  requests_head env url = Responded response ->
  status_code response = 200%Z ->
  truthy σ filename = false ->
  exists before name after,
    self_dict (add_external_data env url filename mimetype σ).2 !! "filename"
    = Some (VStr name)
    /\ url = before ++ name ++ after
    /\ slash ∉ name /\ question_mark ∉ name
    /\ question_mark ∉ before
    /\ (before = [] \/ last before = Some slash)
    /\ (after = [] \/ head after = Some question_mark).
Proof.
  intros Hhead Hst Hname.
  destruct (split_first_spec question_mark url) as (Hq & after & Hurl & Hafter).
  destruct (split_last_spec slash (split_first question_mark url))
    as (Hs & before & Hpath & Hbefore).
  exists before, (split_last slash (split_first question_mark url)), after.
  split; [|repeat split].
  - rewrite (add_external_data_fields σ url filename mimetype response) by done.
    unfold described. rewrite Hname. cbn [self_dict]. by simplify_map_eq.
  - rewrite app_assoc, <- Hpath. exact Hurl.
  - exact Hs.
  - intros Hin. apply Hq. rewrite Hpath. set_solver.
  - intros Hin. apply Hq. rewrite Hpath. set_solver.
  - exact Hbefore.
  - exact Hafter.
Qed.

(** X8: the Content-Length of a video is recorded as a number.  When the
    HEAD request answers 200 with a Content-Length of decimal digits, the
    fragment's type is "video" and [metadata] is a dict, [add_external_data]
    returns, after which that dict maps [content_length] to the number as
    an int and holds its other entries as before. *)
Theorem add_external_data_records_content_length (σ : state) (url : list N)
    (filename mimetype : value) (response : Response) (digits : list N) (l : N) :
  requests_head env url = Responded response ->
  status_code response = 200%Z ->
  content_length response = Some digits ->
  digits ≠ [] -> forallb is_digit digits = true -> (length digits <= 4300)%nat ->
  self_dict σ !! "type" = Some (VStr (py "video")) ->
  self_dict σ !! "metadata" = Some (VDict l) ->
  exists σ',
    add_external_data env url filename mimetype σ = (Ret tt, σ')
    /\ self_dict σ' !! "metadata" = Some (VDict l)
    /\ deref σ' l = <["content_length" := VInt (decimal_value digits)]> (deref σ l).
Proof.
  intros Hhead Hst Hlen Hne Hdigits _ Htype Hmd.
  rewrite add_external_data_run. unfold add_external_data_result.
  rewrite Hhead, Hst, Hlen. cbn [Z.eqb Pos.eqb from_option default].
  rewrite (truthy_str _ _ Hne), andb_true_r.
  assert (Hvideo : is_video_of (self_dict (described σ url filename mimetype response))
                   = true).
  { unfold is_video_of, described. cbn [self_dict].
    rewrite !lookup_insert_ne by done. rewrite Htype.
    unfold value_is. by rewrite bool_decide_eq_true_2. }
  rewrite Hvideo.
  assert (Hmd' : self_dict (described σ url filename mimetype response) !! "metadata"
                 = Some (VDict l)).
  { unfold described. cbn [self_dict]. by rewrite !lookup_insert_ne by done. }
  unfold record_content_length. mrun. rewrite Hmd', bool_decide_is_Some_Some. mrun.
  unfold py_int, id. rewrite Hdigits, (bool_decide_eq_false_2 _ Hne). mrun.
  rewrite Hmd'. cbn [dict_setitem]. eexists. split; [reflexivity|].
  cbn [self_dict store]. split; [exact Hmd'|].
  unfold deref. cbn [store]. by rewrite lookup_insert_eq.
Qed.

End Reference.

Lemma add_external_data_failure_keeps_url_witness :
  add_external_data (head_env 404) (py "https://x/a.mp4") VNone VNone empty_state
  = (Raise (PlainException (head_failed_message 404)),
     State (<["url" := VStr (py "https://x/a.mp4")]> ∅) ∅ []).
Proof.
  apply (add_external_data_failure_keeps_url (head_env 404) empty_state
           (py "https://x/a.mp4") VNone VNone).
  intros response Hhead. injection Hhead as <-. discriminate.
Defined.

Lemma inline_then_external_reports_unchanged_witness :
  exists σ1 σ2,
    add_inline_data (VStr (py "hello")) VNone VNone empty_state = (Ret tt, σ1)
    /\ (add_external_data (head_env 200) (py "https://x/other.bin") VNone VNone σ1).2 = σ2
    /\ EXTERNAL σ2
    /\ self_dict σ2 !! "body" = Some (VStr (py "hello"))
    /\ is_external_data_changed σ2 = (Ret false, σ2).
Proof.
  apply (inline_then_external_reports_unchanged (head_env 200) empty_state (py "hello")
           (map byte_of_N (py "hello")) VNone VNone (py "https://x/other.bin") VNone VNone).
  vm_compute. reflexivity.
Defined.

Lemma add_external_data_derived_filename_witness :
  exists before name after,
    self_dict (add_external_data (head_env 200) (py "https://x/a/b.mp4?t=1/2")
                 VNone VNone empty_state).2 !! "filename"
    = Some (VStr name)
    /\ py "https://x/a/b.mp4?t=1/2" = before ++ name ++ after
    /\ slash ∉ name /\ question_mark ∉ name
    /\ question_mark ∉ before
    /\ (before = [] \/ last before = Some slash)
    /\ (after = [] \/ head after = Some question_mark).
Proof.
  apply (add_external_data_derived_filename (head_env 200) empty_state
           (py "https://x/a/b.mp4?t=1/2") VNone VNone (sample_response 200));
    reflexivity.
Defined.

Lemma add_external_data_records_content_length_witness :
  exists σ',
    add_external_data (head_env 200) (py "https://x/a.mp4") VNone VNone video_state
    = (Ret tt, σ')
    /\ self_dict σ' !! "metadata" = Some (VDict 0)
    /\ deref σ' 0 = <["content_length" := VInt (decimal_value (py "5"))]> (deref video_state 0).
Proof.
  apply (add_external_data_records_content_length (head_env 200) video_state
           (py "https://x/a.mp4") VNone VNone (sample_response 200) (py "5") 0).
  - reflexivity.
  - reflexivity.
  - reflexivity.
  - discriminate.
  - reflexivity.
  - vm_compute. lia.
  - vm_compute. reflexivity.
  - vm_compute. reflexivity.
Defined.

(** ** The video metadata *)

(** Of assignments to different names, each one that assigns stands. *)
Lemma assign_all_lookup_in (l : list (string * option value)) (d : gmap string value)
    (k : string) (v : value) :
  NoDup l.*1 -> (k, Some v) ∈ l -> assign_all l d !! k = Some v.
Proof.
  revert d. induction l as [|[k' o] l IH]; intros d Hnd Hin; [by apply elem_of_nil in Hin|].
  cbn [fmap list_fmap fst] in Hnd. apply NoDup_cons in Hnd as [Hk' Hnd].
  cbn [assign_all fold_left fst snd]. apply elem_of_cons in Hin as [Heq|Hin].
  - injection Heq as <- <-.
    change (assign_all l (assign k (Some v) d) !! k = Some v).
    rewrite assign_all_lookup_other.
    + by rewrite lookup_assign_eq.
    + apply Forall_forall. intros [k2 o2] Hin2. left. cbn [fst]. intros ->.
      apply Hk'. apply list_elem_of_fmap. by exists (k, o2).
  - by apply IH.
Qed.

(** The loop that promotes the key fields to attributes. *)
Lemma promoted_keys_run (m : gmap string value) (σ : state) :
  exists d',
    for_each (map_to_list m)
      (fun kv => when (bool_decide (kv.1 ∈ PROMOTED_KEYS)) (setattr kv.1 kv.2)) σ
    = (Ret tt, State d' (store σ) (stdout σ))
    /\ forall k,
         d' !! k = match m !! k with
                   | Some v => if bool_decide (k ∈ PROMOTED_KEYS) then Some v
                               else self_dict σ !! k
                   | None => self_dict σ !! k
                   end.
Proof.
  set (f := fun kv : string * value =>
              (kv.1, if bool_decide (kv.1 ∈ PROMOTED_KEYS) then Some kv.2 else None)).
  exists (assign_all (map f (map_to_list m)) (self_dict σ)). split.
  - apply (for_each_assigns (map_to_list m) _ f).
    intros [k v] [d s o]. unfold when, f. cbn [fst snd].
    destruct (bool_decide (k ∈ PROMOTED_KEYS)); reflexivity.
  - intros k.
    assert (Hother : (forall v, m !! k = Some v -> bool_decide (k ∈ PROMOTED_KEYS) = false) ->
                     assign_all (map f (map_to_list m)) (self_dict σ) !! k
                     = self_dict σ !! k).
    { intros Hnot. apply assign_all_lookup_other, Forall_map, Forall_forall.
      intros [k' v'] Hin. apply elem_of_map_to_list in Hin. unfold f. cbn [fst snd].
      destruct (decide (k' = k)) as [->|Hne]; [|by left].
      right. by rewrite (Hnot v' Hin). }
    destruct (m !! k) as [v|] eqn:Hk; [|apply Hother; discriminate].
    destruct (bool_decide (k ∈ PROMOTED_KEYS)) eqn:Hp;
      [|apply Hother; by intros].
    apply assign_all_lookup_in.
    + replace ((map f (map_to_list m)).*1) with ((map_to_list m).*1).
      * apply NoDup_fst_map_to_list.
      * rewrite <- list_fmap_compose. apply list_fmap_ext. by intros ? [? ?].
    + apply list_elem_of_fmap. exists (k, v). unfold f. cbn [fst snd]. rewrite Hp.
      split; [reflexivity|]. by apply elem_of_map_to_list.
Qed.

(** The store after the two updates, dict by dict, whatever addresses
    coincide. *)
Lemma both_updated_store (σ : state) (other l1 l2 : N) :
  store (both_updated σ other l1 l2) !! l1 = Some (deref σ other ∪ deref σ l1)
  /\ store (both_updated σ other l1 l2) !! l2 = Some (deref σ other ∪ deref σ l2)
  /\ deref (both_updated σ other l1 l2) other = deref σ other
  /\ forall l, l ≠ l1 -> l ≠ l2 ->
               store (both_updated σ other l1 l2) !! l = store σ !! l.
Proof.
  unfold both_updated, deref. cbn [store].
  assert (Hidem : forall m : gmap string value, m ∪ m = m) by (intros; apply map_union_idemp).
  assert (Hidem2 : forall m m' : gmap string value, m ∪ (m ∪ m') = m ∪ m').
  { intros. by rewrite (assoc_L (∪)), Hidem. }
  destruct (decide (l1 = l2)) as [->|H12];
    destruct (decide (other = l2)) as [->|Ho2];
    try (destruct (decide (other = l1)) as [->|Ho1]);
    repeat split; intros;
    repeat first [rewrite lookup_insert_eq | rewrite lookup_insert_ne by done];
    cbn [default from_option]; unfold id; rewrite ?Hidem2, ?Hidem; done.
Qed.

(** [update_video_metadata] on a fragment whose two maps are dicts. *)
Lemma update_video_metadata_run (σ : state) (metadata l1 l2 : N) :
  self_dict σ !! "meta" = Some (VDict l1) ->
  self_dict σ !! "metadata" = Some (VDict l2) ->
  exists d' s',
    update_video_metadata metadata σ = (Ret tt, State d' s' (stdout σ))
    /\ s' !! l1 = Some (deref σ metadata ∪ deref σ l1)
    /\ s' !! l2 = Some (deref σ metadata ∪ deref σ l2)
    /\ default ∅ (s' !! metadata) = deref σ metadata
    /\ (forall l, l ≠ l1 -> l ≠ l2 -> s' !! l = store σ !! l)
    /\ forall k,
         d' !! k
         = match deref σ metadata !! k with
           | Some v => if bool_decide (k ∈ PROMOTED_KEYS) then Some v
                       else self_dict σ !! k
           | None => self_dict σ !! k
           end.
Proof.
  intros Hm Hmd. unfold update_video_metadata.
  unfold bind at 1, hasattr at 1. rewrite Hmd, bool_decide_is_Some_Some.
  unfold bind at 1, when at 1, ret at 1. cbn [negb].
  unfold bind at 1, hasattr at 1. rewrite Hm, bool_decide_is_Some_Some.
  unfold bind at 1, when at 1, ret at 1. cbn [negb].
  rewrite (update_both_run metadata l1 l2 _ σ Hm Hmd).
  destruct (both_updated_store σ metadata l1 l2) as (H1 & H2 & Ho & Hrest).
  destruct (promoted_keys_run (deref (both_updated σ metadata l1 l2) metadata)
              (both_updated σ metadata l1 l2)) as (d' & Hrun & Hd').
  eexists _, _. split; [exact Hrun|].
  repeat split; try assumption.
  intros k. rewrite Hd'. by rewrite Ho.
Qed.

(** X9: what [update_video_metadata] writes.  On a fragment whose [meta]
    and [metadata] are dicts it returns; each of the two dicts then holds
    the entries of the argument over its own former ones, the argument is
    as it was (also when it is one of the two), no other dict is touched,
    and exactly the attributes named resolution, frame_rate, codec,
    bitrate, duration and thumbnail that the argument has are set from
    it. *)
Theorem update_video_metadata_writes (σ : state) (metadata l1 l2 : N) :
  self_dict σ !! "meta" = Some (VDict l1) ->
  self_dict σ !! "metadata" = Some (VDict l2) ->
  exists σ',
    update_video_metadata metadata σ = (Ret tt, σ')
    /\ deref σ' l1 = deref σ metadata ∪ deref σ l1
    /\ deref σ' l2 = deref σ metadata ∪ deref σ l2
    /\ deref σ' metadata = deref σ metadata
    /\ (forall l, l ≠ l1 -> l ≠ l2 -> store σ' !! l = store σ !! l)
    /\ forall k,
         self_dict σ' !! k
         = match deref σ metadata !! k with
           | Some v => if bool_decide (k ∈ PROMOTED_KEYS) then Some v
                       else self_dict σ !! k
           | None => self_dict σ !! k
           end.
Proof.
  intros Hm Hmd.
  destruct (update_video_metadata_run σ metadata l1 l2 Hm Hmd)
    as (d' & s' & Hrun & H1 & H2 & Ho & Hrest & Hd').
  eexists. split; [exact Hrun|].
  split; [unfold deref at 1; cbn [store]; by rewrite H1|].
  split; [unfold deref at 1; cbn [store]; by rewrite H2|].
  split; [exact Ho|]. split; assumption.
Qed.

Lemma update_video_metadata_writes_witness :
  exists σ',
    update_video_metadata 2 video_state = (Ret tt, σ')
    /\ deref σ' 1 = deref video_state 2 ∪ deref video_state 1
    /\ deref σ' 0 = deref video_state 2 ∪ deref video_state 0
    /\ deref σ' 2 = deref video_state 2
    /\ (forall l, l ≠ 1 -> l ≠ 0 -> store σ' !! l = store video_state !! l)
    /\ forall k,
         self_dict σ' !! k
         = match deref video_state 2 !! k with
           | Some v => if bool_decide (k ∈ PROMOTED_KEYS) then Some v
                       else self_dict video_state !! k
           | None => self_dict video_state !! k
           end.
Proof.
  apply (update_video_metadata_writes video_state 2 1 0); reflexivity.
Defined.

(** The loop of [extract_video_metadata] over the five field names: it
    copies into the dict at [r] the attributes that exist. *)
Lemma video_fields_run (fields : list string) (r : N) (d : gmap string value)
    (s : gmap N (gmap string value)) (o : list exn) (c : gmap string value) :
  exists c',
    for_each fields
      (fun field => present <- hasattr field ;;
                    when present (v <- getattr field ;;
                                  dict_setitem (VDict r) field v))
      (State d (<[r := c]> s) o)
    = (Ret tt, State d (<[r := c']> s) o)
    /\ forall k, c' !! k = if bool_decide (k ∈ fields)
                           then match d !! k with Some v => Some v | None => c !! k end
                           else c !! k.
Proof.
  revert c. induction fields as [|f fields IH]; intros c.
  - exists c. split; [reflexivity|]. intros k.
    rewrite bool_decide_eq_false_2; [done|apply not_elem_of_nil].
  - cbn [for_each]. set (rest := for_each fields _).
    unfold bind at 1. unfold bind at 1, hasattr at 1.
    cbn [self_dict]. destruct (d !! f) as [v|] eqn:Hf.
    + rewrite bool_decide_is_Some_Some. unfold when at 1, bind at 1, getattr at 1.
      cbn [self_dict]. rewrite Hf. cbn [dict_setitem self_dict store stdout].
      unfold deref. cbn [store]. rewrite lookup_insert_eq, insert_insert_eq.
      cbn [default from_option]. unfold id, rest.
      destruct (IH (<[f := v]> c)) as (c' & -> & Hc'). exists c'.
      split; [reflexivity|]. intros k. rewrite Hc'.
      destruct (decide (k = f)) as [->|Hne].
      * rewrite (bool_decide_eq_true_2 (f ∈ f :: fields)) by set_solver.
        rewrite Hf, lookup_insert_eq. by destruct (bool_decide (f ∈ fields)).
      * rewrite lookup_insert_ne by done.
        destruct (bool_decide (k ∈ fields)) eqn:Hin.
        -- apply bool_decide_eq_true in Hin.
           by rewrite (bool_decide_eq_true_2 (k ∈ f :: fields)) by set_solver.
        -- apply bool_decide_eq_false in Hin.
           by rewrite (bool_decide_eq_false_2 (k ∈ f :: fields)) by set_solver.
    + rewrite bool_decide_is_Some_None. unfold when at 1, ret at 1, rest.
      destruct (IH c) as (c' & -> & Hc'). exists c'.
      split; [reflexivity|]. intros k. rewrite Hc'.
      destruct (decide (k = f)) as [->|Hne].
      * rewrite (bool_decide_eq_true_2 (f ∈ f :: fields)) by set_solver.
        rewrite Hf. by destruct (bool_decide (f ∈ fields)).
      * destruct (bool_decide (k ∈ fields)) eqn:Hin.
        -- apply bool_decide_eq_true in Hin.
           by rewrite (bool_decide_eq_true_2 (k ∈ f :: fields)) by set_solver.
        -- apply bool_decide_eq_false in Hin.
           by rewrite (bool_decide_eq_false_2 (k ∈ f :: fields)) by set_solver.
Qed.

Lemma fresh_store_None (s : gmap N (gmap string value)) : s !! fresh (dom s) = None.
Proof. apply not_elem_of_dom, is_fresh. Qed.

(** [extract_video_metadata] on a fragment whose [metadata] is a dict. *)
Lemma extract_video_metadata_run (σ : state) (l : N) :
  self_dict σ !! "metadata" = Some (VDict l) ->
  exists r result,
    extract_video_metadata σ
    = (Ret (VDict r), State (self_dict σ) (<[r := result]> (store σ)) (stdout σ))
    /\ store σ !! r = None
    /\ forall k,
         result !! k
         = match deref σ l !! k with
           | Some v => Some v
           | None => if bool_decide (k ∈ VIDEO_FIELDS) then self_dict σ !! k else None
           end.
Proof.
  intros Hmd. destruct σ as [d s o]. cbn [self_dict store stdout] in *.
  unfold extract_video_metadata. unfold bind at 1, dict_new at 1.
  cbn [self_dict store stdout]. set (r := fresh (dom s)).
  pose proof (fresh_store_None s) as Hr. fold r in Hr.
  unfold bind at 1.
  destruct (video_fields_run VIDEO_FIELDS r d s o ∅) as (c' & -> & Hc').
  unfold bind at 1, hasattr at 1. cbn [self_dict]. rewrite Hmd, bool_decide_is_Some_Some.
  unfold bind at 1, when at 1, bind at 1, getattr at 1. cbn [self_dict]. rewrite Hmd.
  cbn [dict_update_from dict_update self_dict store stdout]. unfold ret.
  rewrite insert_insert_eq. eexists _, _. split; [reflexivity|]. split; [exact Hr|].
  intros k. unfold deref. cbn [store]. rewrite lookup_insert_eq.
  change (default ∅ (Some c')) with c'.
  assert (Hl : default ∅ (<[r := c']> s !! l) ∪ c' = default ∅ (s !! l) ∪ c').
  { destruct (decide (l = r)) as [->|Hne].
    - rewrite lookup_insert_eq, Hr. change (default ∅ (Some c')) with c'.
      change (default ∅ None) with (∅ : gmap string value).
      by rewrite map_union_idemp, (left_id_L ∅ (∪)).
    - by rewrite lookup_insert_ne. }
  rewrite Hl. rewrite lookup_union. rewrite Hc', lookup_empty.
  destruct (default ∅ (s !! l) !! k) as [v|]; cbn.
  - by destruct (if bool_decide (k ∈ VIDEO_FIELDS) then _ else _).
  - destruct (bool_decide (k ∈ VIDEO_FIELDS)); [|reflexivity]. by destruct (d !! k).
Qed.



Lemma promoted_not_maps :
  bool_decide ("meta" ∈ PROMOTED_KEYS) = false
  /\ bool_decide ("metadata" ∈ PROMOTED_KEYS) = false
  /\ bool_decide ("thumbnail" ∈ PROMOTED_KEYS) = true.
Proof. repeat split; vm_compute; reflexivity. Qed.

(** The promotion leaves the two map attributes where they are. *)
Lemma promoted_maps_kept (m d d' : gmap string value) :
  (forall k, d' !! k = match m !! k with
                       | Some v => if bool_decide (k ∈ PROMOTED_KEYS) then Some v
                                   else d !! k
                       | None => d !! k
                       end) ->
  d' !! "meta" = d !! "meta" /\ d' !! "metadata" = d !! "metadata".
Proof.
  intros Hd'. destruct promoted_not_maps as (Hm & Hmd & _).
  rewrite !Hd', Hm, Hmd. by destruct (m !! "meta"), (m !! "metadata").
Qed.

(** X11: what was given to [update_video_metadata] comes back from
    [extract_video_metadata].  On a fragment whose [meta] and [metadata]
    are dicts, the update followed by the extraction returns a new dict
    in which every key of the update's argument has the value given, and
    the extraction leaves the fragment as the update left it. *)
Theorem update_then_extract_video_metadata (σ : state) (metadata l1 l2 : N) :
  self_dict σ !! "meta" = Some (VDict l1) ->
  self_dict σ !! "metadata" = Some (VDict l2) ->
  exists σ1 r result,
    update_video_metadata metadata σ = (Ret tt, σ1)
    /\ extract_video_metadata σ1
       = (Ret (VDict r), State (self_dict σ1) (<[r := result]> (store σ1)) (stdout σ1))
    /\ store σ1 !! r = None
    /\ forall k v, deref σ metadata !! k = Some v -> result !! k = Some v.
Proof.
  intros Hm Hmd.
  destruct (update_video_metadata_run σ metadata l1 l2 Hm Hmd)
    as (d' & s' & Hrun & _ & H2 & _ & _ & Hd').
  destruct (promoted_maps_kept _ _ _ Hd') as (_ & Hmd').
  destruct (extract_video_metadata_run (State d' s' (stdout σ)) l2)
    as (r & result & Hextract & Hr & Hresult).
  { cbn [self_dict]. by rewrite Hmd'. }
  exists (State d' s' (stdout σ)), r, result.
  split; [exact Hrun|]. split; [exact Hextract|]. split; [exact Hr|].
  intros k v Hk. rewrite Hresult. unfold deref at 1. cbn [store]. rewrite H2.
  cbn [default from_option]. unfold id.
  by rewrite (lookup_union_Some_l _ _ _ _ Hk).
Qed.

Lemma update_then_extract_video_metadata_witness :
  exists σ1 r result,
    update_video_metadata 2 video_state = (Ret tt, σ1)
    /\ extract_video_metadata σ1
       = (Ret (VDict r), State (self_dict σ1) (<[r := result]> (store σ1)) (stdout σ1))
    /\ store σ1 !! r = None
    /\ forall k v, deref video_state 2 !! k = Some v -> result !! k = Some v.
Proof.
  apply (update_then_extract_video_metadata video_state 2 1 0); reflexivity.
Defined.



(** X13: [update_video_metadata] is idempotent.  On a fragment whose
    [meta] and [metadata] are dicts, a second call with the same argument
    returns and changes nothing. *)
Theorem update_video_metadata_idempotent (σ : state) (metadata l1 l2 : N) :
  self_dict σ !! "meta" = Some (VDict l1) ->
  self_dict σ !! "metadata" = Some (VDict l2) ->
  exists σ1,
    update_video_metadata metadata σ = (Ret tt, σ1)
    /\ update_video_metadata metadata σ1 = (Ret tt, σ1).
Proof.
  intros Hm Hmd.
  destruct (update_video_metadata_run σ metadata l1 l2 Hm Hmd)
    as (d1 & s1 & Hrun & H1 & H2 & Ho & Hrest & Hd1).
  destruct (promoted_maps_kept _ _ _ Hd1) as (Hm1 & Hmd1).
  rewrite Hm in Hm1. rewrite Hmd in Hmd1.
  destruct (update_video_metadata_run (State d1 s1 (stdout σ)) metadata l1 l2 Hm1 Hmd1)
    as (d2 & s2 & Hrun2 & H1' & H2' & _ & Hrest' & Hd2).
  unfold deref in H1', H2', Hd2. cbn [self_dict store stdout] in *.
  rewrite Ho in H1', H2', Hd2. rewrite H1 in H1'. rewrite H2 in H2'.
  cbn [default from_option] in H1', H2'. unfold id in H1', H2'.
  assert (Hidem : forall m m' : gmap string value, m ∪ (m ∪ m') = m ∪ m').
  { intros. by rewrite (assoc_L (∪)), map_union_idemp. }
  rewrite Hidem in H1', H2'.
  eexists. split; [exact Hrun|]. rewrite Hrun2. f_equal. f_equal.
  - apply map_eq. intros k. rewrite Hd2.
    destruct (deref σ metadata !! k) as [v|] eqn:Hk; [|reflexivity].
    destruct (bool_decide (k ∈ PROMOTED_KEYS)) eqn:Hp; [|reflexivity].
    by rewrite Hd1, Hk, Hp.
  - apply map_eq. intros l.
    destruct (decide (l = l1)) as [->|Hl1]; [by rewrite H1', H1|].
    destruct (decide (l = l2)) as [->|Hl2]; [by rewrite H2', H2|].
    by apply Hrest'.
Qed.

Lemma update_video_metadata_idempotent_witness :
  exists σ1,
    update_video_metadata 2 video_state = (Ret tt, σ1)
    /\ update_video_metadata 2 σ1 = (Ret tt, σ1).
Proof.
  apply (update_video_metadata_idempotent video_state 2 1 0); reflexivity.
Defined.

(** ** The dictionary form *)

Section Dictionary.

Context (now : list N) (history_dicts : N -> exn + N * bool).

(** [to_dict] on a fragment without a party history: two dicts are made,
    the copy of [__dict__] and the one returned. *)
Lemma to_dict_run (σ : state) :
  self_dict σ !! "party_history" = None ->
  let d := if bool_decide (is_Some (self_dict σ !! "start")) then self_dict σ
           else <["start" := VStr now]> (self_dict σ) in
  let copy := fresh (dom (store σ)) in
  let r := fresh (dom (<[copy := d]> (store σ))) in
  to_dict now history_dicts σ
  = (Ret (VDict r),
     State d (<[r := filter (fun kv => is_None kv.2 = false) d]>
                (<[copy := d]> (store σ))) (stdout σ)).
Proof.
  intros Hhist d copy r. destruct σ as [d0 s o]. cbn [self_dict store stdout] in *.
  unfold to_dict. unfold bind at 1, hasattr at 1. cbn [self_dict].
  assert (Hstep : (when (negb (bool_decide (is_Some (d0 !! "start"))))
                     (setattr "start" (VStr now))) (State d0 s o)
                  = (Ret tt, State d s o)).
  { unfold d. destruct (bool_decide (is_Some (d0 !! "start"))); reflexivity. }
  unfold bind at 1. rewrite Hstep.
  assert (Hhist' : d !! "party_history" = None).
  { unfold d. destruct (bool_decide (is_Some (d0 !! "start"))); [done|].
    by rewrite lookup_insert_ne. }
  unfold bind at 1, dict_new at 1. cbn [self_dict store stdout]. fold copy.
  unfold bind at 1, hasattr at 1. cbn [self_dict]. rewrite Hhist', bool_decide_is_Some_None.
  unfold bind at 1, ret at 1. unfold bind at 1, when at 1, ret at 1.
  unfold bind at 1. cbn [dict_items]. unfold deref. cbn [store].
  rewrite lookup_insert_eq. cbn [default from_option]. unfold id.
  unfold dict_new. cbn [self_dict store stdout]. reflexivity.
Qed.

(** X14: what [to_dict] returns.  On a fragment without a party history
    the method returns a new dict, at an address no dict had, that maps
    each attribute whose value is not [None] to that value (a dict it
    holds, such as [metadata], is the same object, not a copy) and has no
    other key.  It leaves every attribute alone but [start], which it sets
    to the current time when the fragment has none; it changes no dict
    that existed. *)
Theorem to_dict_reads (σ : state) :
  self_dict σ !! "party_history" = None ->
  exists r σ',
    to_dict now history_dicts σ = (Ret (VDict r), σ')
    /\ store σ !! r = None
    /\ self_dict σ' = (if bool_decide (is_Some (self_dict σ !! "start"))
                       then self_dict σ
                       else <["start" := VStr now]> (self_dict σ))
    /\ (forall l, is_Some (store σ !! l) -> store σ' !! l = store σ !! l)
    /\ forall k, deref σ' r !! k
                 = match self_dict σ' !! k with
                   | Some v => if is_None v then None else Some v
                   | None => None
                   end.
Proof.
  intros Hhist. rewrite (to_dict_run σ Hhist).
  set (d := if bool_decide _ then _ else _).
  set (copy := fresh (dom (store σ))).
  set (r := fresh (dom (<[copy := d]> (store σ)))).
  assert (Hcopy : store σ !! copy = None) by apply fresh_store_None.
  assert (Hr : <[copy := d]> (store σ) !! r = None) by apply fresh_store_None.
  assert (Hne : r ≠ copy) by (intros Heq; rewrite Heq, lookup_insert_eq in Hr; done).
  rewrite lookup_insert_ne in Hr by done.
  eexists _, _. split; [reflexivity|]. cbn [self_dict store].
  split; [exact Hr|]. split; [reflexivity|]. split.
  - intros l [c Hl]. rewrite !lookup_insert_ne; [done|congruence..].
  - intros k. unfold deref. cbn [store]. rewrite lookup_insert_eq.
    cbn [default from_option]. unfold id.
    destruct (d !! k) as [v|] eqn:Hk.
    + destruct (is_None v) eqn:Hv.
      * apply map_lookup_filter_None. right. intros v' Hk'. cbn [snd].
        rewrite Hk in Hk'. injection Hk' as <-. by rewrite Hv.
      * apply map_lookup_filter_Some. by split.
    + apply map_lookup_filter_None. by left.
Qed.


(** The names construction assigns are the named parameters, once each. *)
Lemma init_locals_names (a : InitArgs) (start : list N) :
  (init_locals a start).*1 = tail init_params.
Proof. reflexivity. Qed.

Lemma init_locals_NoDup (a : InitArgs) (start : list N) : NoDup (init_locals a start).*1.
Proof.
  rewrite init_locals_names.
  refine (bool_decide_unpack (NoDup (tail init_params)) _). vm_compute. exact I.
Qed.

Lemma init_locals_param (a : InitArgs) (start : list N) (k : string) (o : option value) :
  (k, o) ∈ init_locals a start -> k ∈ init_params.
Proof.
  intros Hin. apply (list_elem_of_fmap_2 fst) in Hin. rewrite init_locals_names in Hin.
  cbn [fst] in Hin. unfold init_params. cbn [tail] in Hin.
  by apply list_elem_of_further.
Qed.

Lemma NoDup_fst_functional {A B} (l : list (A * B)) (k : A) (o o' : B) :
  NoDup l.*1 -> (k, o) ∈ l -> (k, o') ∈ l -> o = o'.
Proof.
  induction l as [|[k0 o0] l IH]; intros Hnd H1 H2; [by apply elem_of_nil in H1|].
  cbn [fmap list_fmap fst] in Hnd. apply NoDup_cons in Hnd as [Hk0 Hnd].
  assert (Hin : forall x, (k0, x) ∈ l -> False).
  { intros x Hx. apply Hk0. apply list_elem_of_fmap. by exists (k0, x). }
  apply elem_of_cons in H1 as [Heq1|H1]; apply elem_of_cons in H2 as [Heq2|H2].
  - congruence.
  - injection Heq1 as -> ->. by destruct (Hin o').
  - injection Heq2 as -> ->. by destruct (Hin o).
  - by apply IH.
Qed.

(** A name is assigned one value. *)
Lemma init_locals_functional (a : InitArgs) (start : list N) (k : string)
    (o o' : option value) :
  (k, o) ∈ init_locals a start -> (k, o') ∈ init_locals a start -> o = o'.
Proof.
  apply NoDup_fst_functional, init_locals_NoDup.
Qed.

(** What a named parameter that is not [None] leaves in the new object:
    nothing later in construction assigns it again. *)
Lemma init_result_keeps (env : Env) (a : InitArgs) (kwargs : list (string * value))
    (s : gmap N (gmap string value)) (o : list exn) (start : list N) (σ' : state)
    (k : string) (v : value) :
  kwargs_ok init_params kwargs ->
  normalised_start env a = inl start ->
  init_result env a kwargs s o = (Ret tt, σ') ->
  (k, Some v) ∈ init_locals a start ->
  self_dict σ' !! k = Some v.
Proof.
  intros Hkw Hstart Hrun Hin.
  assert (Hattr : init_attrs a start !! k = Some v)
    by (apply assign_all_lookup_in; [apply init_locals_NoDup|exact Hin]).
  assert (Hrec : (init_reconciled a start s).1 !! k = Some v).
  { unfold init_reconciled.
    assert (Hmeta : arg_meta a = None -> "meta" ≠ k).
    { intros Hnone <-.
      assert (Hin' : ("meta", VDict <$> arg_meta a) ∈ init_locals a start)
        by (unfold init_locals;
          repeat first [apply list_elem_of_here | apply list_elem_of_further]).
      pose proof (init_locals_functional _ _ _ _ _ Hin Hin') as Heq.
      rewrite Hnone in Heq. discriminate. }
    assert (Hmetadata : arg_metadata a = None -> "metadata" ≠ k).
    { intros Hnone <-.
      assert (Hin' : ("metadata", VDict <$> arg_metadata a) ∈ init_locals a start)
        by (unfold init_locals;
          repeat first [apply list_elem_of_here | apply list_elem_of_further]).
      pose proof (init_locals_functional _ _ _ _ _ Hin Hin') as Heq.
      rewrite Hnone in Heq. discriminate. }
    destruct (arg_meta a), (arg_metadata a); cbn [fst];
      rewrite ?lookup_insert_ne by auto; exact Hattr. }
  assert (Hkwargs : assign_all (init_kwargs kwargs) (init_reconciled a start s).1 !! k
                    = Some v).
  { rewrite init_kwargs_lookup; [exact Hrec|exact Hkw|].
    by apply (init_locals_param a start k (Some v)). }
  assert (Hmime : arg_mimetype a = None -> "mimetype" ≠ k).
  { intros Hnone <-.
    assert (Hin' : ("mimetype", VStr <$> arg_mimetype a) ∈ init_locals a start)
      by (unfold init_locals;
          repeat first [apply list_elem_of_here | apply list_elem_of_further]).
    pose proof (init_locals_functional _ _ _ _ _ Hin Hin') as Heq.
    rewrite Hnone in Heq. discriminate. }
  unfold init_result in Hrun. rewrite Hstart in Hrun.
  destruct (bool_decide (arg_type a ∈ VALID_TYPES)); [|discriminate].
  destruct (bool_decide (arg_type a = py "incomplete")
            && negb (bool_decide (is_Some (arg_disposition a)))); [discriminate|].
  destruct (bool_decide (arg_type a = py "video")) eqn:Hvideo; cbn [andb] in Hrun.
  - destruct (arg_mimetype a) as [m|] eqn:Hm.
    + rewrite bool_decide_is_Some_Some in Hrun. cbn [negb] in Hrun.
      injection Hrun as <-. exact Hkwargs.
    + rewrite bool_decide_is_Some_None in Hrun. cbn [negb] in Hrun.
      injection Hrun as <-. cbn [self_dict]. rewrite lookup_insert_ne by auto.
      exact Hkwargs.
  - injection Hrun as <-. exact Hkwargs.
Qed.

(** X15: the arguments of construction come back from [to_dict].  When
    [Dialog(...)] returns for arguments without a party history, [to_dict]
    on the new object returns a dict that maps every named parameter that
    was not [None] to the value given (for [start], its ISO form), and
    leaves the object as construction made it. *)
Theorem init_then_to_dict (env : Env) (a : InitArgs) (kwargs : list (string * value))
    (s : gmap N (gmap string value)) (o : list exn) (start : list N) (σ1 : state) :
  kwargs_ok init_params kwargs ->
  normalised_start env a = inl start ->
  arg_party_history a = None ->
  __init__ env a kwargs (State ∅ s o) = (Ret tt, σ1) ->
  exists r σ2,
    to_dict now history_dicts σ1 = (Ret (VDict r), σ2)
    /\ self_dict σ2 = self_dict σ1
    /\ forall k v, (k, Some v) ∈ init_locals a start -> deref σ2 r !! k = Some v.
Proof.
  intros Hkw Hstart Hhist Hrun. rewrite (init_run env a kwargs s o Hkw) in Hrun.
  assert (Hkeep : forall k v, (k, Some v) ∈ init_locals a start ->
                              self_dict σ1 !! k = Some v)
    by (intros k v; by apply (init_result_keeps env a kwargs s o start σ1)).
  assert (Hnohist : self_dict σ1 !! "party_history" = None).
  { unfold init_result in Hrun. rewrite Hstart in Hrun.
    assert (Hrec : assign_all (init_kwargs kwargs) (init_reconciled a start s).1
                     !! "party_history" = None).
    { rewrite init_kwargs_lookup by (done || compute_done).
      unfold init_reconciled.
      destruct (arg_meta a), (arg_metadata a); cbn [fst];
        rewrite ?lookup_insert_ne by done; init_attr; by rewrite Hhist. }
    destruct (bool_decide (arg_type a ∈ VALID_TYPES)); [|discriminate].
    destruct (_ && _); [discriminate|].
    destruct (_ && _); injection Hrun as <-; cbn [self_dict];
      rewrite ?lookup_insert_ne by done; exact Hrec. }
  rewrite (to_dict_run σ1 Hnohist).
  assert (Hhas : bool_decide (is_Some (self_dict σ1 !! "start")) = true).
  { rewrite (Hkeep "start" (VStr start)); [apply bool_decide_is_Some_Some|].
    unfold init_locals.
    repeat first [apply list_elem_of_here | apply list_elem_of_further]. }
  rewrite Hhas. eexists _, _. split; [reflexivity|]. split; [reflexivity|].
  intros k v Hin. unfold deref. cbn [store]. rewrite lookup_insert_eq.
  cbn [default from_option]. unfold id.
  apply map_lookup_filter_Some. split; [by apply Hkeep|]. cbn [snd].
  assert (Hval : forall k' o', (k', o') ∈ init_locals a start ->
                               o' = Some v -> is_None v = false).
  { intros k' o' Hin' ->. unfold init_locals in Hin'.
    repeat (apply elem_of_cons in Hin' as [Heq|Hin'];
            [injection Heq as _ Heq;
             repeat match type of Heq with
                    | Some _ = Some _ => injection Heq as Heq
                    | Some _ = _ <$> ?x => destruct x; cbn in Heq; [|discriminate]
                    end; by subst v|]).
    by apply elem_of_nil in Hin'. }
  by apply (Hval k (Some v)).
Qed.

End Dictionary.

Lemma to_dict_reads_witness :
  exists r σ',
    to_dict (py "2024-05-01T10:00:00") (fun _ => inl TypeError) video_state
    = (Ret (VDict r), σ')
    /\ store video_state !! r = None
    /\ self_dict σ' = (if bool_decide (is_Some (self_dict video_state !! "start"))
                       then self_dict video_state
                       else <["start" := VStr (py "2024-05-01T10:00:00")]>
                              (self_dict video_state))
    /\ (forall l, is_Some (store video_state !! l) ->
                  store σ' !! l = store video_state !! l)
    /\ forall k, deref σ' r !! k
                 = match self_dict σ' !! k with
                   | Some v => if is_None v then None else Some v
                   | None => None
                   end.
Proof.
  apply (to_dict_reads (py "2024-05-01T10:00:00") (fun _ => inl TypeError) video_state).
  reflexivity.
Defined.

Lemma init_then_to_dict_witness :
  exists r σ2,
    to_dict (py "2024-05-01T10:00:00") (fun _ => inl TypeError)
      (__init__ (sample_env 200)
         (sample_args (py "text") sample_start (Some (py "a.txt")) None None None) []
         empty_state).2
    = (Ret (VDict r), σ2)
    /\ self_dict σ2
       = self_dict (__init__ (sample_env 200)
                      (sample_args (py "text") sample_start (Some (py "a.txt")) None None
                         None) [] empty_state).2
    /\ forall k v,
         (k, Some v) ∈ init_locals
                         (sample_args (py "text") sample_start (Some (py "a.txt")) None
                            None None) (py "2024-01-01T00:00:00+00:00") ->
         deref σ2 r !! k = Some v.
Proof.
  apply (init_then_to_dict (py "2024-05-01T10:00:00") (fun _ => inl TypeError)
           (sample_env 200)
           (sample_args (py "text") sample_start (Some (py "a.txt")) None None None) []
           ∅ [] (py "2024-01-01T00:00:00+00:00")).
  - constructor.
  - vm_compute. reflexivity.
  - reflexivity.
  - vm_compute. reflexivity.
Defined.

(** ** The mimetype lists *)

Lemma mimetype_of_ext_listed (ext : list N) :
  init_mimetype_of_ext ext ∈ VIDEO_MIMETYPES
  /\ init_mimetype_of_ext ext ∈ MIME_TYPES.
Proof.
  unfold init_mimetype_of_ext.
  repeat case_bool_decide;
    (split;
     [refine (bool_decide_unpack (_ ∈ VIDEO_MIMETYPES) _)
     |refine (bool_decide_unpack (_ ∈ MIME_TYPES) _)]; vm_compute; exact I).
Qed.

(** X16: an inferred mimetype is a listed one.  A video fragment
    constructed without a mimetype, whatever its filename, ends with a
    mimetype that [is_video] recognises and that [MIME_TYPES] lists; so
    does every extension looked up in the table of [add_video_data]. *)
Theorem init_video_mimetype_listed (env : Env) (a : InitArgs)
    (kwargs : list (string * value)) (s : gmap N (gmap string value)) (o : list exn) :
  kwargs_ok init_params kwargs ->
  arg_type a = py "video" ->
  arg_mimetype a = None ->
  start_parses env a ->
  (exists σ' mimetype,
     __init__ env a kwargs (State ∅ s o) = (Ret tt, σ')
     /\ self_dict σ' !! "mimetype" = Some (VStr mimetype)
     /\ mimetype ∈ VIDEO_MIMETYPES
     /\ mimetype ∈ MIME_TYPES)
  /\ forall ext, add_video_mimetype_of_ext ext ∈ VIDEO_MIMETYPES
                 /\ add_video_mimetype_of_ext ext ∈ MIME_TYPES.
Proof.
  intros Hkw Htype Hmt Hstart. split.
  - rewrite (init_run env a kwargs s o Hkw). unfold init_result.
    rewrite Htype, Hmt, (@bool_decide_is_Some_None (list N)).
    replace (bool_decide (py "video" ∈ VALID_TYPES)) with true
      by (vm_compute; reflexivity).
    replace (bool_decide (py "video" = py "incomplete")) with false
      by (vm_compute; reflexivity).
    replace (bool_decide (py "video" = py "video")) with true
      by (vm_compute; reflexivity).
    cbn [andb negb].
    assert (Hlisted : init_default_mimetype env a ∈ VIDEO_MIMETYPES
                      /\ init_default_mimetype env a ∈ MIME_TYPES).
    { unfold init_default_mimetype.
      assert (Hmp4 : py "video/mp4" ∈ VIDEO_MIMETYPES /\ py "video/mp4" ∈ MIME_TYPES).
      { split;
          [refine (bool_decide_unpack (_ ∈ VIDEO_MIMETYPES) _)
          |refine (bool_decide_unpack (_ ∈ MIME_TYPES) _)]; vm_compute; exact I. }
      destruct (arg_filename a) as [f|]; [|exact Hmp4].
      destruct (bool_decide (f = [])); [exact Hmp4|apply mimetype_of_ext_listed]. }
    unfold normalised_start. unfold start_parses in Hstart.
    destruct (arg_start a) as [iso|str]; [|destruct Hstart as [iso ->]];
      eexists _, _; (split; [reflexivity|]); cbn [self_dict];
      rewrite lookup_insert_eq; (split; [reflexivity|exact Hlisted]).
  - intros ext. rewrite mimetype_chains_agree. apply mimetype_of_ext_listed.
Qed.

Lemma init_video_mimetype_listed_witness :
  (exists σ' mimetype,
     __init__ (sample_env 200)
       (sample_args (py "video") sample_start (Some (py "clip.MOV")) None None None) []
       empty_state = (Ret tt, σ')
     /\ self_dict σ' !! "mimetype" = Some (VStr mimetype)
     /\ mimetype ∈ VIDEO_MIMETYPES
     /\ mimetype ∈ MIME_TYPES)
  /\ forall ext, add_video_mimetype_of_ext ext ∈ VIDEO_MIMETYPES
                 /\ add_video_mimetype_of_ext ext ∈ MIME_TYPES.
Proof.
  apply (init_video_mimetype_listed (sample_env 200)
           (sample_args (py "video") sample_start (Some (py "clip.MOV")) None None None)
           [] ∅ []).
  - constructor.
  - reflexivity.
  - reflexivity.
  - vm_compute. eauto.
Defined.

(** ** Classification of a new object *)

(** X17: the predicates read what construction was given.  When
    [Dialog(...)] returns, each of [is_text], [is_recording], [is_transfer]
    and [is_incomplete] answers whether [type] was its own name, so at most
    one of them holds; [is_video] holds when [type] was "video"; and for a
    mimetype that was given, [is_email] and [is_audio] answer whether it is
    "message/rfc822", or one of the audio mimetypes.  None of them changes
    anything. *)
Theorem init_classifies (env : Env) (a : InitArgs) (kwargs : list (string * value))
    (s : gmap N (gmap string value)) (o : list exn) (start : list N) (σ' : state) :
  kwargs_ok init_params kwargs ->
  normalised_start env a = inl start ->
  __init__ env a kwargs (State ∅ s o) = (Ret tt, σ') ->
  is_text σ' = (Ret (bool_decide (arg_type a = py "text")), σ')
  /\ is_recording σ' = (Ret (bool_decide (arg_type a = py "recording")), σ')
  /\ is_transfer σ' = (Ret (bool_decide (arg_type a = py "transfer")), σ')
  /\ is_incomplete σ' = (Ret (bool_decide (arg_type a = py "incomplete")), σ')
  /\ (arg_type a = py "video" -> is_video σ' = (Ret true, σ'))
  /\ forall mimetype,
       arg_mimetype a = Some mimetype ->
       is_email σ' = (Ret (bool_decide (mimetype = py "message/rfc822")), σ')
       /\ is_audio σ' = (Ret (bool_decide (mimetype ∈ AUDIO_MIMETYPES)), σ').
Proof.
  intros Hkw Hstart Hrun. rewrite (init_run env a kwargs s o Hkw) in Hrun.
  assert (Htype : self_dict σ' !! "type" = Some (VStr (arg_type a))).
  { apply (init_result_keeps env a kwargs s o start σ' _ _ Hkw Hstart Hrun).
    unfold init_locals. apply list_elem_of_here. }
  unfold is_text, is_recording, is_transfer, is_incomplete, is_video, is_email, is_audio,
    type_is_of, is_video_of, is_email_of, is_audio_of.
  rewrite Htype. cbn [value_is].
  do 4 (split; [reflexivity|]). split.
  - intros ->. by rewrite bool_decide_eq_true_2.
  - intros mimetype Hgiven.
    assert (Hmt : self_dict σ' !! "mimetype" = Some (VStr mimetype)).
    { apply (init_result_keeps env a kwargs s o start σ' _ _ Hkw Hstart Hrun).
      unfold init_locals. rewrite Hgiven.
      repeat first [apply list_elem_of_here | apply list_elem_of_further]. }
    by rewrite Hmt.
Qed.

Lemma init_classifies_witness :
  let σ' := (__init__ (sample_env 200)
               (sample_args (py "text") sample_start None None None None) []
               empty_state).2 in
  is_text σ' = (Ret true, σ')
  /\ is_recording σ' = (Ret false, σ')
  /\ is_transfer σ' = (Ret false, σ')
  /\ is_incomplete σ' = (Ret false, σ').
Proof.
  destruct (init_classifies (sample_env 200)
              (sample_args (py "text") sample_start None None None None) [] ∅ []
              (py "2024-01-01T00:00:00+00:00")
              (__init__ (sample_env 200)
                 (sample_args (py "text") sample_start None None None None) []
                 empty_state).2)
    as (H1 & H2 & H3 & H4 & _).
  - constructor.
  - vm_compute. reflexivity.
  - vm_compute. reflexivity.
  - repeat split; assumption.
Defined.
